(** * Excel report pipeline: importer and analyzer

    A shallow embedding of [task_manager/excel_report/importer.py] and
    [task_manager/excel_report/analyzer.py], and the properties of the
    specification checked against it.

    Conventions of the embedding.
    - A Python [str] is the list of its code points.  What Python does with
      ASCII is written out; what it takes from the Unicode database for code
      points from 128 on (white space, decimal digits, lower case) is a
      parameter, the class [Unicode].
    - A Python [float] is an IEEE 754 binary64 number, [spec_float] with
      precision 53 and maximal exponent 1024; every operation rounds to
      nearest, ties to even.  [sum] adds from left to right, and [x ** 2] is
      the rounded product of [x] with itself.
    - A Python [int] is a [Z], and [str] of an [int] has no limit of length.
    - An exception is a value: fallible code returns [result].
    - The clock is an argument: the functions that read [datetime.now()]
      take its reading.
    - The workbook is the one that [load_workbook] has opened: its
      worksheets, each the list of its rows of cell values. *)

From Stdlib Require Import ZArith NArith Bool Lia String Ascii SpecFloat.
From Stdlib Require Import List Permutation Sorted.
Import ListNotations.

Local Open Scope Z_scope.

(** ** Exceptions *)

Inductive exn : Set :=
| OverflowError
| ValueError
| ZeroDivisionError
| IndexError.

Inductive result (A : Type) : Type :=
| Ok (a : A)
| Raise (e : exn).

Arguments Ok {A} a.
Arguments Raise {A} e.

Definition bind {A B : Type} (r : result A) (k : A -> result B) : result B :=
  match r with
  | Ok a => k a
  | Raise e => Raise e
  end.

Notation "x <- r ;; k" := (bind r (fun x => k))
  (at level 61, r at next level, right associativity).

(** [for x in xs: acc = body(acc, x)], with a body that may raise. *)
Fixpoint for_each {A S : Type} (body : S -> A -> result S) (xs : list A) (acc : S)
  : result S :=
  match xs with
  | [] => Ok acc
  | x :: xs' => acc' <- body acc x ;; for_each body xs' acc'
  end.

(** [[f(x) for x in xs]], with an [f] that may raise. *)
Fixpoint map_result {A B : Type} (f : A -> result B) (xs : list A) : result (list B) :=
  match xs with
  | [] => Ok []
  | x :: xs' => y <- f x ;; ys <- map_result f xs' ;; Ok (y :: ys)
  end.

Definition is_some {A : Type} (o : option A) : bool :=
  match o with Some _ => true | None => false end.

(** ** Strings *)

Definition char := N.
Bind Scope N_scope with char.
Definition str := list char.

(** An ASCII literal as a [str]. *)
Definition lit (s : string) : str := map N_of_ascii (list_ascii_of_string s).

Fixpoint str_eqb (a b : str) : bool :=
  match a, b with
  | [], [] => true
  | x :: a', y :: b' => N.eqb x y && str_eqb a' b'
  | _, _ => false
  end.

Definition str_in (s : str) (l : list str) : bool := existsb (str_eqb s) l.

(** The Unicode database beyond ASCII.  Every field is consulted for code
    points from 128 on only. *)
Class Unicode : Type := {
  uc_space : char -> bool;          (* white space, as [str.isspace] *)
  uc_decimal : char -> option Z;    (* value of a decimal digit (category Nd) *)
  uc_lower : str -> str;            (* [str.lower] of a string that is not all ASCII *)
  uc_tolower : char -> char         (* simple lower-case mapping, as [re] uses *)
}.

Definition is_ascii (c : char) : bool := N.ltb c 128%N.

Definition in_range (lo hi c : char) : bool := N.leb lo c && N.leb c hi.

Section Text.
Context {U : Unicode}.

(** [\t \n \v \f \r], the separators 0x1c-0x1f and the space. *)
Definition isspace (c : char) : bool :=
  if is_ascii c then in_range 9 13 c || in_range 28 32 c else uc_space c.

Definition decimal_value (c : char) : option Z :=
  if is_ascii c then
    if in_range 48 57 c then Some (Z.of_N c - 48) else None
  else uc_decimal c.

Definition isdecimal (c : char) : bool := is_some (decimal_value c).

Definition ascii_lower (c : char) : char :=
  if in_range 65 90 c then N.add c 32 else c.

Definition tolower (c : char) : char :=
  if is_ascii c then ascii_lower c else uc_tolower c.

(** [s.lower()] *)
Definition lower (s : str) : str :=
  if forallb is_ascii s then map ascii_lower s else uc_lower s.

Fixpoint lstrip (s : str) : str :=
  match s with
  | c :: s' => if isspace c then lstrip s' else s
  | [] => []
  end.

Definition rstrip (s : str) : str := rev (lstrip (rev s)).

(** [s.strip()] *)
Definition strip (s : str) : str := rstrip (lstrip s).

End Text.

(** [s.replace(old, new)] for a one-character [old]. *)
Definition replace (old : char) (new : str) (s : str) : str :=
  flat_map (fun c => if N.eqb c old then new else [c]) s.

Fixpoint drop_while {A : Type} (p : A -> bool) (l : list A) : list A :=
  match l with
  | x :: l' => if p x then drop_while p l' else l
  | [] => []
  end.

(** [s.rstrip(chars)] for a one-character [chars]. *)
Definition rstrip_char (c : char) (s : str) : str :=
  rev (drop_while (N.eqb c) (rev s)).

(** ** Regular expressions

    The patterns of the importer use character sets, concatenation,
    alternation and repetition only, each between [^] and [$], and the code
    asks whether [match] succeeds: that is membership in the pattern's
    language, decided here with derivatives. *)

Inductive regex : Type :=
| Void
| Eps
| Cls (p : char -> bool)
| Cat (r1 r2 : regex)
| Alt (r1 r2 : regex)
| Star (r : regex).

Fixpoint nullable (r : regex) : bool :=
  match r with
  | Void => false
  | Eps => true
  | Cls _ => false
  | Cat r1 r2 => nullable r1 && nullable r2
  | Alt r1 r2 => nullable r1 || nullable r2
  | Star _ => true
  end.

Fixpoint deriv (c : char) (r : regex) : regex :=
  match r with
  | Void => Void
  | Eps => Void
  | Cls p => if p c then Eps else Void
  | Cat r1 r2 =>
      if nullable r1 then Alt (Cat (deriv c r1) r2) (deriv c r2)
      else Cat (deriv c r1) r2
  | Alt r1 r2 => Alt (deriv c r1) (deriv c r2)
  | Star r1 => Cat (deriv c r1) (Star r1)
  end.

Fixpoint accepts (r : regex) (s : str) : bool :=
  match s with
  | [] => nullable r
  | c :: s' => accepts (deriv c r) s'
  end.

(** [r?], [r+], [r{n,}] and [r{n,m}] (here as [r{n, n+k}]). *)
Definition Opt (r : regex) : regex := Alt Eps r.
Definition Plus (r : regex) : regex := Cat r (Star r).

Fixpoint AtLeast (n : nat) (r : regex) : regex :=
  match n with
  | O => Star r
  | S n' => Cat r (AtLeast n' r)
  end.

Fixpoint UpTo (k : nat) (r : regex) : regex :=
  match k with
  | O => Eps
  | S k' => Opt (Cat r (UpTo k' r))
  end.

Fixpoint Between (n k : nat) (r : regex) : regex :=
  match n with
  | O => UpTo k r
  | S n' => Cat r (Between n' k r)
  end.

Definition Chr (c : char) : regex := Cls (N.eqb c).

Fixpoint Seq (rs : list regex) : regex :=
  match rs with
  | [] => Eps
  | [r] => r
  | r :: rs' => Cat r (Seq rs')
  end.

Fixpoint ends_with_newline (s : str) : bool :=
  match s with
  | [] => false
  | [c] => N.eqb c 10
  | _ :: s' => ends_with_newline s'
  end.

(** [re.compile("^body$").match(s) is not None]: [$] matches at the end of
    the string and also just before a newline that ends it. *)
Definition re_match (body : regex) (s : str) : bool :=
  accepts body s || (ends_with_newline s && accepts body (removelast s)).

(** ** Floats *)

Definition float := spec_float.
Definition prec : Z := 53.
Definition emax : Z := 1024.

Definition fadd : float -> float -> float := SFadd prec emax.
Definition fsub : float -> float -> float := SFsub prec emax.
Definition fmul : float -> float -> float := SFmul prec emax.
Definition fdiv : float -> float -> float := SFdiv prec emax.
Definition flt : float -> float -> bool := SFltb.
Definition fle : float -> float -> bool := SFleb.
Definition feq : float -> float -> bool := SFeqb.

Definition is_infinite (f : float) : bool :=
  match f with S754_infinity _ => true | _ => false end.

Definition is_nan (f : float) : bool :=
  match f with S754_nan => true | _ => false end.

Definition is_zero (f : float) : bool :=
  match f with S754_zero _ => true | _ => false end.

(** The float nearest to an integer. *)
Definition Z2F (n : Z) : float := binary_normalize prec emax n 0 false.

(** [float(n)] for an [int]: "int too large to convert to float". *)
Definition float_of_int (n : Z) : result float :=
  let f := Z2F n in
  if is_infinite f then Raise OverflowError else Ok f.

(** The float nearest to [m / d], for positive [m] and [d]. *)
Definition round_quotient (neg : bool) (m d : Z) : float :=
  let '(q, e, l) := SFdiv_core_binary prec emax m 0 d 0 in
  binary_round_aux prec emax neg q e l.

(** The float nearest to [(-1)^neg * d * 10^e10]: what [float] makes of a
    decimal numeral; it overflows to an infinity and underflows to a zero. *)
Definition of_decimal (neg : bool) (d e10 : Z) : float :=
  match d with
  | Z0 => S754_zero neg
  | Zpos p =>
      if 0 <=? e10 then binary_round prec emax neg (p * Z.to_pos (10 ^ e10)) 0
      else round_quotient neg d (10 ^ (- e10))
  | Zneg _ => S754_nan
  end.

(** [a / b] for two [int]s: the float nearest to the quotient. *)
Definition int_truediv (a b : Z) : result float :=
  if b =? 0 then Raise ZeroDivisionError
  else
    let neg := xorb (a <? 0) (b <? 0) in
    if a =? 0 then Ok (S754_zero neg)
    else
      let f := round_quotient neg (Z.abs a) (Z.abs b) in
      if is_infinite f then Raise OverflowError else Ok f.

(** [x / n] for a float and an [int]. *)
Definition fdiv_int (x : float) (n : Z) : result float :=
  y <- float_of_int n ;;
  if is_zero y then Raise ZeroDivisionError else Ok (fdiv x y).

(** [x ** 2]: the product, and "Numerical result out of range" when a finite
    [x] has an infinite square. *)
Definition fsquare (x : float) : result float :=
  let y := fmul x x in
  if is_infinite y && negb (is_infinite x) then Raise OverflowError else Ok y.

(** [math.sqrt(x)]: "math domain error" below zero. *)
Definition math_sqrt (x : float) : result float :=
  match x with
  | S754_infinity true | S754_finite true _ _ => Raise ValueError
  | _ => Ok (SFsqrt prec emax x)
  end.

(** [sum(xs)] for floats: from the [int] 0, which the first addition turns
    into 0.0, one rounded addition after the other. *)
Definition fsum (xs : list float) : float := fold_left fadd xs (S754_zero false).

(** Comparison of an [int] with a float, exact as in Python. *)
Definition compare_int_float (n : Z) (f : float) : option comparison :=
  match f with
  | S754_nan => None
  | S754_infinity s => Some (if s then Gt else Lt)
  | S754_zero _ => Some (n ?= 0)
  | S754_finite s m e =>
      let v := if s then Zneg m else Zpos m in
      Some (if 0 <=? e then n ?= v * 2 ^ e else n * 2 ^ (- e) ?= v)
  end.

(** A number that is an [int] or a float, where the code mixes them. *)
Inductive num : Type :=
| Int (n : Z)
| Float (f : float).

Definition to_float (a : num) : result float :=
  match a with
  | Int n => float_of_int n
  | Float f => Ok f
  end.

Definition num_add (a b : num) : result num :=
  match a, b with
  | Int x, Int y => Ok (Int (x + y))
  | _, _ => x <- to_float a ;; y <- to_float b ;; Ok (Float (fadd x y))
  end.

Definition num_sub (a b : num) : result num :=
  match a, b with
  | Int x, Int y => Ok (Int (x - y))
  | _, _ => x <- to_float a ;; y <- to_float b ;; Ok (Float (fsub x y))
  end.

Definition num_truediv (a b : num) : result float :=
  match a, b with
  | Int x, Int y => int_truediv x y
  | _, _ =>
      x <- to_float a ;; y <- to_float b ;;
      if is_zero y then Raise ZeroDivisionError else Ok (fdiv x y)
  end.

Definition num_compare (a b : num) : option comparison :=
  match a, b with
  | Int x, Int y => Some (x ?= y)
  | Int x, Float g => compare_int_float x g
  | Float f, Int y => option_map CompOpp (compare_int_float y f)
  | Float f, Float g => SFcompare f g
  end.

Definition num_lt (a b : num) : bool :=
  match num_compare a b with Some Lt => true | _ => false end.

Definition num_eq (a b : num) : bool :=
  match num_compare a b with Some Eq => true | _ => false end.

(** [min(a, b)] and [max(a, b)]: the first argument unless the second is
    strictly smaller, respectively greater. *)
Definition py_min (a b : num) : num := if num_lt b a then b else a.
Definition py_max (a b : num) : num := if num_lt a b then b else a.

(** [sum(xs)] for numbers. *)
Definition py_sum (xs : list num) : result num := for_each num_add xs (Int 0).

(** ** Numerals *)

Section Numerals.
Context {U : Unicode}.

(** The rest of a [digitpart]: digits, each perhaps after one underscore.
    [v] is the value and [n] the number of digits read so far. *)
Fixpoint digits (s : str) (v n : Z) : Z * Z * str :=
  match s with
  | [] => (v, n, [])
  | c :: s' =>
      match decimal_value c with
      | Some d => digits s' (10 * v + d) (n + 1)
      | None =>
          if N.eqb c 95 then
            match s' with
            | c' :: s'' =>
                match decimal_value c' with
                | Some d => digits s'' (10 * v + d) (n + 1)
                | None => (v, n, s)
                end
            | [] => (v, n, s)
            end
          else (v, n, s)
      end
  end.

(** [digitpart ::= digit (["_"] digit)*], continuing the value [v]. *)
Definition digitpart (v : Z) (s : str) : option (Z * Z * str) :=
  match s with
  | c :: s' =>
      match decimal_value c with
      | Some d => Some (digits s' (10 * v + d) 1)
      | None => None
      end
  | [] => None
  end.

Definition sign (s : str) : bool * str :=
  match s with
  | c :: s' =>
      if N.eqb c 45 then (true, s')
      else if N.eqb c 43 then (false, s')
      else (false, s)
  | [] => (false, [])
  end.

(** [int(s)] for a string, in base 10. *)
Definition int_of_str (s : str) : result Z :=
  let '(neg, body) := sign (strip s) in
  match digitpart 0 body with
  | Some (v, _, []) => Ok (if neg then - v else v)
  | _ => Raise ValueError
  end.

(** [number ::= [digitpart] "." digitpart | digitpart ["."]]: the digits as
    an integer, the number of digits after the point, and the rest. *)
Definition number (s : str) : option (Z * Z * str) :=
  match s with
  | c :: s' =>
      if N.eqb c 46 then digitpart 0 s'
      else
        match digitpart 0 s with
        | Some (i, _, rest) =>
            match rest with
            | c' :: r =>
                if N.eqb c' 46 then
                  match digitpart i r with
                  | Some x => Some x
                  | None => Some (i, 0, r)
                  end
                else Some (i, 0, rest)
            | [] => Some (i, 0, [])
            end
        | None => None
        end
  | [] => None
  end.

(** [exponent ::= ("e" | "E") [sign] digitpart], or nothing, up to the end. *)
Definition exponent (s : str) : option Z :=
  match s with
  | [] => Some 0
  | c :: s' =>
      if N.eqb c 101 || N.eqb c 69 then
        let '(neg, body) := sign s' in
        match digitpart 0 body with
        | Some (v, _, []) => Some (if neg then - v else v)
        | _ => None
        end
      else None
  end.

(** [float(s)] for a string. *)
Definition float_of_str (s : str) : result float :=
  let '(neg, body) := sign (strip s) in
  let word := map ascii_lower body in
  if str_in word [lit "inf"; lit "infinity"] then Ok (S754_infinity neg)
  else if str_eqb word (lit "nan") then Ok S754_nan
  else
    match number body with
    | Some (d, nfrac, rest) =>
        match exponent rest with
        | Some e => Ok (of_decimal neg d (e - nfrac))
        | None => Raise ValueError
        end
    | None => Raise ValueError
    end.

End Numerals.

(** A runtime whose Unicode tables are empty beyond ASCII. *)
Definition ascii_only : Unicode :=
  {| uc_space := fun _ => false;
     uc_decimal := fun _ => None;
     uc_lower := fun s => s;
     uc_tolower := fun c => c |}.

(** ** Numbers as text *)

Definition digit_char (d : Z) : char := N.add 48 (Z.to_N d).

Fixpoint decimal (fuel : nat) (n : Z) (acc : str) : str :=
  match fuel with
  | O => acc
  | S fuel' =>
      if n <? 10 then digit_char n :: acc
      else decimal fuel' (n / 10) (digit_char (n mod 10) :: acc)
  end.

(** The decimal numeral of a natural number. *)
Definition str_of_nat (n : Z) : str := decimal (S (Z.to_nat (Z.log2 n))) n [].

(** [str(n)] for an [int]. *)
Definition str_of_int (n : Z) : str :=
  if n <? 0 then 45%N :: str_of_nat (- n) else str_of_nat n.

(** [n] written with at least [width] digits, as [%0<width>d]. *)
Definition zero_padded (width : nat) (n : Z) : str :=
  let ds := str_of_nat n in
  repeat 48%N (width - length ds) ++ ds.

Definition same_float (f g : float) : bool :=
  match f, g with
  | S754_zero s, S754_zero t => Bool.eqb s t
  | S754_infinity s, S754_infinity t => Bool.eqb s t
  | S754_nan, S754_nan => true
  | S754_finite s m e, S754_finite t n d => Bool.eqb s t && Pos.eqb m n && (e =? d)
  | _, _ => false
  end.

(** The position of the decimal point of [num / den > 0]: the [k] with
    [10^(k-1) <= num / den < 10^k]. *)
Fixpoint leading_zeros (fuel : nat) (num den j : Z) : Z :=
  match fuel with
  | O => j
  | S fuel' =>
      if den <=? num * 10 then j else leading_zeros fuel' (num * 10) den (j + 1)
  end.

Definition decimal_point (num den : Z) : Z :=
  if den <=? num then Z.of_nat (length (str_of_nat (num / den)))
  else - leading_zeros (S (Z.to_nat (Z.log2 den))) num den 0.

(** The shortest decimal [d * 10^x] that [float] reads back as [m * 2^e],
    the nearest one where two are as short: [repr] prints its digits. *)
Fixpoint shortest (fuel : nat) (n : Z) (m : positive) (e : Z) (num den k : Z)
  : Z * Z :=
  let t := n - k in
  let num' := if 0 <=? t then num * 10 ^ t else num in
  let den' := if 0 <=? t then den else den * 10 ^ (- t) in
  let lo := num' / den' in
  let r := num' mod den' in
  let back d := same_float (of_decimal false d (- t)) (S754_finite false m e) in
  let lo_ok := back lo in
  let hi_ok := negb (r =? 0) && back (lo + 1) in
  let nearest :=
      if 2 * r <? den' then lo
      else if den' <? 2 * r then lo + 1
      else if Z.even lo then lo else lo + 1 in
  match fuel with
  | O => (nearest, - t)
  | S fuel' =>
      if lo_ok && hi_ok then (nearest, - t)
      else if lo_ok then (lo, - t)
      else if hi_ok then (lo + 1, - t)
      else shortest fuel' (n + 1) m e num den k
  end.

Definition strip_zeros (ds : str) : str := rev (drop_while (N.eqb 48) (rev ds)).

(** [repr(x)] of a float, which is its [str(x)]. *)
Definition repr_float (x : float) : str :=
  match x with
  | S754_nan => lit "nan"
  | S754_infinity s => if s then lit "-inf" else lit "inf"
  | S754_zero s => if s then lit "-0.0" else lit "0.0"
  | S754_finite s m e =>
      let num := if 0 <=? e then Zpos m * 2 ^ e else Zpos m in
      let den := if 0 <=? e then 1 else 2 ^ (- e) in
      let '(d, x10) := shortest 16 1 m e num den (decimal_point num den) in
      let all := str_of_nat d in
      let ds := strip_zeros all in
      let decpt := Z.of_nat (length all) + x10 in
      let body :=
          if (decpt <=? -4) || (16 <? decpt) then
            let mant :=
                match ds with
                | [c] => [c]
                | c :: rest => c :: 46%N :: rest
                | [] => []
                end in
            let ex := decpt - 1 in
            mant ++ [101%N; if ex <? 0 then 45%N else 43%N]
                 ++ zero_padded 2 (Z.abs ex)
          else if decpt <=? 0 then
            lit "0." ++ repeat 48%N (Z.to_nat (- decpt)) ++ ds
          else if Z.of_nat (length ds) <=? decpt then
            ds ++ repeat 48%N (Z.to_nat decpt - length ds) ++ lit ".0"
          else
            firstn (Z.to_nat decpt) ds ++ 46%N :: skipn (Z.to_nat decpt) ds in
      if s then 45%N :: body else body
  end.

(** ** Lists, dictionaries and sorting *)

(** [l[i]] *)
Definition py_index {A : Type} (l : list A) (i : Z) : result A :=
  let n := Z.of_nat (length l) in
  let j := if i <? 0 then i + n else i in
  if (0 <=? j) && (j <? n) then
    match nth_error l (Z.to_nat j) with
    | Some x => Ok x
    | None => Raise IndexError
    end
  else Raise IndexError.

(** [l[:n]] *)
Definition slice_to {A : Type} (n : Z) (l : list A) : list A :=
  if 0 <=? n then firstn (Z.to_nat n) l
  else firstn (length l - Z.to_nat (- n)) l.

(** A [dict] with string keys, in insertion order. *)
Definition dict (V : Type) : Type := list (str * V).

Fixpoint dict_get {V : Type} (d : dict V) (k : str) : option V :=
  match d with
  | [] => None
  | (k', v) :: d' => if str_eqb k' k then Some v else dict_get d' k
  end.

(** [d[k] = v] *)
Fixpoint dict_set {V : Type} (d : dict V) (k : str) (v : V) : dict V :=
  match d with
  | [] => [(k, v)]
  | (k', v') :: d' =>
      if str_eqb k' k then (k', v) :: d' else (k', v') :: dict_set d' k v
  end.

(** [d[k] = d.get(k, 0) + 1] *)
Definition dict_incr (d : dict Z) (k : str) : dict Z :=
  dict_set d k (match dict_get d k with Some n => n | None => 0 end + 1).

Definition sum_Z (l : list Z) : Z := fold_left Z.add l 0.

Fixpoint insert_sorted {A : Type} (lt : A -> A -> bool) (x : A) (l : list A) : list A :=
  match l with
  | [] => [x]
  | y :: l' => if lt x y then x :: l else y :: insert_sorted lt x l'
  end.

(** [sorted(l)] under the order [lt]: a stable sort, equal elements keep
    their order.  Where [lt] is a strict weak order on the elements of the
    list (integers, dates, floats without a NaN) there is one stable sorted
    arrangement, which this is and which Python's sort gives.  With a NaN
    among floats [<] is no such order, the result of Python's sort depends
    on its algorithm, and this definition does not follow it: the statements
    below about sorted floats are for lists without a NaN. *)
Definition sorted {A : Type} (lt : A -> A -> bool) (l : list A) : list A :=
  fold_left (fun acc x => insert_sorted lt x acc) l [].

(** Two lists with the same elements: equality of the sets they list. *)
Definition same_set (a b : list str) : bool :=
  forallb (fun x => str_in x b) a && forallb (fun x => str_in x a) b.

(** * The importer: [task_manager/excel_report/importer.py] *)

(** ** Cell values *)

Record date : Set := { year : Z; month : Z; day : Z }.

Record time : Set := { hour : Z; minute : Z; second : Z; microsecond : Z }.

(** What a cell holds: [None], a [bool], an [int], a [float], a [str], a
    [datetime], a [date] or a [time]. *)
Inductive value : Type :=
| VNone
| VBool (b : bool)
| VInt (n : Z)
| VFloat (f : float)
| VStr (s : str)
| VDateTime (d : date) (t : time)
| VDate (d : date)
| VTime (t : time).

(** ** [class DataType(Enum)] *)

Inductive DataType : Set :=
| INTEGER
| FLOAT
| PERCENTAGE
| CURRENCY
| TEXT
| BOOLEAN
| DATE
| TIME
| DATETIME
| EMAIL
| URL
| PHONE
| EMPTY
| MIXED.

Definition all_types : list DataType :=
  [INTEGER; FLOAT; PERCENTAGE; CURRENCY; TEXT; BOOLEAN; DATE; TIME; DATETIME;
   EMAIL; URL; PHONE; EMPTY; MIXED].

(** [dtype.value] *)
Definition type_value (t : DataType) : str :=
  match t with
  | INTEGER => lit "Integer"
  | FLOAT => lit "Float"
  | PERCENTAGE => lit "Percentage"
  | CURRENCY => lit "Currency"
  | TEXT => lit "Text"
  | BOOLEAN => lit "Boolean"
  | DATE => lit "Date"
  | TIME => lit "Time"
  | DATETIME => lit "DateTime"
  | EMAIL => lit "Email"
  | URL => lit "URL"
  | PHONE => lit "Phone"
  | EMPTY => lit "Empty"
  | MIXED => lit "Mixed"
  end.

(** [DataType(name)]: the member with that value, or [ValueError]. *)
Definition DataType_of_value (name : str) : result DataType :=
  match find (fun t => str_eqb (type_value t) name) all_types with
  | Some t => Ok t
  | None => Raise ValueError
  end.

Definition DataType_eqb (a b : DataType) : bool :=
  str_eqb (type_value a) (type_value b).

(** ** Patterns for string-based type detection *)

Definition euro : char := 8364.
Definition pound : char := 163.
Definition yen : char := 165.
Definition rupee : char := 8377.

Definition one_of (s : str) (c : char) : bool := existsb (N.eqb c) s.

Definition az (c : char) : bool := in_range 97 122 c.
Definition AZ (c : char) : bool := in_range 65 90 c.
Definition d09 (c : char) : bool := in_range 48 57 c.

Section Patterns.
Context {U : Unicode}.

(** [\d] and [\s] of a [str] pattern. *)
Definition digit : regex := Cls isdecimal.
Definition space : regex := Cls isspace.

(** A literal letter under [re.IGNORECASE]: the simple lower case of the
    character is the letter, or the long s where the letter is [s]. *)
Definition ChrI (c : char) : regex :=
  Cls (fun x => N.eqb (tolower x) c || (N.eqb c 115 && N.eqb (tolower x) 383)).

(** [^[a-zA-Z0-9._%+-]+@[a-zA-Z0-9.-]+\.[a-zA-Z]{2,}$] *)
Definition EMAIL_PATTERN : regex :=
  Seq [Plus (Cls (fun c => az c || AZ c || d09 c || one_of (lit "._%+-") c));
       Chr 64;
       Plus (Cls (fun c => az c || AZ c || d09 c || one_of (lit ".-") c));
       Chr 46;
       AtLeast 2 (Cls (fun c => az c || AZ c))].

(** [^https?://[^\s]+$], [re.IGNORECASE] *)
Definition URL_PATTERN : regex :=
  Seq [ChrI 104; ChrI 116; ChrI 116; ChrI 112; Opt (ChrI 115);
       Chr 58; Chr 47; Chr 47;
       Plus (Cls (fun c => negb (isspace c)))].

(** [^[\+]?[(]?[0-9]{1,4}[)]?[-\s./0-9]{6,}$] *)
Definition PHONE_PATTERN : regex :=
  Seq [Opt (Chr 43); Opt (Chr 40); Between 1 3 (Cls d09); Opt (Chr 41);
       AtLeast 6 (Cls (fun c => one_of (lit "-./") c || isspace c || d09 c))].

(** [^-?\d+\.?\d*\s*%$] *)
Definition PERCENTAGE_PATTERN : regex :=
  Seq [Opt (Chr 45); Plus digit; Opt (Chr 46); Star digit; Star space; Chr 37].

Definition currency_symbol : regex :=
  Cls (one_of [36%N; euro; pound; yen; rupee]).

(** [-?\d[\d,]*\.?\d*] *)
Definition amount : regex :=
  Seq [Opt (Chr 45); digit; Star (Cls (fun c => isdecimal c || N.eqb c 44));
       Opt (Chr 46); Star digit].

(** [^[$€£¥₹]\s*-?\d[\d,]*\.?\d*$|^-?\d[\d,]*\.?\d*\s*[$€£¥₹]$] *)
Definition CURRENCY_PATTERN : regex :=
  Alt (Seq [currency_symbol; Star space; amount])
      (Seq [amount; Star space; currency_symbol]).

(** ** [_detect_cell_type] *)

Definition succeeds {A : Type} (r : result A) : bool :=
  match r with Ok _ => true | Raise _ => false end.

Definition _detect_cell_type (v : value) : DataType :=
  match v with
  | VNone => EMPTY
  | VBool _ => BOOLEAN
  | VInt _ => INTEGER
  | VFloat _ => FLOAT
  | VDateTime _ _ => DATETIME
  | VDate _ => DATE
  | VTime _ => TIME
  | VStr s =>
      let stripped := strip s in
      match stripped with
      | [] => EMPTY
      | _ =>
          if str_in (lower stripped) [lit "true"; lit "false"; lit "yes"; lit "no"]
          then BOOLEAN
          else if re_match PERCENTAGE_PATTERN stripped then PERCENTAGE
          else if re_match CURRENCY_PATTERN stripped then CURRENCY
          else if re_match EMAIL_PATTERN stripped then EMAIL
          else if re_match URL_PATTERN stripped then URL
          else if re_match PHONE_PATTERN stripped then PHONE
          else if succeeds (int_of_str (replace 44 [] stripped)) then INTEGER
          else if succeeds (float_of_str (replace 44 [] stripped)) then FLOAT
          else TEXT
      end
  end.

End Patterns.

(** ** [str(v)] and [==] on cell values *)

Definition iso_date (d : date) : str :=
  zero_padded 4 (year d) ++ 45%N :: zero_padded 2 (month d)
                         ++ 45%N :: zero_padded 2 (day d).

Definition iso_time (t : time) : str :=
  zero_padded 2 (hour t) ++ 58%N :: zero_padded 2 (minute t)
                         ++ 58%N :: zero_padded 2 (second t)
    ++ (if microsecond t =? 0 then [] else 46%N :: zero_padded 6 (microsecond t)).

(** [d.isoformat()] of a [datetime]; [str(d)] has a space for the [T]. *)
Definition isoformat (d : date) (t : time) : str :=
  iso_date d ++ 84%N :: iso_time t.

Definition str_of_value (v : value) : str :=
  match v with
  | VNone => lit "None"
  | VBool b => if b then lit "True" else lit "False"
  | VInt n => str_of_int n
  | VFloat f => repr_float f
  | VStr s => s
  | VDateTime d t => iso_date d ++ 32%N :: iso_time t
  | VDate d => iso_date d
  | VTime t => iso_time t
  end.

Definition date_eqb (a b : date) : bool :=
  (year a =? year b) && (month a =? month b) && (day a =? day b).

Definition time_eqb (a b : time) : bool :=
  (hour a =? hour b) && (minute a =? minute b) && (second a =? second b)
  && (microsecond a =? microsecond b).

Definition num_of_value (v : value) : option num :=
  match v with
  | VBool b => Some (Int (if b then 1 else 0))
  | VInt n => Some (Int n)
  | VFloat f => Some (Float f)
  | _ => None
  end.

(** [a == b]: numbers, among them the booleans, compare by value. *)
Definition value_eqb (a b : value) : bool :=
  match num_of_value a, num_of_value b with
  | Some x, Some y => num_eq x y
  | None, None =>
      match a, b with
      | VNone, VNone => true
      | VStr s, VStr s' => str_eqb s s'
      | VDateTime d t, VDateTime d' t' => date_eqb d d' && time_eqb t t'
      | VDate d, VDate d' => date_eqb d d'
      | VTime t, VTime t' => time_eqb t t'
      | _, _ => false
      end
  | _, _ => false
  end.

(** [s.add(v)] on a set, kept as the list of its elements. *)
Definition set_add (s : list value) (v : value) : list value :=
  if existsb (value_eqb v) s then s else s ++ [v].

(** ** [class ColumnInfo], [class SheetData], [class ImportResult] *)

Module ColumnInfo.
Record t : Type := {
  index : Z;
  letter : str;
  header : str;
  detected_type : DataType;
  non_empty_count : Z;
  empty_count : Z;
  total_count : Z;
  sample_values : list value;
  unique_count : Z;
  type_counts : dict Z
}.
End ColumnInfo.

Module SheetData.
Record t : Type := {
  name : str;
  columns : list ColumnInfo.t;
  rows : list (list value);
  headers : list str;
  row_count : Z;
  col_count : Z
}.

(** [SheetData(name)] *)
Definition init (name : str) : t :=
  {| name := name; columns := []; rows := []; headers := [];
     row_count := 0; col_count := 0 |}.
End SheetData.

(** The part of [s] after the last [c]: [s.rsplit(c, 1)[-1]]. *)
Definition after_last (c : char) (s : str) : str :=
  fold_left (fun acc x => if N.eqb x c then [] else acc ++ [x]) s [].

Module ImportResult.
Record t : Type := {
  file_path : str;
  file_name : str;
  sheets : list SheetData.t;
  import_time : str;
  total_rows : Z;
  total_columns : Z
}.

(** [ImportResult(file_path)]; [now] is [datetime.now().isoformat()]. *)
Definition init (now : str) (file_path : str) : t :=
  {| file_path := file_path;
     file_name := after_last 92 (after_last 47 file_path);
     sheets := [];
     import_time := now;
     total_rows := 0;
     total_columns := 0 |}.
End ImportResult.

(** ** [_resolve_column_type] *)

Definition f0_8 : float := Eval vm_compute in of_decimal false 8 (-1).

(** [for dtype, count in ...: if count / total >= 0.8: return DataType(dtype)],
    and [MIXED] after the loop. *)
Fixpoint dominant (total : Z) (items : list (str * Z)) : result DataType :=
  match items with
  | [] => Ok MIXED
  | (dtype, count) :: rest =>
      q <- int_truediv count total ;;
      if fle f0_8 q then DataType_of_value dtype else dominant total rest
  end.

Definition _resolve_column_type (type_counts : dict Z) : result DataType :=
  let non_empty :=
      filter (fun kv => negb (str_eqb (fst kv) (type_value EMPTY))) type_counts in
  match non_empty with
  | [] => Ok EMPTY
  | [(k, _)] => DataType_of_value k
  | _ =>
      let types_present := map fst non_empty in
      if same_set types_present [type_value INTEGER; type_value FLOAT] then Ok FLOAT
      else if same_set types_present [type_value DATE; type_value DATETIME]
      then Ok DATETIME
      else
        let total := sum_Z (map snd non_empty) in
        dominant total
          (sorted (fun x y => - snd x <? - snd y) non_empty)
  end.

(** ** [openpyxl.utils.get_column_letter] *)

Fixpoint column_letters (fuel : nat) (col_idx : Z) (letters : str) : str :=
  match fuel with
  | O => letters
  | S fuel' =>
      if col_idx <=? 0 then letters
      else
        let remainder := col_idx mod 26 in
        if remainder =? 0
        then column_letters fuel' (col_idx / 26 - 1) (Z.to_N (26 + 64) :: letters)
        else column_letters fuel' (col_idx / 26) (Z.to_N (remainder + 64) :: letters)
  end.

(** The letters of the column at a 1-based position, [A] to [ZZZ]; any other
    position is an "Invalid column index". *)
Definition get_column_letter (idx : Z) : result str :=
  if (1 <=? idx) && (idx <=? 18278) then Ok (column_letters 3 idx [])
  else Raise ValueError.

(** ** [class ExcelImporter] *)

(** A worksheet, as [ws.iter_rows(values_only=True)] lists it, and an open
    workbook: its worksheets under their names. *)
Definition worksheet : Type := list (list value).
Definition workbook : Type := list (str * worksheet).

Section Importer.
Context {U : Unicode}.

(** The label of column [i] (from 0), in the loop that builds the headers. *)
Definition header_label (raw_headers : option (list value)) (i : nat) : result str :=
  match raw_headers with
  | Some ((_ :: _) as hs) =>
      match nth_error hs i with
      | Some VNone | None =>
          l <- get_column_letter (Z.of_nat i + 1) ;; Ok (lit "Column_" ++ l)
      | Some v => Ok (str_of_value v)
      end
  | _ => l <- get_column_letter (Z.of_nat i + 1) ;; Ok (lit "Column_" ++ l)
  end.

(** What the loop over the values of a column accumulates. *)
Record column_scan : Type := {
  scan_type_counts : dict Z;
  scan_empty : Z;
  scan_non_empty : Z;
  scan_samples : list value;
  scan_unique : list value
}.

Definition scan_init : column_scan :=
  {| scan_type_counts := []; scan_empty := 0; scan_non_empty := 0;
     scan_samples := []; scan_unique := [] |}.

(** One turn of [for val in col_values]. *)
Definition scan_value (a : column_scan) (val : value) : column_scan :=
  let cell_type := _detect_cell_type val in
  let counts := dict_incr (scan_type_counts a) (type_value cell_type) in
  if DataType_eqb cell_type EMPTY then
    {| scan_type_counts := counts;
       scan_empty := scan_empty a + 1;
       scan_non_empty := scan_non_empty a;
       scan_samples := scan_samples a;
       scan_unique := scan_unique a |}
  else
    {| scan_type_counts := counts;
       scan_empty := scan_empty a;
       scan_non_empty := scan_non_empty a + 1;
       scan_samples :=
         if (length (scan_samples a) <? 5)%nat then scan_samples a ++ [val]
         else scan_samples a;
       scan_unique := set_add (scan_unique a) val |}.

(** One turn of [for col_idx in range(num_cols)]. *)
Definition detect_column (headers : list str) (normalized_rows : list (list value))
           (col_idx : nat) : result ColumnInfo.t :=
  letter <- get_column_letter (Z.of_nat col_idx + 1) ;;
  header <- py_index headers (Z.of_nat col_idx) ;;
  col_values <- map_result (fun row => py_index row (Z.of_nat col_idx)) normalized_rows ;;
  let a := fold_left scan_value col_values scan_init in
  detected <- _resolve_column_type (scan_type_counts a) ;;
  Ok {| ColumnInfo.index := Z.of_nat col_idx;
        ColumnInfo.letter := letter;
        ColumnInfo.header := header;
        ColumnInfo.detected_type := detected;
        ColumnInfo.non_empty_count := scan_non_empty a;
        ColumnInfo.empty_count := scan_empty a;
        ColumnInfo.total_count := Z.of_nat (length normalized_rows);
        ColumnInfo.sample_values := scan_samples a;
        ColumnInfo.unique_count := Z.of_nat (length (scan_unique a));
        ColumnInfo.type_counts := scan_type_counts a |}.

(** [padded = list(row) + [None] * (num_cols - len(row))], then
    [padded[:num_cols]]. *)
Definition normalize_row (num_cols : nat) (row : list value) : list value :=
  firstn num_cols (row ++ repeat VNone (num_cols - length row)).

Definition _process_sheet (ws : worksheet) (sheet_name : str) (has_header : bool)
           (max_rows : option Z) : result SheetData.t :=
  let sheet := SheetData.init sheet_name in
  let all_rows := ws in
  match all_rows with
  | [] => Ok sheet
  | first :: rest =>
      let raw_headers := if has_header then Some first else None in
      let data_rows := if has_header then rest else all_rows in
      let data_rows :=
          match max_rows with
          | Some n => slice_to n data_rows
          | None => data_rows
          end in
      let num_cols := list_max (map (@length value) all_rows) in
      headers <- map_result (header_label raw_headers) (seq 0 num_cols) ;;
      let normalized_rows := map (normalize_row num_cols) data_rows in
      columns <- map_result (detect_column headers normalized_rows) (seq 0 num_cols) ;;
      Ok {| SheetData.name := sheet_name;
            SheetData.columns := columns;
            SheetData.rows := normalized_rows;
            SheetData.headers := headers;
            SheetData.row_count := Z.of_nat (length data_rows);
            SheetData.col_count := Z.of_nat num_cols |}
  end.

(** [wb[sheet_name]] for a name among [wb.sheetnames]. *)
Fixpoint find_sheet (wb : workbook) (sheet_name : str) : option worksheet :=
  match wb with
  | [] => None
  | (n, ws) :: wb' => if str_eqb n sheet_name then Some ws else find_sheet wb' sheet_name
  end.

(** [import_file], from the workbook that [load_workbook(file_path)] has
    opened; [now] is the reading of the clock that stamps the result. *)
Definition import_file (now : str) (wb : workbook) (file_path : str)
           (sheet_names : option (list str)) (has_header : bool)
           (max_rows : option Z) : result ImportResult.t :=
  let sheets_to_process :=
      match sheet_names with
      | Some ((_ :: _) as l) => l
      | _ => map fst wb
      end in
  for_each
    (fun result sheet_name =>
       match find_sheet wb sheet_name with
       | None => Ok result
       | Some ws =>
           sheet_data <- _process_sheet ws sheet_name has_header max_rows ;;
           Ok {| ImportResult.file_path := ImportResult.file_path result;
                 ImportResult.file_name := ImportResult.file_name result;
                 ImportResult.sheets := ImportResult.sheets result ++ [sheet_data];
                 ImportResult.import_time := ImportResult.import_time result;
                 ImportResult.total_rows :=
                   ImportResult.total_rows result + SheetData.row_count sheet_data;
                 ImportResult.total_columns :=
                   ImportResult.total_columns result + SheetData.col_count sheet_data |}
       end)
    sheets_to_process (ImportResult.init now file_path).

End Importer.

(** * The analyzer: [task_manager/excel_report/analyzer.py] *)

(** ** Serialized values and [round] *)

(** What [to_dict] builds: [None], booleans, numbers, strings, lists and
    dictionaries. *)
#[warnings="-register-all"]
Inductive pyobj : Type :=
| ONone
| OBool (b : bool)
| OInt (n : Z)
| OFloat (f : float)
| OStr (s : str)
| OList (l : list pyobj)
| ODict (d : list (str * pyobj)).

(** [round(x, ndigits)] for a float and [ndigits >= 0]: the value is rounded
    to [ndigits] decimals, ties to even, and the decimal read as a float. *)
Definition py_round (x : float) (ndigits : Z) : float :=
  match x with
  | S754_finite s m e =>
      let num := (if 0 <=? e then Zpos m * 2 ^ e else Zpos m) * 10 ^ ndigits in
      let den := if 0 <=? e then 1 else 2 ^ (- e) in
      let q := num / den in
      let r := num mod den in
      let rounded :=
          if 2 * r <? den then q
          else if den <? 2 * r then q + 1
          else if Z.even q then q else q + 1 in
      of_decimal s rounded (- ndigits)
  | _ => x
  end.

(** [round(x, ndigits) if x is not None else None] *)
Definition rounded_or_none (x : option float) (ndigits : Z) : pyobj :=
  match x with
  | Some f => OFloat (py_round f ndigits)
  | None => ONone
  end.

Definition float_or_none (x : option float) : pyobj :=
  match x with Some f => OFloat f | None => ONone end.

Definition int_or_none (x : option Z) : pyobj :=
  match x with Some n => OInt n | None => ONone end.

Definition str_or_none (x : option str) : pyobj :=
  match x with Some s => OStr s | None => ONone end.

(** ** [class ColumnStats], [class SheetAnalysis], [class AnalysisResult] *)

Module ColumnStats.
Record t : Type := {
  header : str;
  data_type : DataType;
  total_count : Z;
  non_empty_count : Z;
  empty_count : Z;
  unique_count : Z;
  completeness : float;
  (* numeric stats *)
  min_val : option float;
  max_val : option float;
  sum_val : option float;
  mean_val : option float;
  median_val : option float;
  std_dev : option float;
  (* text stats *)
  min_length : option Z;
  max_length : option Z;
  avg_length : option float;
  (* categorical stats *)
  top_values : list (str * Z);
  (* date stats *)
  earliest : option str;
  latest : option str;
  (* boolean stats *)
  true_count : Z;
  false_count : Z;
  (* data quality *)
  duplicate_count : Z;
  has_outliers : bool;
  outlier_count : Z
}.

(** [ColumnStats(header, data_type)] *)
Definition init (header : str) (data_type : DataType) : t :=
  {| header := header; data_type := data_type;
     total_count := 0; non_empty_count := 0; empty_count := 0; unique_count := 0;
     completeness := S754_zero false;
     min_val := None; max_val := None; sum_val := None; mean_val := None;
     median_val := None; std_dev := None;
     min_length := None; max_length := None; avg_length := None;
     top_values := [];
     earliest := None; latest := None;
     true_count := 0; false_count := 0;
     duplicate_count := 0; has_outliers := false; outlier_count := 0 |}.

(** The assignments of [_analyze_column] before the type-specific part. *)
Definition set_base (s : t) (total non_empty empty unique : Z) (compl : float)
           (dups : Z) (top : list (str * Z)) : t :=
  {| header := header s; data_type := data_type s;
     total_count := total; non_empty_count := non_empty; empty_count := empty;
     unique_count := unique; completeness := compl;
     min_val := min_val s; max_val := max_val s; sum_val := sum_val s;
     mean_val := mean_val s; median_val := median_val s; std_dev := std_dev s;
     min_length := min_length s; max_length := max_length s;
     avg_length := avg_length s;
     top_values := top;
     earliest := earliest s; latest := latest s;
     true_count := true_count s; false_count := false_count s;
     duplicate_count := dups;
     has_outliers := has_outliers s; outlier_count := outlier_count s |}.

Definition set_numeric (s : t) (mn mx sm mean median sd : float) : t :=
  {| header := header s; data_type := data_type s;
     total_count := total_count s; non_empty_count := non_empty_count s;
     empty_count := empty_count s; unique_count := unique_count s;
     completeness := completeness s;
     min_val := Some mn; max_val := Some mx; sum_val := Some sm;
     mean_val := Some mean; median_val := Some median; std_dev := Some sd;
     min_length := min_length s; max_length := max_length s;
     avg_length := avg_length s;
     top_values := top_values s;
     earliest := earliest s; latest := latest s;
     true_count := true_count s; false_count := false_count s;
     duplicate_count := duplicate_count s;
     has_outliers := has_outliers s; outlier_count := outlier_count s |}.

Definition set_outliers (s : t) (count : Z) (has : bool) : t :=
  {| header := header s; data_type := data_type s;
     total_count := total_count s; non_empty_count := non_empty_count s;
     empty_count := empty_count s; unique_count := unique_count s;
     completeness := completeness s;
     min_val := min_val s; max_val := max_val s; sum_val := sum_val s;
     mean_val := mean_val s; median_val := median_val s; std_dev := std_dev s;
     min_length := min_length s; max_length := max_length s;
     avg_length := avg_length s;
     top_values := top_values s;
     earliest := earliest s; latest := latest s;
     true_count := true_count s; false_count := false_count s;
     duplicate_count := duplicate_count s;
     has_outliers := has; outlier_count := count |}.

Definition set_text (s : t) (mn mx : Z) (avg : float) : t :=
  {| header := header s; data_type := data_type s;
     total_count := total_count s; non_empty_count := non_empty_count s;
     empty_count := empty_count s; unique_count := unique_count s;
     completeness := completeness s;
     min_val := min_val s; max_val := max_val s; sum_val := sum_val s;
     mean_val := mean_val s; median_val := median_val s; std_dev := std_dev s;
     min_length := Some mn; max_length := Some mx; avg_length := Some avg;
     top_values := top_values s;
     earliest := earliest s; latest := latest s;
     true_count := true_count s; false_count := false_count s;
     duplicate_count := duplicate_count s;
     has_outliers := has_outliers s; outlier_count := outlier_count s |}.

Definition set_boolean (s : t) (trues falses : Z) : t :=
  {| header := header s; data_type := data_type s;
     total_count := total_count s; non_empty_count := non_empty_count s;
     empty_count := empty_count s; unique_count := unique_count s;
     completeness := completeness s;
     min_val := min_val s; max_val := max_val s; sum_val := sum_val s;
     mean_val := mean_val s; median_val := median_val s; std_dev := std_dev s;
     min_length := min_length s; max_length := max_length s;
     avg_length := avg_length s;
     top_values := top_values s;
     earliest := earliest s; latest := latest s;
     true_count := trues; false_count := falses;
     duplicate_count := duplicate_count s;
     has_outliers := has_outliers s; outlier_count := outlier_count s |}.

Definition set_dates (s : t) (first last : str) : t :=
  {| header := header s; data_type := data_type s;
     total_count := total_count s; non_empty_count := non_empty_count s;
     empty_count := empty_count s; unique_count := unique_count s;
     completeness := completeness s;
     min_val := min_val s; max_val := max_val s; sum_val := sum_val s;
     mean_val := mean_val s; median_val := median_val s; std_dev := std_dev s;
     min_length := min_length s; max_length := max_length s;
     avg_length := avg_length s;
     top_values := top_values s;
     earliest := Some first; latest := Some last;
     true_count := true_count s; false_count := false_count s;
     duplicate_count := duplicate_count s;
     has_outliers := has_outliers s; outlier_count := outlier_count s |}.
(** [to_dict] *)
Definition to_dict (self : t) : result (dict pyobj) :=
  let result : dict pyobj :=
      [(lit "header", OStr (header self));
       (lit "data_type", OStr (type_value (data_type self)));
       (lit "total_count", OInt (total_count self));
       (lit "non_empty_count", OInt (non_empty_count self));
       (lit "empty_count", OInt (empty_count self));
       (lit "unique_count", OInt (unique_count self));
       (lit "completeness", OFloat (py_round (completeness self) 2));
       (lit "duplicate_count", OInt (duplicate_count self))] in
  let result :=
      match data_type self with
      | INTEGER | FLOAT | CURRENCY | PERCENTAGE =>
          dict_set result (lit "numeric_stats")
            (ODict [(lit "min", float_or_none (min_val self));
                    (lit "max", float_or_none (max_val self));
                    (lit "sum", rounded_or_none (sum_val self) 4);
                    (lit "mean", rounded_or_none (mean_val self) 4);
                    (lit "median", float_or_none (median_val self));
                    (lit "std_dev", rounded_or_none (std_dev self) 4);
                    (lit "has_outliers", OBool (has_outliers self));
                    (lit "outlier_count", OInt (outlier_count self))])
      | _ => result
      end in
  let result :=
      match data_type self with
      | TEXT | EMAIL | URL =>
          dict_set result (lit "text_stats")
            (ODict [(lit "min_length", int_or_none (min_length self));
                    (lit "max_length", int_or_none (max_length self));
                    (lit "avg_length", rounded_or_none (avg_length self) 1)])
      | _ => result
      end in
  result <-
    (match data_type self with
     | BOOLEAN =>
         true_pct <-
           (if 0 <? non_empty_count self then
              q <- int_truediv (true_count self) (non_empty_count self) ;;
              Ok (OFloat (py_round (fmul q (Z2F 100)) 1))
            else Ok (OInt 0)) ;;
         Ok (dict_set result (lit "boolean_stats")
               (ODict [(lit "true_count", OInt (true_count self));
                       (lit "false_count", OInt (false_count self));
                       (lit "true_pct", true_pct)]))
     | _ => Ok result
     end) ;;
  let result :=
      match data_type self with
      | DATE | DATETIME =>
          dict_set result (lit "date_stats")
            (ODict [(lit "earliest", str_or_none (earliest self));
                    (lit "latest", str_or_none (latest self))])
      | _ => result
      end in
  let result :=
      match top_values self with
      | [] => result
      | tv =>
          dict_set result (lit "top_values")
            (OList (map (fun vc => ODict [(lit "value", OStr (fst vc));
                                          (lit "count", OInt (snd vc))]) tv))
      end in
  Ok result.
End ColumnStats.

Module SheetAnalysis.
Record t : Type := {
  sheet_name : str;
  row_count : Z;
  col_count : Z;
  column_stats : list ColumnStats.t;
  data_quality_score : num;
  type_summary : dict Z;
  duplicate_rows : Z;
  completely_empty_rows : Z
}.
End SheetAnalysis.

Module AnalysisResult.
Record t : Type := {
  file_name : str;
  analysis_time : str;
  sheets : list SheetAnalysis.t;
  overall_quality_score : float;
  total_rows : Z;
  total_columns : Z
}.
End AnalysisResult.

(** ** Helpers of the analyzer *)

(** [try: r  except (ValueError, OverflowError): fallback] *)
Definition except_value_overflow {A : Type} (r : result A) (fallback : result A)
  : result A :=
  match r with
  | Raise ValueError | Raise OverflowError => fallback
  | _ => r
  end.

Definition f1_5 : float := Eval vm_compute in of_decimal false 15 (-1).

Section Analyzer.
Context {U : Unicode}.

Definition _to_numeric (v : value) : result (option float) :=
  match v with
  | VNone => Ok None
  | VBool _ => Ok None
  | VInt n => f <- float_of_int n ;; Ok (Some f)
  | VFloat f => Ok (Some f)
  | VStr s =>
      let cleaned := replace 44 [] (strip s) in
      let cleaned :=
          fold_left (fun cleaned sym => replace sym [] cleaned)
                    [36%N; euro; pound; yen; rupee] cleaned in
      let cleaned := strip (rstrip_char 37 cleaned) in
      except_value_overflow
        (f <- float_of_str cleaned ;; Ok (Some f))
        (Ok None)
  | _ => Ok None
  end.

Definition _to_date_sortable (v : value) : option (date * time) :=
  match v with
  | VDateTime d t => Some (d, t)
  | VDate d => Some (d, {| hour := 0; minute := 0; second := 0; microsecond := 0 |})
  | _ => None
  end.

Definition _is_truthy (v : value) : bool :=
  match v with
  | VBool b => b
  | VStr s => str_in (lower (strip s)) [lit "true"; lit "yes"]
  | _ => false
  end.

(** [a < b] on two [datetime]s. *)
Definition datetime_lt (a b : date * time) : bool :=
  let key (x : date * time) :=
      [year (fst x); month (fst x); day (fst x);
       hour (snd x); minute (snd x); second (snd x); microsecond (snd x)] in
  (fix lex (k l : list Z) : bool :=
     match k, l with
     | x :: k', y :: l' => (x <? y) || ((x =? y) && lex k' l')
     | _, _ => false
     end) (key a) (key b).

(** The values of [(f(v) for v in values)] that are not [None]. *)
Fixpoint somes {A : Type} (l : list (option A)) : list A :=
  match l with
  | [] => []
  | Some x :: l' => x :: somes l'
  | None :: l' => somes l'
  end.

(** [[n for n in (_to_numeric(v) for v in values) if n is not None]] *)
Definition coercible (values : list value) : result (list float) :=
  l <- map_result _to_numeric values ;; Ok (somes l).

(** The quartiles at the positions [len // 4] and [3 * len // 4] of the sorted
    values, and the bounds [q1 - 1.5 * iqr] and [q3 + 1.5 * iqr]. *)
Definition quartiles (nums_sorted : list float) : result (float * float) :=
  let n := Z.of_nat (length nums_sorted) in
  q1 <- py_index nums_sorted (n / 4) ;;
  q3 <- py_index nums_sorted (3 * n / 4) ;;
  Ok (q1, q3).

Definition bounds (q : float * float) : float * float :=
  let '(q1, q3) := q in
  let iqr := fsub q3 q1 in
  (fsub q1 (fmul f1_5 iqr), fadd q3 (fmul f1_5 iqr)).

(** [x < lower_bound or x > upper_bound] *)
Definition outside (b : float * float) (x : float) : bool :=
  flt x (fst b) || flt (snd b) x.

(** ** [class DataAnalyzer] *)

Definition _compute_numeric_stats (stats : ColumnStats.t) (values : list value)
  : result ColumnStats.t :=
  nums <- coercible values ;;
  match nums with
  | [] => Ok stats
  | _ =>
      let nums_sorted := sorted flt nums in
      min_val <- py_index nums_sorted 0 ;;
      max_val <- py_index nums_sorted (-1) ;;
      let sum_val := fsum nums in
      mean_val <- fdiv_int sum_val (Z.of_nat (length nums)) ;;
      (* Median *)
      let n := Z.of_nat (length nums_sorted) in
      median_val <-
        (if n mod 2 =? 1 then py_index nums_sorted (n / 2)
         else
           a <- py_index nums_sorted (n / 2 - 1) ;;
           b <- py_index nums_sorted (n / 2) ;;
           fdiv_int (fadd a b) 2) ;;
      (* Standard deviation *)
      std_dev <-
        (if 1 <? Z.of_nat (length nums) then
           squares <- map_result (fun x => fsquare (fsub x mean_val)) nums ;;
           variance <- fdiv_int (fsum squares) (Z.of_nat (length nums) - 1) ;;
           math_sqrt variance
         else Ok (S754_zero false)) ;;
      let stats :=
          ColumnStats.set_numeric stats min_val max_val sum_val mean_val
                                  median_val std_dev in
      (* Outlier detection using IQR method *)
      if 4 <=? Z.of_nat (length nums) then
        q <- quartiles nums_sorted ;;
        let outliers := filter (outside (bounds q)) nums in
        Ok (ColumnStats.set_outliers stats (Z.of_nat (length outliers))
                                     (0 <? Z.of_nat (length outliers)))
      else Ok stats
  end.

(** The lengths that the loop of [_compute_text_stats] collects. *)
Fixpoint text_lengths (values : list value) : list Z :=
  match values with
  | [] => []
  | VNone :: values' => text_lengths values'
  | v :: values' =>
      match strip (str_of_value v) with
      | [] => text_lengths values'
      | s => Z.of_nat (length s) :: text_lengths values'
      end
  end.

Definition _compute_text_stats (stats : ColumnStats.t) (values : list value)
  : result ColumnStats.t :=
  let lengths := text_lengths values in
  match lengths with
  | [] => Ok stats
  | l :: ls =>
      avg <- int_truediv (sum_Z lengths) (Z.of_nat (length lengths)) ;;
      Ok (ColumnStats.set_text stats (fold_left Z.min ls l) (fold_left Z.max ls l) avg)
  end.

Definition _compute_boolean_stats (stats : ColumnStats.t) (values : list value)
  : ColumnStats.t :=
  fold_left
    (fun stats v =>
       match v with
       | VNone => stats
       | _ =>
           let blank :=
               match v with
               | VStr s => match strip s with [] => true | _ => false end
               | _ => false
               end in
           if blank then stats
           else if _is_truthy v
           then ColumnStats.set_boolean stats (ColumnStats.true_count stats + 1)
                                        (ColumnStats.false_count stats)
           else ColumnStats.set_boolean stats (ColumnStats.true_count stats)
                                        (ColumnStats.false_count stats + 1)
       end)
    values stats.

Definition _compute_date_stats (stats : ColumnStats.t) (values : list value)
  : result ColumnStats.t :=
  let dates := somes (map _to_date_sortable values) in
  match dates with
  | [] => Ok stats
  | _ =>
      let dates_sorted := sorted datetime_lt dates in
      first <- py_index dates_sorted 0 ;;
      last <- py_index dates_sorted (-1) ;;
      Ok (ColumnStats.set_dates stats (isoformat (fst first) (snd first))
                                (isoformat (fst last) (snd last)))
  end.

Definition numeric_family (t : DataType) : bool :=
  match t with INTEGER | FLOAT | CURRENCY | PERCENTAGE => true | _ => false end.

Definition text_family (t : DataType) : bool :=
  match t with TEXT | EMAIL | URL | PHONE => true | _ => false end.

Definition date_family (t : DataType) : bool :=
  match t with DATE | DATETIME => true | _ => false end.

(** [v is not None and str(v).strip() != ""] *)
Definition is_non_empty (v : value) : bool :=
  match v with
  | VNone => false
  | _ => match strip (str_of_value v) with [] => false | _ => true end
  end.

Definition _analyze_column (col_info : ColumnInfo.t) (values : list value)
  : result ColumnStats.t :=
  let stats := ColumnStats.init (ColumnInfo.header col_info)
                                (ColumnInfo.detected_type col_info) in
  let total_count := ColumnInfo.total_count col_info in
  let non_empty_count := ColumnInfo.non_empty_count col_info in
  completeness <-
    (if 0 <? total_count then
       q <- int_truediv non_empty_count total_count ;; Ok (fmul q (Z2F 100))
     else Ok (S754_zero false)) ;;
  (* Duplicates *)
  let non_empty_vals := filter is_non_empty values in
  let val_counts := fold_left dict_incr (map str_of_value non_empty_vals) [] in
  let duplicate_count :=
      sum_Z (map (fun c => c - 1) (filter (fun c => 1 <? c) (map snd val_counts))) in
  (* Top values (most frequent) *)
  let top_values := firstn 10 (sorted (fun x y => snd y <? snd x) val_counts) in
  let stats :=
      ColumnStats.set_base stats total_count non_empty_count
                           (ColumnInfo.empty_count col_info)
                           (ColumnInfo.unique_count col_info)
                           completeness duplicate_count top_values in
  let dtype := ColumnInfo.detected_type col_info in
  if numeric_family dtype then _compute_numeric_stats stats values
  else if text_family dtype then _compute_text_stats stats values
  else if DataType_eqb dtype BOOLEAN then Ok (_compute_boolean_stats stats values)
  else if date_family dtype then _compute_date_stats stats values
  else Ok stats.

(** What the loop over the rows of [_analyze_sheet] keeps. *)
Record row_scan : Type := {
  seen_rows : list (list str);
  scan_duplicate_rows : Z;
  scan_empty_rows : Z
}.

Definition fingerprint (row : list value) : list str :=
  map (fun v => match v with VNone => [] | _ => str_of_value v end) row.

Definition list_str_eqb (a b : list str) : bool :=
  (length a =? length b)%nat && forallb (fun p => str_eqb (fst p) (snd p)) (combine a b).

Definition scan_row (a : row_scan) (row : list value) : row_scan :=
  let row_tuple := fingerprint row in
  let seen :=
      if existsb (list_str_eqb row_tuple) (seen_rows a) then seen_rows a
      else row_tuple :: seen_rows a in
  if forallb (fun v => match v with [] => true | _ => false end) row_tuple then
    {| seen_rows := seen; scan_duplicate_rows := scan_duplicate_rows a;
       scan_empty_rows := scan_empty_rows a + 1 |}
  else if existsb (list_str_eqb row_tuple) (seen_rows a) then
    {| seen_rows := seen; scan_duplicate_rows := scan_duplicate_rows a + 1;
       scan_empty_rows := scan_empty_rows a |}
  else
    {| seen_rows := seen; scan_duplicate_rows := scan_duplicate_rows a;
       scan_empty_rows := scan_empty_rows a |}.

(** The data quality score, from the completeness of the columns. *)
Definition quality_score (completeness_scores : list float)
           (duplicate_rows row_count : Z) : result num :=
  match completeness_scores with
  | [] => Ok (Float (S754_zero false))
  | _ =>
      avg_completeness <-
        fdiv_int (fsum completeness_scores) (Z.of_nat (length completeness_scores)) ;;
      q <- int_truediv duplicate_rows (Z.max row_count 1) ;;
      let dup_penalty := py_min (Float (fmul q (Z2F 100))) (Int 30) in
      d <- num_sub (Float avg_completeness) dup_penalty ;;
      Ok (py_max d (Int 0))
  end.

Definition _analyze_sheet (sheet : SheetData.t) : result SheetAnalysis.t :=
  (* Count duplicate and empty rows *)
  let scan :=
      fold_left scan_row (SheetData.rows sheet)
                {| seen_rows := []; scan_duplicate_rows := 0; scan_empty_rows := 0 |} in
  column_stats <-
    map_result
      (fun col_info =>
         col_values <-
           map_result (fun row => py_index row (ColumnInfo.index col_info))
                      (SheetData.rows sheet) ;;
         _analyze_column col_info col_values)
      (SheetData.columns sheet) ;;
  let type_summary :=
      fold_left
        (fun summary col_info =>
           dict_incr summary (type_value (ColumnInfo.detected_type col_info)))
        (SheetData.columns sheet) [] in
  score <- quality_score (map ColumnStats.completeness column_stats)
                         (scan_duplicate_rows scan) (SheetData.row_count sheet) ;;
  Ok {| SheetAnalysis.sheet_name := SheetData.name sheet;
        SheetAnalysis.row_count := SheetData.row_count sheet;
        SheetAnalysis.col_count := SheetData.col_count sheet;
        SheetAnalysis.column_stats := column_stats;
        SheetAnalysis.data_quality_score := score;
        SheetAnalysis.type_summary := type_summary;
        SheetAnalysis.duplicate_rows := scan_duplicate_rows scan;
        SheetAnalysis.completely_empty_rows := scan_empty_rows scan |}.

(** [analyze]; [now] is the [datetime.now().isoformat()] that
    [AnalysisResult.__init__] reads off the clock. *)
Definition analyze (now : str) (import_result : ImportResult.t)
  : result AnalysisResult.t :=
  sheets <- map_result _analyze_sheet (ImportResult.sheets import_result) ;;
  let quality_scores := map SheetAnalysis.data_quality_score sheets in
  overall <-
    (match quality_scores with
     | [] => Ok (S754_zero false)
     | _ =>
         total <- py_sum quality_scores ;;
         num_truediv total (Int (Z.of_nat (length quality_scores)))
     end) ;;
  Ok {| AnalysisResult.file_name := ImportResult.file_name import_result;
        AnalysisResult.analysis_time := now;
        AnalysisResult.sheets := sheets;
        AnalysisResult.overall_quality_score := overall;
        AnalysisResult.total_rows := ImportResult.total_rows import_result;
        AnalysisResult.total_columns := ImportResult.total_columns import_result |}.

End Analyzer.

(** * Notions used in the statements *)

(** A histogram of cell types, keyed by the names of the types. *)
Definition histogram (l : list (DataType * Z)) : dict Z :=
  map (fun p => (type_value (fst p), snd p)) l.

(** The entries of a histogram other than that of [Empty]. *)
Definition without_empty (type_counts : dict Z) : dict Z :=
  filter (fun kv => negb (str_eqb (fst kv) (type_value EMPTY))) type_counts.

(** The value of a numeral of ASCII digits. *)
Definition digits_value (ds : str) : Z :=
  fold_left (fun v c => 10 * v + (Z.of_N c - 48)) ds 0.

(** The data rows of a worksheet: those after the header row, if there is
    one, cut at [max_rows]. *)
Definition data_rows_of (ws : worksheet) (has_header : bool) (max_rows : option Z)
  : list (list value) :=
  let rows := if has_header then tl ws else ws in
  match max_rows with
  | Some n => slice_to n rows
  | None => rows
  end.

(** [x] may stand before [y] in a list sorted by [lt]: [y < x] does not
    hold. *)
Definition not_after {A : Type} (lt : A -> A -> bool) (x y : A) : Prop := lt y x = false.

(** The lexicographic order of lists of integers of one length. *)
Fixpoint lex_lt (k l : list Z) : bool :=
  match k, l with
  | x :: k', y :: l' => (x <? y) || ((x =? y) && lex_lt k' l')
  | _, _ => false
  end.

(** The place of a float that is not a NaN in the order of the floats: its
    class, then exponent and mantissa, which for a negative number count
    downwards. *)
Definition float_key (f : float) : list Z :=
  match f with
  | S754_nan | S754_zero _ => [0; 0; 0]
  | S754_infinity s => [if s then -2 else 2; 0; 0]
  | S754_finite s m e => if s then [-1; - e; Zneg m] else [1; e; Zpos m]
  end.

(** A float that is not a NaN and has the sign [s]. *)
Definition signed_as (s : bool) (f : float) : Prop :=
  match f with
  | S754_nan => False
  | S754_zero t | S754_infinity t | S754_finite t _ _ => t = s
  end.

(** The rules of [_detect_cell_type] for a stripped string, in the order in
    which the function tries them. *)
Section Rules.
Context {U : Unicode}.

Definition string_rules : list ((str -> bool) * DataType) :=
  [(fun s => str_in (lower s) [lit "true"; lit "false"; lit "yes"; lit "no"], BOOLEAN);
   (re_match PERCENTAGE_PATTERN, PERCENTAGE);
   (re_match CURRENCY_PATTERN, CURRENCY);
   (re_match EMAIL_PATTERN, EMAIL);
   (re_match URL_PATTERN, URL);
   (re_match PHONE_PATTERN, PHONE);
   (fun s => succeeds (int_of_str (replace 44 [] s)), INTEGER);
   (fun s => succeeds (float_of_str (replace 44 [] s)), FLOAT)].

End Rules.

(** The type of the first rule that holds of [s], and [TEXT] if none does. *)
Fixpoint first_match (rules : list ((str -> bool) * DataType)) (s : str) : DataType :=
  match rules with
  | [] => TEXT
  | (p, t) :: rest => if p s then t else first_match rest s
  end.

(** Inputs of the examples. *)

Definition f1e200 : float := Eval vm_compute in of_decimal false 1 200.

(** A workbook of one sheet with the header [x] and the numbers 1e200 and
    0.0 below it. *)
Definition large_floats_book : workbook :=
  [(lit "Sheet1", [[VStr (lit "x")]; [VFloat f1e200]; [VFloat (S754_zero false)]])].

(** A workbook of one sheet with the header [n] and the integer 10^400. *)
Definition large_int_book : workbook :=
  [(lit "Sheet1", [[VStr (lit "n")]; [VInt (10 ^ 400)]])].

(** Every row of every sheet has as many cells as the sheet has columns. *)
Definition rectangular (ir : ImportResult.t) : Prop :=
  Forall (fun sheet =>
            Forall (fun row => Z.of_nat (length row) = SheetData.col_count sheet)
                   (SheetData.rows sheet))
         (ImportResult.sheets ir).

(** The metadata of a column of two values, none of them empty. *)
Definition column_of_two (dtype : DataType) : ColumnInfo.t :=
  {| ColumnInfo.index := 0;
     ColumnInfo.letter := lit "A";
     ColumnInfo.header := lit "Contact";
     ColumnInfo.detected_type := dtype;
     ColumnInfo.non_empty_count := 2;
     ColumnInfo.empty_count := 0;
     ColumnInfo.total_count := 2;
     ColumnInfo.sample_values := [];
     ColumnInfo.unique_count := 2;
     ColumnInfo.type_counts := [(type_value dtype, 2)] |}.

Definition two_phones : list value :=
  [VStr (lit "+1-555-0101"); VStr (lit "(555) 123-4567")].

(** An import result without sheets. *)
Definition no_sheets : ImportResult.t :=
  ImportResult.init (lit "2024-05-01T10:00:00") (lit "book.xlsx").

Definition two_percentages : list value :=
  [VStr (lit "50%"); VStr (lit "25%")].

(** The text of a statistic, as [str] prints the float. *)
Definition shown (x : option float) : option str := option_map repr_float x.



(** The same values in another order. *)
Definition five_shuffled : list value := map VInt [100; 3; 1; 4; 2].

(** A workbook of one sheet with rows of different lengths. *)
Definition ragged_book : workbook :=
  [(lit "Data",
    [[VStr (lit "a"); VStr (lit "b"); VStr (lit "c")];
     [VInt 1];
     [VInt 2; VInt 3];
     [VInt 4; VInt 5; VInt 6; VInt 7]])].

(** A worksheet with a header row that lacks the labels of two columns. *)
Definition short_header_sheet : worksheet :=
  [[VStr (lit "Name"); VNone]; [VStr (lit "Ann"); VInt 30; VInt 7]].

(** A sheet of one full column, in which the row [1] comes twice. *)
Definition duplicate_sheet : SheetData.t :=
  {| SheetData.name := lit "Dup";
     SheetData.columns :=
       [{| ColumnInfo.index := 0;
           ColumnInfo.letter := lit "A";
           ColumnInfo.header := lit "Id";
           ColumnInfo.detected_type := INTEGER;
           ColumnInfo.non_empty_count := 3;
           ColumnInfo.empty_count := 0;
           ColumnInfo.total_count := 3;
           ColumnInfo.sample_values := map VInt [1; 1; 2];
           ColumnInfo.unique_count := 2;
           ColumnInfo.type_counts := [(type_value INTEGER, 3)] |}];
     SheetData.rows := [[VInt 1]; [VInt 1]; [VInt 2]];
     SheetData.headers := [lit "Id"];
     SheetData.row_count := 3;
     SheetData.col_count := 1 |}.

(** ** Further notions *)

(** [d.get(k, 0)] *)
Definition dict_count (d : dict Z) (k : str) : Z :=
  match dict_get d k with Some n => n | None => 0 end.

Section Cells.
Context {U : Unicode}.

(** The cells to which [_detect_cell_type] gives the type [t]. *)
Definition cells_of_type (t : DataType) (values : list value) : list value :=
  filter (fun v => DataType_eqb (_detect_cell_type v) t) values.

(** The cells to which [_detect_cell_type] gives another type than [EMPTY]. *)
Definition non_empty_cells (values : list value) : list value :=
  filter (fun v => negb (DataType_eqb (_detect_cell_type v) EMPTY)) values.

End Cells.

(** The cells of the column [i] of rows that all have a cell there. *)
Definition column_cells (rows : list (list value)) (i : nat) : list value :=
  map (fun row => nth i row VNone) rows.

(** The fields of a [ColumnStats] that [_analyze_column] sets before the
    part that depends on the type. *)
Definition base_fields (s : ColumnStats.t)
  : str * DataType * Z * Z * Z * Z * float * Z * list (str * Z) :=
  (ColumnStats.header s, ColumnStats.data_type s, ColumnStats.total_count s,
   ColumnStats.non_empty_count s, ColumnStats.empty_count s,
   ColumnStats.unique_count s, ColumnStats.completeness s,
   ColumnStats.duplicate_count s, ColumnStats.top_values s).

(** How often the string [k] occurs in [keys]. *)
Definition occurrences (k : str) (keys : list str) : Z :=
  Z.of_nat (length (filter (str_eqb k) keys)).

(** The strings of [l], each once. *)
Definition distinct (l : list str) : list str := nodup (list_eq_dec N.eq_dec) l.

(** [v is not None], and not a string that strips to nothing: the test of
    the loop of [_compute_boolean_stats]. *)
Section Blank.
Context {U : Unicode}.

Definition not_blank (v : value) : bool :=
  match v with
  | VNone => false
  | VStr s => match strip s with [] => false | _ => true end
  | _ => true
  end.

End Blank.

(** The statistics of the four families of types. *)
Definition numeric_fields (s : ColumnStats.t) :=
  (ColumnStats.min_val s, ColumnStats.max_val s, ColumnStats.sum_val s,
   ColumnStats.mean_val s, ColumnStats.median_val s, ColumnStats.std_dev s,
   ColumnStats.has_outliers s, ColumnStats.outlier_count s).

Definition text_fields (s : ColumnStats.t) :=
  (ColumnStats.min_length s, ColumnStats.max_length s, ColumnStats.avg_length s).

Definition boolean_fields (s : ColumnStats.t) :=
  (ColumnStats.true_count s, ColumnStats.false_count s).

Definition date_fields (s : ColumnStats.t) :=
  (ColumnStats.earliest s, ColumnStats.latest s).

(** A fingerprint of a row all of whose cells are empty. *)
Definition blank_row (fp : list str) : bool :=
  forallb (fun v => match v with [] => true | _ => false end) fp.

(** The fingerprints of [l], each once. *)
Definition distinct_rows (l : list (list str)) : list (list str) :=
  nodup (list_eq_dec (list_eq_dec N.eq_dec)) l.

(** A cell that is [None] or the empty string. *)
Definition void_cell (v : value) : bool :=
  match v with
  | VNone | VStr [] => true
  | _ => false
  end.

(** A float that is a NaN or has the sign bit clear. *)
Definition not_negative (f : float) : Prop :=
  match f with
  | S754_nan => True
  | S754_zero s | S754_infinity s | S754_finite s _ _ => s = false
  end.

(** ** [SheetAnalysis.to_dict] and [AnalysisResult.to_dict] *)

(** [round(x, 1)] for a number: an [int] stays as it is. *)
Definition rounded_num (x : num) : pyobj :=
  match x with
  | Int n => OInt n
  | Float f => OFloat (py_round f 1)
  end.

Definition SheetAnalysis_to_dict (self : SheetAnalysis.t) : result (dict pyobj) :=
  columns <- map_result ColumnStats.to_dict (SheetAnalysis.column_stats self) ;;
  Ok [(lit "sheet_name", OStr (SheetAnalysis.sheet_name self));
      (lit "row_count", OInt (SheetAnalysis.row_count self));
      (lit "col_count", OInt (SheetAnalysis.col_count self));
      (lit "data_quality_score", rounded_num (SheetAnalysis.data_quality_score self));
      (lit "type_summary",
       ODict (map (fun kv => (fst kv, OInt (snd kv))) (SheetAnalysis.type_summary self)));
      (lit "duplicate_rows", OInt (SheetAnalysis.duplicate_rows self));
      (lit "completely_empty_rows", OInt (SheetAnalysis.completely_empty_rows self));
      (lit "columns", OList (map ODict columns))].

Definition AnalysisResult_to_dict (self : AnalysisResult.t) : result (dict pyobj) :=
  sheets <- map_result SheetAnalysis_to_dict (AnalysisResult.sheets self) ;;
  Ok [(lit "file_name", OStr (AnalysisResult.file_name self));
      (lit "analysis_time", OStr (AnalysisResult.analysis_time self));
      (lit "overall_quality_score",
       OFloat (py_round (AnalysisResult.overall_quality_score self) 1));
      (lit "total_rows", OInt (AnalysisResult.total_rows self));
      (lit "total_columns", OInt (AnalysisResult.total_columns self));
      (lit "sheet_count", OInt (Z.of_nat (length (AnalysisResult.sheets self))));
      (lit "sheets", OList (map ODict sheets))].

(** Further inputs of the examples. *)

(** A workbook of one sheet with a text, a Boolean, a date and a number
    column, and with an empty cell. *)
Definition people_book : workbook :=
  [(lit "People",
    [[VStr (lit "Name"); VStr (lit "Member"); VStr (lit "Joined"); VStr (lit "Score")];
     [VStr (lit "Ann"); VStr (lit "yes");
      VDate {| year := 2024; month := 1; day := 5 |}; VInt 3];
     [VStr (lit "Bob"); VBool false;
      VDate {| year := 2023; month := 12; day := 1 |}; VInt 4];
     [VStr (lit "Ann"); VStr (lit " Yes "); VNone; VStr (lit "7")]])].

(** The values of a column of names and the metadata of the column. *)
Definition three_names : list value :=
  [VStr (lit "Ann"); VStr (lit "Bob"); VStr (lit "Ann")].

Definition column_of_names : ColumnInfo.t :=
  {| ColumnInfo.index := 0;
     ColumnInfo.letter := lit "A";
     ColumnInfo.header := lit "Name";
     ColumnInfo.detected_type := TEXT;
     ColumnInfo.non_empty_count := 3;
     ColumnInfo.empty_count := 0;
     ColumnInfo.total_count := 3;
     ColumnInfo.sample_values := three_names;
     ColumnInfo.unique_count := 2;
     ColumnInfo.type_counts := [(type_value TEXT, 3)] |}.

(** * Properties *)

(** ** The column type resolver *)

Lemma filter_idempotent {A : Type} (p : A -> bool) (l : list A) :
  filter p (filter p l) = filter p l.
Proof.
  induction l as [|x l IH]; simpl; [reflexivity|].
  destruct (p x) eqn:E; simpl; rewrite ?E, IH; reflexivity.
Qed.

(** C2. The resolver on the histograms of the specification:
    {Integer:5, Float:3} gives Float, {Date:2, DateTime:8} gives DateTime,
    {Text:90, Integer:10} gives Text, {Text:4, Integer:3, Email:3} gives
    Mixed and the empty histogram gives Empty; and the entries of Empty are
    removed before any rule applies: a histogram resolves as it does without
    them, so that the 80% of a dominant type are of the occurrences that are
    not empty. *)
Theorem resolve_column_type_vectors :
  _resolve_column_type (histogram [(INTEGER, 5); (FLOAT, 3)]) = Ok FLOAT /\
  _resolve_column_type (histogram [(DATE, 2); (DATETIME, 8)]) = Ok DATETIME /\
  _resolve_column_type (histogram [(TEXT, 90); (INTEGER, 10)]) = Ok TEXT /\
  _resolve_column_type (histogram [(TEXT, 4); (INTEGER, 3); (EMAIL, 3)]) = Ok MIXED /\
  _resolve_column_type [] = Ok EMPTY /\
  (forall type_counts,
      _resolve_column_type type_counts
      = _resolve_column_type (without_empty type_counts)) /\
  (forall n, _resolve_column_type (histogram [(EMPTY, n)]) = Ok EMPTY) /\
  (forall n, _resolve_column_type (histogram [(EMPTY, n); (INTEGER, 5); (FLOAT, 3)])
             = Ok FLOAT) /\
  (forall n, _resolve_column_type (histogram [(EMPTY, n); (TEXT, 90); (INTEGER, 10)])
             = Ok TEXT).
Proof.
  do 5 (split; [vm_compute; reflexivity|]).
  split; [|split; [|split]; intros n; vm_compute; reflexivity].
  intros type_counts. unfold _resolve_column_type, without_empty.
  rewrite filter_idempotent. reflexivity.
Qed.

(** ** The analyzer and the clock *)

(** C4, as the code has it.  Two runs of [analyze] on the same import result
    fail alike or give results that agree on the file name, the sheets, the
    overall quality score, the total rows and the total columns; the
    analysis time of each is the reading of the clock at its run. *)
Theorem analyze_twice {U : Unicode} (now1 now2 : str) (ir : ImportResult.t) :
  match analyze now1 ir, analyze now2 ir with
  | Ok a1, Ok a2 =>
      AnalysisResult.file_name a1 = AnalysisResult.file_name a2 /\
      AnalysisResult.sheets a1 = AnalysisResult.sheets a2 /\
      AnalysisResult.overall_quality_score a1 = AnalysisResult.overall_quality_score a2 /\
      AnalysisResult.total_rows a1 = AnalysisResult.total_rows a2 /\
      AnalysisResult.total_columns a1 = AnalysisResult.total_columns a2 /\
      AnalysisResult.analysis_time a1 = now1 /\
      AnalysisResult.analysis_time a2 = now2
  | Raise e1, Raise e2 => e1 = e2
  | _, _ => False
  end.
Proof.
  unfold analyze.
  destruct (map_result _analyze_sheet (ImportResult.sheets ir)) as [sheets|e];
    simpl; [|reflexivity].
  match goal with
  | |- context [bind ?o _] => destruct o as [overall|e]
  end; simpl; [|reflexivity].
  repeat split; reflexivity.
Qed.

(** C4, as the specification has it, fails: the two results of two runs a
    second apart differ, in their analysis time. *)
Lemma analyze_twice_differs :
  @analyze ascii_only (lit "2024-05-01T10:00:01") no_sheets
  <> @analyze ascii_only (lit "2024-05-01T10:00:02") no_sheets.
Proof.
  vm_compute. intros H. discriminate H.
Qed.

(** ** The analyzer on large numbers *)

(** C7, at two inputs.  The importer reads each of the two workbooks into a
    rectangular import result, and [analyze] raises [OverflowError] on it:
    for the floats 1e200 and 0.0 when it squares the distance of 1e200 to
    the mean, for the integer 10^400 when it converts it to a float. *)
Theorem analyze_raises_overflow :
  (exists ir,
      @import_file ascii_only (lit "t0") large_floats_book (lit "a.xlsx") None true None
      = Ok ir /\
      rectangular ir /\
      map SheetData.rows (ImportResult.sheets ir)
      = [[[VFloat f1e200]; [VFloat (S754_zero false)]]] /\
      @analyze ascii_only (lit "t1") ir = Raise OverflowError) /\
  (exists ir,
      @import_file ascii_only (lit "t0") large_int_book (lit "b.xlsx") None true None
      = Ok ir /\
      rectangular ir /\
      map SheetData.rows (ImportResult.sheets ir) = [[[VInt (10 ^ 400)]]] /\
      @analyze ascii_only (lit "t1") ir = Raise OverflowError).
Proof.
  split.
  - eexists. split; [vm_compute; reflexivity|].
    split; [repeat constructor|].
    split; vm_compute; reflexivity.
  - eexists. split; [vm_compute; reflexivity|].
    split; [repeat constructor|].
    split; vm_compute; reflexivity.
Qed.

(** ** The serialized statistics of a Phone column *)

(** C9, at a column of two phone numbers.  [_analyze_column] computes the
    lengths as it does for the same values in a Text column: 11, 14 and
    12.5; [to_dict] puts them under [text_stats] for the Text column and
    leaves [text_stats] out for the Phone column. *)
Theorem phone_text_stats_not_serialized :
  exists phone text d_phone d_text,
    @_analyze_column ascii_only (column_of_two PHONE) two_phones = Ok phone /\
    @_analyze_column ascii_only (column_of_two TEXT) two_phones = Ok text /\
    ColumnStats.min_length phone = Some 11 /\
    ColumnStats.max_length phone = Some 14 /\
    ColumnStats.avg_length phone = Some (of_decimal false 125 (-1)) /\
    ColumnStats.min_length text = ColumnStats.min_length phone /\
    ColumnStats.max_length text = ColumnStats.max_length phone /\
    ColumnStats.avg_length text = ColumnStats.avg_length phone /\
    ColumnStats.to_dict phone = Ok d_phone /\
    ColumnStats.to_dict text = Ok d_text /\
    dict_get d_text (lit "text_stats")
    = Some (ODict [(lit "min_length", OInt 11);
                   (lit "max_length", OInt 14);
                   (lit "avg_length", OFloat (of_decimal false 125 (-1)))]) /\
    dict_get d_phone (lit "text_stats") = None.
Proof.
  do 4 eexists.
  do 11 (split; [vm_compute; reflexivity|]).
  vm_compute; reflexivity.
Qed.

(** ** The cell classifier *)

Section Classifier.
Context {U : Unicode}.

Lemma lstrip_spaces (pre s : str) :
  Forall (fun c => isspace c = true) pre -> lstrip (pre ++ s) = lstrip s.
Proof.
  induction 1 as [|c pre Hc _ IH]; simpl; [reflexivity|].
  rewrite Hc. exact IH.
Qed.

Lemma lstrip_at_char (c : char) (s : str) :
  isspace c = false -> lstrip (c :: s) = c :: s.
Proof. intros H. simpl. rewrite H. reflexivity. Qed.

(** Stripping a string padded with white space gives the string back, when it
    begins and ends with characters that are not white space. *)
Lemma strip_padded (pre post mid : str) (a b : char) :
  Forall (fun c => isspace c = true) pre ->
  Forall (fun c => isspace c = true) post ->
  isspace a = false -> isspace b = false ->
  strip (pre ++ (a :: mid ++ [b]) ++ post) = a :: mid ++ [b].
Proof.
  intros Hpre Hpost Ha Hb. unfold strip, rstrip.
  rewrite lstrip_spaces by assumption.
  simpl app at 1. rewrite lstrip_at_char by assumption.
  replace (rev (a :: (mid ++ [b]) ++ post))
    with (rev post ++ b :: rev (a :: mid)).
  - rewrite lstrip_spaces.
    + rewrite lstrip_at_char by assumption.
      simpl. rewrite rev_app_distr, rev_involutive. reflexivity.
    + apply Forall_forall. intros x Hx. apply in_rev in Hx.
      revert x Hx. apply Forall_forall. assumption.
  - change (a :: (mid ++ [b]) ++ post) with ((a :: mid ++ [b]) ++ post).
    rewrite rev_app_distr. f_equal.
    change (a :: mid ++ [b]) with ((a :: mid) ++ [b]).
    rewrite rev_app_distr. reflexivity.
Qed.

Lemma ascii_lower_is (c x : char) :
  ascii_lower c = x -> in_range 65 90 x = false -> c = x \/ c = N.sub x 32.
Proof.
  unfold ascii_lower. destruct (in_range 65 90 c) eqn:E; intros H Hx.
  - right. subst x. lia.
  - left. exact H.
Qed.

Lemma detect_first_match (s : str) :
  strip s <> [] ->
  _detect_cell_type (VStr s) = first_match string_rules (strip s).
Proof.
  intros H. unfold _detect_cell_type.
  destruct (strip s) as [|c r]; [contradiction|].
  reflexivity.
Qed.

Lemma first_match_split (before after : list ((str -> bool) * DataType))
      (p : str -> bool) (t : DataType) (s : str) :
  Forall (fun q => fst q s = false) before ->
  p s = true ->
  first_match (before ++ (p, t) :: after) s = t.
Proof.
  induction 1 as [|[q u] before Hq _ IH]; intros Hp; simpl.
  - rewrite Hp. reflexivity.
  - simpl in Hq. rewrite Hq. apply IH. exact Hp.
Qed.

(** C1. The string rules of the classifier apply in their order: if a rule
    holds of the stripped string and none of the rules before it does, the
    string has the type of that rule, whatever the rules after it say.  So
    "50%" is a Percentage, "$100" is a Currency, and "true" in any letter
    case, with white space around it, is a Boolean. *)
Theorem classifier_precedence
        (s : str) (before after : list ((str -> bool) * DataType))
        (p : str -> bool) (t : DataType) (pre core post : str) :
  strip s <> [] ->
  string_rules = before ++ (p, t) :: after ->
  Forall (fun q => fst q (strip s) = false) before ->
  p (strip s) = true ->
  Forall (fun c => isspace c = true) pre ->
  Forall (fun c => isspace c = true) post ->
  map ascii_lower core = lit "true" ->
  _detect_cell_type (VStr s) = t /\
  _detect_cell_type (VStr (lit "50%")) = PERCENTAGE /\
  _detect_cell_type (VStr (lit "$100")) = CURRENCY /\
  _detect_cell_type (VStr (pre ++ core ++ post)) = BOOLEAN.
Proof.
  intros Hs Hrules Hbefore Hp Hpre Hpost Hcore.
  split.
  { rewrite detect_first_match by assumption.
    rewrite Hrules. apply first_match_split; assumption. }
  split; [vm_compute; reflexivity|].
  split; [vm_compute; reflexivity|].
  destruct core as [|c1 [|c2 [|c3 [|c4 [|c5 core]]]]]; try discriminate Hcore.
  injection Hcore as H1 H2 H3 H4.
  apply ascii_lower_is in H1; [|reflexivity].
  apply ascii_lower_is in H2; [|reflexivity].
  apply ascii_lower_is in H3; [|reflexivity].
  apply ascii_lower_is in H4; [|reflexivity].
  unfold _detect_cell_type.
  change [c1; c2; c3; c4] with (c1 :: [c2; c3] ++ [c4]).
  rewrite strip_padded; try assumption.
  - destruct H1 as [-> | ->], H2 as [-> | ->], H3 as [-> | ->], H4 as [-> | ->];
      vm_compute; reflexivity.
  - destruct H1 as [-> | ->]; reflexivity.
  - destruct H4 as [-> | ->]; reflexivity.
Qed.

End Classifier.

(** ** Fallible loops *)

Lemma bind_Ok {A B : Type} (r : result A) (k : A -> result B) (b : B) :
  bind r k = Ok b -> exists a, r = Ok a /\ k a = Ok b.
Proof.
  destruct r as [a|e]; simpl; intros H; [|discriminate H].
  exists a. split; [reflexivity|exact H].
Qed.

(** Name the intermediate results of a computation that succeeded. *)
Ltac bind_inv H :=
  let x := fresh "x" in
  let Hx := fresh "Hx" in
  apply bind_Ok in H; destruct H as (x & Hx & H).

Ltac bind_named H x Hx :=
  apply bind_Ok in H; destruct H as (x & Hx & H).

Lemma map_result_length {A B : Type} (f : A -> result B) (l : list A) (ys : list B) :
  map_result f l = Ok ys -> length ys = length l.
Proof.
  revert ys. induction l as [|x l IH]; simpl; intros ys H.
  - injection H as <-. reflexivity.
  - bind_inv H. bind_inv H. injection H as <-. simpl. f_equal. apply IH. assumption.
Qed.

Lemma map_result_nth {A B : Type} (f : A -> result B) (l : list A) (ys : list B)
      (i : nat) (x : A) :
  map_result f l = Ok ys -> nth_error l i = Some x ->
  exists y, f x = Ok y /\ nth_error ys i = Some y.
Proof.
  revert ys i. induction l as [|a l IH]; simpl; intros ys i H Hi.
  - destruct i; discriminate Hi.
  - bind_inv H. bind_inv H. injection H as <-.
    destruct i as [|i]; simpl in *.
    + injection Hi as ->. eauto.
    + eapply IH; eassumption.
Qed.

Lemma map_result_Forall {A B : Type} (f : A -> result B) (P : B -> Prop)
      (l : list A) (ys : list B) :
  (forall x y, In x l -> f x = Ok y -> P y) ->
  map_result f l = Ok ys -> Forall P ys.
Proof.
  revert ys. induction l as [|a l IH]; simpl; intros ys HP H.
  - injection H as <-. constructor.
  - bind_inv H. bind_inv H. injection H as <-. constructor.
    + eapply HP; [left; reflexivity|eassumption].
    + apply IH; [|assumption]. intros u v Hu. apply HP. right. exact Hu.
Qed.

Lemma for_each_invariant {A S : Type} (body : S -> A -> result S) (P : S -> Prop)
      (xs : list A) (acc acc' : S) :
  (forall s x s', P s -> body s x = Ok s' -> P s') ->
  P acc -> for_each body xs acc = Ok acc' -> P acc'.
Proof.
  intros Hbody. revert acc. induction xs as [|x xs IH]; simpl; intros acc HP H.
  - injection H as <-. exact HP.
  - bind_inv H. eapply IH; [|eassumption]. eapply Hbody; eassumption.
Qed.

(** ** The importer: rows and headers *)

Lemma In_firstn {A : Type} (n : nat) (l : list A) (x : A) :
  In x (firstn n l) -> In x l.
Proof.
  intros H. rewrite <- (firstn_skipn n l). apply in_or_app. left. exact H.
Qed.

Lemma In_data_rows (ws : worksheet) (has_header : bool) (max_rows : option Z)
      (row : list value) :
  In row (data_rows_of ws has_header max_rows) -> In row ws.
Proof.
  unfold data_rows_of, slice_to. intros H.
  assert (Htl : forall r, In r (if has_header then tl ws else ws) -> In r ws).
  { intros r Hr. destruct has_header; [|exact Hr].
    destruct ws; [exact Hr|right; exact Hr]. }
  apply Htl. destruct max_rows as [n|]; [|exact H].
  destruct (0 <=? n); eapply In_firstn; exact H.
Qed.

Lemma length_le_list_max (ws : worksheet) (row : list value) :
  In row ws -> (length row <= list_max (map (@length value) ws))%nat.
Proof.
  intros H.
  assert (HF : Forall (fun k => (k <= list_max (map (@length value) ws))%nat)
                      (map (@length value) ws)).
  { apply list_max_le. apply Nat.le_refl. }
  rewrite Forall_forall in HF. apply HF. apply in_map. exact H.
Qed.

Lemma normalize_row_pads (num_cols : nat) (row : list value) :
  (length row <= num_cols)%nat ->
  normalize_row num_cols row = row ++ repeat VNone (num_cols - length row)
  /\ length (normalize_row num_cols row) = num_cols.
Proof.
  intros H. unfold normalize_row.
  assert (L : length (row ++ repeat VNone (num_cols - length row)) = num_cols).
  { rewrite length_app, repeat_length. lia. }
  assert (E : firstn num_cols (row ++ repeat VNone (num_cols - length row))
              = row ++ repeat VNone (num_cols - length row)).
  { rewrite <- L at 1. apply firstn_all. }
  rewrite E. split; [reflexivity|exact L].
Qed.

Section ImporterProperties.
Context {U : Unicode}.

Lemma header_label_cases (first : list value) (i : nat) :
  header_label (Some first) i
  = match nth_error first i with
    | Some VNone | None =>
        l <- get_column_letter (Z.of_nat i + 1) ;; Ok (lit "Column_" ++ l)
    | Some v => Ok (str_of_value v)
    end.
Proof.
  unfold header_label. destruct first as [|c first]; [|reflexivity].
  destruct i; reflexivity.
Qed.

(** What [_process_sheet] stores for a worksheet. *)
Lemma process_sheet_rows (ws : worksheet) (name : str) (has_header : bool)
      (max_rows : option Z) (sheet : SheetData.t) :
  _process_sheet ws name has_header max_rows = Ok sheet ->
  SheetData.name sheet = name /\
  SheetData.col_count sheet = Z.of_nat (list_max (map (@length value) ws)) /\
  SheetData.rows sheet
  = map (fun row => row ++ repeat VNone (list_max (map (@length value) ws) - length row))
        (data_rows_of ws has_header max_rows) /\
  Forall (fun row => Z.of_nat (length row) = SheetData.col_count sheet)
         (SheetData.rows sheet).
Proof.
  unfold _process_sheet. destruct ws as [|first rest].
  - intros H. injection H as <-. simpl.
    repeat split; try constructor.
    unfold data_rows_of, slice_to. destruct has_header, max_rows as [n|]; simpl;
      try reflexivity; destruct (0 <=? n); rewrite ?firstn_nil; reflexivity.
  - set (ws := first :: rest). set (nc := list_max (map (@length value) ws)).
    intros H. bind_inv H. bind_inv H. injection H as <-. simpl.
    assert (Hrows :
              map (normalize_row nc)
                  (match max_rows with
                   | Some n => slice_to n (if has_header then rest else ws)
                   | None => if has_header then rest else ws
                   end)
              = map (fun row => row ++ repeat VNone (nc - length row))
                    (data_rows_of ws has_header max_rows)).
    { apply map_ext_in. intros row Hrow.
      apply normalize_row_pads. apply length_le_list_max.
      apply (In_data_rows ws has_header max_rows). exact Hrow. }
    split; [reflexivity|]. split; [reflexivity|]. split; [exact Hrows|].
    apply Forall_forall. intros row Hrow. apply in_map_iff in Hrow.
    destruct Hrow as (r & <- & Hr). f_equal.
    apply normalize_row_pads. apply length_le_list_max.
    apply (In_data_rows ws has_header max_rows). exact Hr.
Qed.

(** C3. In every result of the importer, every stored row of every sheet has
    exactly [col_count] cells, [col_count] is the greatest length of a row of
    the worksheet, header row and rows beyond [max_rows] included, and a
    stored row is the data row with [None]s after it. *)
Theorem import_rectangular (now : str) (wb : workbook) (file_path : str)
        (sheet_names : option (list str)) (has_header : bool)
        (max_rows : option Z) (ir : ImportResult.t) :
  import_file now wb file_path sheet_names has_header max_rows = Ok ir ->
  rectangular ir /\
  Forall (fun sheet =>
            exists ws,
              find_sheet wb (SheetData.name sheet) = Some ws /\
              SheetData.col_count sheet = Z.of_nat (list_max (map (@length value) ws)) /\
              SheetData.rows sheet
              = map (fun row =>
                       row ++ repeat VNone (list_max (map (@length value) ws) - length row))
                    (data_rows_of ws has_header max_rows))
         (ImportResult.sheets ir).
Proof.
  unfold import_file, rectangular. intros H.
  enough (Hall :
            Forall (fun sheet =>
                      Forall (fun row => Z.of_nat (length row) = SheetData.col_count sheet)
                             (SheetData.rows sheet) /\
                      exists ws,
                        find_sheet wb (SheetData.name sheet) = Some ws /\
                        SheetData.col_count sheet
                        = Z.of_nat (list_max (map (@length value) ws)) /\
                        SheetData.rows sheet
                        = map (fun row =>
                                 row ++ repeat VNone
                                     (list_max (map (@length value) ws) - length row))
                              (data_rows_of ws has_header max_rows))
                   (ImportResult.sheets ir)).
  { split; (eapply Forall_impl; [|exact Hall]); intros sheet [H1 H2]; assumption. }
  revert H.
  apply (for_each_invariant _
           (fun r => Forall _ (ImportResult.sheets r))); [|constructor].
  intros s name s' Hs Hbody. simpl in Hbody.
  destruct (find_sheet wb name) as [ws|] eqn:Hfind.
  - bind_inv Hbody. injection Hbody as <-. simpl.
    apply Forall_app. split; [exact Hs|].
    constructor; [|constructor].
    apply process_sheet_rows in Hx. destruct Hx as (Hn & Hc & Hr & Hlen).
    split; [exact Hlen|].
    exists ws. rewrite Hn. auto.
  - injection Hbody as <-. exact Hs.
Qed.

(** C8, as the code has it.  With a header row, the label of a column is the
    text of its cell in the first row when there is such a cell and it is not
    [None], an empty or blank string included; it is [Column_] and the
    letters of the column otherwise: A for the first column, then B up to Z,
    then AA, AB and so on. *)
Theorem header_labels (first : list value) (rest : worksheet) (name : str)
        (max_rows : option Z) (sheet : SheetData.t) :
  _process_sheet (first :: rest) name true max_rows = Ok sheet ->
  length (SheetData.headers sheet) = list_max (map (@length value) (first :: rest)) /\
  (forall i, (i < list_max (map (@length value) (first :: rest)))%nat ->
             exists letters,
               get_column_letter (Z.of_nat i + 1) = Ok letters /\
               nth_error (SheetData.headers sheet) i
               = Some match nth_error first i with
                      | Some VNone | None => lit "Column_" ++ letters
                      | Some v => str_of_value v
                      end) /\
  map get_column_letter [1; 2; 26; 27; 28; 52; 53; 702; 703]
  = map (fun s => Ok (lit s)) ["A"; "B"; "Z"; "AA"; "AB"; "AZ"; "BA"; "ZZ"; "AAA"]%string.
Proof.
  unfold _process_sheet.
  set (nc := list_max (map (@length value) (first :: rest))).
  intros H. bind_inv H. rename x into headers, Hx into Hheaders.
  bind_inv H. rename x into columns, Hx into Hcolumns.
  injection H as <-. simpl.
  split; [|split; [|vm_compute; reflexivity]].
  - apply map_result_length in Hheaders. rewrite Hheaders. apply length_seq.
  - intros i Hi.
    assert (Hseq : nth_error (seq 0 nc) i = Some i).
    { rewrite nth_error_nth' with (d := O) by (rewrite length_seq; exact Hi).
      rewrite seq_nth by exact Hi. reflexivity. }
    destruct (map_result_nth _ _ _ _ _ Hcolumns Hseq) as (col & Hcol & _).
    unfold detect_column in Hcol. bind_inv Hcol. rename x into letters.
    exists letters. split; [exact Hx|].
    destruct (map_result_nth _ _ _ _ _ Hheaders Hseq) as (h & Hh & Hnth).
    rewrite Hnth. f_equal.
    rewrite header_label_cases in Hh.
    destruct (nth_error first i) as [[]|]; simpl in Hh;
      try (injection Hh as <-; reflexivity);
      rewrite Hx in Hh; simpl in Hh; injection Hh as <-; reflexivity.
Qed.

End ImporterProperties.

(** C8, as the specification has it, fails for a blank header cell: the label
    of the first column of this sheet is the blank string of its header
    cell, which the classifier takes for an empty cell, and not [Column_A]. *)
Lemma blank_header_kept :
  exists sheet,
    @_process_sheet ascii_only
       [[VStr (lit "  "); VStr (lit "Name")]; [VInt 1; VStr (lit "Ann")]]
       (lit "People") true None = Ok sheet /\
    @_detect_cell_type ascii_only (VStr (lit "  ")) = EMPTY /\
    SheetData.headers sheet = [lit "  "; lit "Name"] /\
    nth_error (SheetData.headers sheet) 0 <> Some (lit "Column_A").
Proof.
  eexists. split; [vm_compute; reflexivity|].
  split; [vm_compute; reflexivity|].
  split; [vm_compute; reflexivity|].
  vm_compute. intros H. discriminate H.
Qed.

(** ** Floats of small integers *)

Lemma digits2_pos_bound (p : positive) (k : Z) :
  Zpos p < 2 ^ k -> 0 <= k -> Zpos (digits2_pos p) <= k.
Proof.
  revert k. induction p as [p IH|p IH|]; intros k H Hk; simpl digits2_pos.
  - assert (1 <= k) by (destruct (Z.eq_dec k 0) as [->|]; [simpl in H; lia|lia]).
    replace k with (Z.succ (k - 1)) in H by lia.
    rewrite Z.pow_succ_r in H by lia.
    rewrite Pos2Z.inj_succ. specialize (IH (k - 1)). lia.
  - assert (1 <= k) by (destruct (Z.eq_dec k 0) as [->|]; [simpl in H; lia|lia]).
    replace k with (Z.succ (k - 1)) in H by lia.
    rewrite Z.pow_succ_r in H by lia.
    rewrite Pos2Z.inj_succ. specialize (IH (k - 1)). lia.
  - destruct (Z.eq_dec k 0) as [->|]; [simpl in H; lia|lia].
Qed.

Lemma iter_xO_value (p k : positive) :
  Zpos (Pos.iter xO p k) = Zpos p * 2 ^ Zpos k.
Proof.
  revert p. induction k as [|k IH] using Pos.peano_ind; intros p.
  - simpl. lia.
  - rewrite Pos.iter_succ, Pos2Z.inj_succ, Z.pow_succ_r by lia.
    rewrite Pos2Z.inj_xO, IH. lia.
Qed.

Lemma iter_xO_digits (p k : positive) :
  Zpos (digits2_pos (Pos.iter xO p k)) = Zpos (digits2_pos p) + Zpos k.
Proof.
  induction k as [|k IH] using Pos.peano_ind.
  - simpl. lia.
  - rewrite Pos.iter_succ. simpl digits2_pos.
    rewrite !Pos2Z.inj_succ, IH. lia.
Qed.

(** Rounding leaves a mantissa alone that has the digits its exponent asks
    for. *)
Lemma binary_round_aux_canonical (s : bool) (m : positive) (e : Z) :
  fexp prec emax (Zpos (digits2_pos m) + e) = e ->
  e <= emax - prec ->
  binary_round_aux prec emax s (Zpos m) e loc_Exact = S754_finite s m e.
Proof.
  intros Hf He. unfold binary_round_aux, shr_fexp.
  cbn [Zdigits2 shr_record_of_loc]. rewrite Hf, Z.sub_diag.
  cbn [shr shr_m loc_of_shr_record round_nearest_even Zdigits2 shr_record_of_loc].
  rewrite Hf, Z.sub_diag. cbn [shr shr_m].
  apply Z.leb_le in He. rewrite He. reflexivity.
Qed.

(** The float of a natural number below 2^53 is that number. *)
Lemma Z2F_exact (n : Z) :
  0 <= n < 2 ^ 53 -> compare_int_float n (Z2F n) = Some Eq.
Proof.
  intros [H0 H]. destruct n as [|p|p]; [reflexivity| |lia].
  pose proof (digits2_pos_bound p 53 H ltac:(lia)) as Hd.
  assert (Hd1 : 1 <= Zpos (digits2_pos p)) by lia.
  unfold Z2F, binary_normalize, binary_round.
  set (d := Zpos (digits2_pos p)) in *.
  assert (Hfexp : fexp prec emax (d + 0) = d - 53).
  { unfold fexp, emin, prec, emax. lia. }
  rewrite Hfexp. unfold shl_align.
  destruct (d - 53 - 0) as [|k|k] eqn:Ek; try lia.
  - (* 53 digits *)
    rewrite binary_round_aux_canonical.
    + unfold compare_int_float. change (0 <=? 0) with true. cbv iota.
      rewrite Z.pow_0_r, Z.mul_1_r, Z.compare_refl. reflexivity.
    + fold d. unfold fexp, emin, prec, emax. lia.
    + unfold emax, prec. lia.
  - (* fewer digits: the mantissa is shifted to 53 digits *)
    assert (Ek' : Zpos k = 53 - d) by lia.
    rewrite binary_round_aux_canonical.
    + unfold compare_int_float.
      replace (0 <=? d - 53) with false by (symmetry; apply Z.leb_gt; lia).
      rewrite iter_xO_value. replace (- (d - 53)) with (Zpos k) by lia.
      rewrite Z.compare_refl. reflexivity.
    + rewrite iter_xO_digits. fold d. unfold fexp, emin, prec, emax. lia.
    + unfold emax, prec. lia.
Qed.

(** ** Numeric coercion of percentages *)

Lemma d09_bounds (c : char) : d09 c = true -> (48 <= c <= 57)%N.
Proof.
  unfold d09, in_range. intros H. apply andb_true_iff in H.
  destruct H as [H1 H2]. apply N.leb_le in H1. apply N.leb_le in H2. lia.
Qed.

Lemma replace_absent (old : char) (new s : str) :
  Forall (fun c => N.eqb c old = false) s -> replace old new s = s.
Proof.
  unfold replace. induction 1 as [|c s Hc _ IH]; simpl; [reflexivity|].
  rewrite Hc, IH. reflexivity.
Qed.

Lemma digits_value_from (ds : str) (v : Z) :
  Forall (fun c => d09 c = true) ds -> 0 <= v ->
  0 <= fold_left (fun v c => 10 * v + (Z.of_N c - 48)) ds v.
Proof.
  intros H. revert v.
  induction H as [|c ds Hc _ IH]; cbn [fold_left]; intros v Hv; [exact Hv|].
  apply IH. apply d09_bounds in Hc. lia.
Qed.

Section Percentages.
Context {U : Unicode}.

Lemma digit_is_ascii (c : char) : d09 c = true -> is_ascii c = true.
Proof. intros H. apply d09_bounds in H. apply N.ltb_lt. lia. Qed.

Lemma digit_value (c : char) :
  d09 c = true -> decimal_value c = Some (Z.of_N c - 48).
Proof.
  intros H. unfold decimal_value. rewrite (digit_is_ascii c H).
  unfold d09 in H. rewrite H. reflexivity.
Qed.

Lemma below_64_not_space (c : char) :
  (33 <= c < 128)%N -> isspace c = false.
Proof.
  intros H. unfold isspace, is_ascii, in_range.
  replace (N.ltb c 128) with true by (symmetry; apply N.ltb_lt; lia).
  replace (N.leb c 13) with false by (symmetry; apply N.leb_gt; lia).
  replace (N.leb c 32) with false by (symmetry; apply N.leb_gt; lia).
  rewrite !andb_false_r. reflexivity.
Qed.

Lemma lstrip_no_space (s : str) :
  Forall (fun c => isspace c = false) s -> lstrip s = s.
Proof. intros H. destruct H as [|c s Hc _]; simpl; [|rewrite Hc]; reflexivity. Qed.

Lemma strip_no_space (s : str) :
  Forall (fun c => isspace c = false) s -> strip s = s.
Proof.
  intros H. unfold strip, rstrip. rewrite (lstrip_no_space s H).
  rewrite lstrip_no_space; [apply rev_involutive|].
  apply Forall_forall. intros x Hx. apply in_rev in Hx.
  revert x Hx. apply Forall_forall. exact H.
Qed.

Lemma digits_of_digits (ds : str) (v n : Z) :
  Forall (fun c => d09 c = true) ds ->
  digits ds v n
  = (fold_left (fun v c => 10 * v + (Z.of_N c - 48)) ds v, n + Z.of_nat (length ds), []).
Proof.
  intros H. revert v n. induction H as [|c ds Hc _ IH]; intros v n.
  - simpl. rewrite Z.add_0_r. reflexivity.
  - cbn [digits]. rewrite (digit_value c Hc), IH. cbn [fold_left length].
    do 2 f_equal. lia.
Qed.

(** [float] of a numeral of ASCII digits is the float of its value. *)
Lemma float_of_digits (ds : str) :
  ds <> [] -> Forall (fun c => d09 c = true) ds ->
  float_of_str ds = Ok (Z2F (digits_value ds)).
Proof.
  intros Hne Hds.
  assert (Hsp : Forall (fun c => isspace c = false) ds).
  { eapply Forall_impl; [|exact Hds]. intros c Hc. apply d09_bounds in Hc.
    apply below_64_not_space. lia. }
  unfold float_of_str. rewrite (strip_no_space ds Hsp).
  destruct ds as [|d ds]; [contradiction|].
  inversion Hds as [|? ? Hd Hds']; subst.
  pose proof (d09_bounds d Hd) as Bd.
  unfold sign.
  replace (N.eqb d 45) with false by (symmetry; apply N.eqb_neq; lia).
  replace (N.eqb d 43) with false by (symmetry; apply N.eqb_neq; lia).
  assert (Hlow : ascii_lower d = d).
  { unfold ascii_lower, in_range.
    replace (N.leb 65 d) with false by (symmetry; apply N.leb_gt; lia).
    reflexivity. }
  cbn [map]. rewrite Hlow.
  assert (Hinf : str_in (d :: map ascii_lower ds) [lit "inf"; lit "infinity"] = false).
  { cbn. replace (N.eqb d 105) with false by (symmetry; apply N.eqb_neq; lia).
    reflexivity. }
  assert (Hnan : str_eqb (d :: map ascii_lower ds) (lit "nan") = false).
  { cbn. replace (N.eqb d 110) with false by (symmetry; apply N.eqb_neq; lia).
    reflexivity. }
  rewrite Hinf, Hnan.
  unfold number.
  replace (N.eqb d 46) with false by (symmetry; apply N.eqb_neq; lia).
  unfold digitpart. rewrite (digit_value d Hd), (digits_of_digits ds _ _ Hds').
  cbn [exponent]. unfold digits_value. cbn [fold_left].
  assert (Hn : 0 <= fold_left (fun v c => 10 * v + (Z.of_N c - 48)) ds
                              (10 * 0 + (Z.of_N d - 48))).
  { apply digits_value_from; [exact Hds'|lia]. }
  revert Hn. generalize (fold_left (fun v c => 10 * v + (Z.of_N c - 48)) ds
                                   (10 * 0 + (Z.of_N d - 48))).
  intros n Hn.
  rewrite Z.sub_0_r. unfold of_decimal, Z2F, binary_normalize.
  destruct n as [|p|p]; [reflexivity| |lia].
  change (0 <=? 0) with true. cbv iota.
  change (Z.to_pos (10 ^ 0)) with 1%positive. rewrite Pos.mul_1_r. reflexivity.
Qed.

(** C10. Numeric coercion takes a percentage at its face value: a numeral of
    digits before a per cent sign is coerced to the float of the value of
    the numeral, which is that value exactly below 2^53; "50%" is 50.0 and
    not 0.5; and the statistics of a Percentage column are those of the face
    values: for "50%" and "25%" the minimum is 25.0, the maximum 50.0, the
    sum 75.0, the mean and the median 37.5, the standard deviation
    17.67766952966369. *)
Theorem percent_face_value (ds : str) :
  ds <> [] ->
  Forall (fun c => d09 c = true) ds ->
  _to_numeric (VStr (ds ++ lit "%")) = Ok (Some (Z2F (digits_value ds))) /\
  (digits_value ds < 2 ^ 53 ->
   compare_int_float (digits_value ds) (Z2F (digits_value ds)) = Some Eq) /\
  _to_numeric (VStr (lit "50%")) = Ok (Some (Z2F 50)) /\
  compare_int_float 50 (Z2F 50) = Some Eq /\
  feq (Z2F 50) (of_decimal false 5 (-1)) = false /\
  exists stats,
    _analyze_column (column_of_two PERCENTAGE) two_percentages = Ok stats /\
    shown (ColumnStats.min_val stats) = Some (lit "25.0") /\
    shown (ColumnStats.max_val stats) = Some (lit "50.0") /\
    shown (ColumnStats.sum_val stats) = Some (lit "75.0") /\
    shown (ColumnStats.mean_val stats) = Some (lit "37.5") /\
    shown (ColumnStats.median_val stats) = Some (lit "37.5") /\
    shown (ColumnStats.std_dev stats) = Some (lit "17.67766952966369").
Proof.
  intros Hne Hds.
  split.
  { assert (Hall : Forall (fun c => (33 <= c < 128)%N /\ c <> 44%N /\ c <> 36%N)
                          (ds ++ lit "%")).
    { apply Forall_app. split.
      - eapply Forall_impl; [|exact Hds]. intros c Hc. apply d09_bounds in Hc. lia.
      - change (lit "%") with [37%N]. constructor; [lia|constructor]. }
    assert (Hsp : Forall (fun c => isspace c = false) (ds ++ lit "%")).
    { eapply Forall_impl; [|exact Hall]. intros c Hc.
      apply below_64_not_space. exact (proj1 Hc). }
    assert (Habs : forall sym, sym = 44%N \/ sym = 36%N \/ (128 <= sym)%N ->
                               replace sym [] (ds ++ lit "%") = ds ++ lit "%").
    { intros sym Hsym. apply replace_absent.
      eapply Forall_impl; [|exact Hall]. intros c Hc. cbv beta in Hc.
      apply N.eqb_neq. lia. }
    unfold _to_numeric. rewrite (strip_no_space _ Hsp).
    rewrite (Habs 44%N) by tauto.
    cbn [fold_left].
    rewrite (Habs 36%N) by tauto.
    rewrite (Habs euro) by (unfold euro; lia).
    rewrite (Habs pound) by (unfold pound; lia).
    rewrite (Habs yen) by (unfold yen; lia).
    rewrite (Habs rupee) by (unfold rupee; lia).
    assert (Hr : rstrip_char 37 (ds ++ lit "%") = ds).
    { unfold rstrip_char. rewrite rev_app_distr. cbn [lit list_ascii_of_string map rev app].
      change (N_of_ascii "%") with 37%N. cbn [drop_while].
      rewrite N.eqb_refl.
      destruct (rev ds) as [|c r] eqn:E.
      - apply (f_equal (@rev char)) in E. rewrite rev_involutive in E. exact (eq_sym E).
      - cbn [drop_while].
        assert (Hc : d09 c = true).
        { rewrite Forall_forall in Hds. apply Hds. apply in_rev. rewrite E. left. reflexivity. }
        apply d09_bounds in Hc.
        replace (N.eqb 37 c) with false by (symmetry; apply N.eqb_neq; lia).
        rewrite <- E. apply rev_involutive. }
    rewrite Hr.
    assert (Hsp' : Forall (fun c => isspace c = false) ds).
    { apply Forall_app in Hsp. tauto. }
    rewrite (strip_no_space _ Hsp'), (float_of_digits ds Hne Hds). reflexivity. }
  split.
  { intros Hlt. apply Z2F_exact. split; [|exact Hlt].
    apply digits_value_from; [exact Hds|lia]. }
  split; [vm_compute; reflexivity|].
  split; [vm_compute; reflexivity|].
  split; [vm_compute; reflexivity|].
  eexists. do 6 (split; [vm_compute; reflexivity|]). vm_compute; reflexivity.
Qed.

End Percentages.

(** ** Outliers *)

Lemma insert_sorted_length {A : Type} (lt : A -> A -> bool) (x : A) (l : list A) :
  length (insert_sorted lt x l) = S (length l).
Proof.
  induction l as [|y l IH]; simpl; [reflexivity|].
  destruct (lt x y); simpl; [reflexivity|]. rewrite IH. reflexivity.
Qed.

Lemma sorted_length {A : Type} (lt : A -> A -> bool) (l : list A) :
  length (sorted lt l) = length l.
Proof.
  unfold sorted.
  assert (H : forall acc, length (fold_left (fun acc x => insert_sorted lt x acc) l acc)
                          = (length acc + length l)%nat).
  { induction l as [|x l IH]; intros acc; simpl; [lia|].
    rewrite IH, insert_sorted_length. lia. }
  rewrite H. reflexivity.
Qed.

Lemma insert_sorted_permutation {A : Type} (lt : A -> A -> bool) (x : A) (l : list A) :
  Permutation (insert_sorted lt x l) (x :: l).
Proof.
  induction l as [|y l IH]; simpl; [reflexivity|].
  destruct (lt x y); [reflexivity|].
  rewrite IH. apply perm_swap.
Qed.

(** Sorting rearranges. *)
Lemma sorted_permutation {A : Type} (lt : A -> A -> bool) (l : list A) :
  Permutation (sorted lt l) l.
Proof.
  unfold sorted.
  assert (H : forall acc, Permutation (fold_left (fun acc x => insert_sorted lt x acc) l acc)
                                      (acc ++ l)).
  { induction l as [|x l IH]; intros acc; simpl.
    - rewrite app_nil_r. reflexivity.
    - rewrite IH, insert_sorted_permutation. apply Permutation_middle. }
  apply (H []).
Qed.

Lemma py_index_Ok {A : Type} (l : list A) (i : Z) (x : A) :
  py_index l i = Ok x -> 0 <= i -> nth_error l (Z.to_nat i) = Some x.
Proof.
  unfold py_index. intros H Hi.
  replace (i <? 0) with false in H by (symmetry; apply Z.ltb_ge; exact Hi).
  destruct ((0 <=? i) && (i <? Z.of_nat (length l))); [|discriminate H].
  destruct (nth_error l (Z.to_nat i)) as [y|]; [|discriminate H].
  injection H as ->. reflexivity.
Qed.

(** ** Sorting *)

Lemma insert_sorted_In {A : Type} (lt : A -> A -> bool) (x z : A) (l : list A) :
  In z (insert_sorted lt x l) <-> z = x \/ In z l.
Proof.
  induction l as [|y l IH]; cbn [insert_sorted].
  - cbn [In]. intuition congruence.
  - destruct (lt x y); cbn [In]; [intuition congruence|].
    rewrite IH. intuition congruence.
Qed.

(** [sorted] sorts: for an order [lt] that, on the elements of the list, is
    asymmetric and has a transitive complement, no element of the result is
    less than an earlier one. *)
Section Sorting.
Context {A : Type} (lt : A -> A -> bool) (P : A -> Prop).

Hypothesis lt_asym : forall x y, P x -> P y -> lt x y = true -> lt y x = false.
Hypothesis not_after_trans :
  forall x y z, P x -> P y -> P z ->
                not_after lt x y -> not_after lt y z -> not_after lt x z.

Lemma insert_sorted_sorted (x : A) (l : list A) :
  P x -> Forall P l ->
  StronglySorted (not_after lt) l -> StronglySorted (not_after lt) (insert_sorted lt x l).
Proof.
  intros Px. induction l as [|y l IH]; intros Pl H; cbn [insert_sorted].
  - constructor; constructor.
  - inversion H as [|? ? Hl Hy]; subst. inversion Pl as [|? ? Py Pl']; subst.
    rewrite Forall_forall in Hy, Pl'.
    destruct (lt x y) eqn:E.
    + constructor; [exact H|]. constructor; [apply lt_asym; assumption|].
      apply Forall_forall. intros z Hz.
      apply (not_after_trans x y z); auto. apply lt_asym; assumption.
    + constructor; [apply IH; [apply Forall_forall; exact Pl'|exact Hl]|].
      apply Forall_forall. intros z Hz. apply insert_sorted_In in Hz.
      destruct Hz as [->|Hz]; [exact E|apply Hy; exact Hz].
Qed.

Lemma insert_sorted_Forall (x : A) (l : list A) :
  P x -> Forall P l -> Forall P (insert_sorted lt x l).
Proof.
  intros Px Pl. apply Forall_forall. intros z Hz. apply insert_sorted_In in Hz.
  destruct Hz as [->|Hz]; [exact Px|]. rewrite Forall_forall in Pl. apply Pl. exact Hz.
Qed.

Lemma sorted_sorted (l : list A) :
  Forall P l -> StronglySorted (not_after lt) (sorted lt l).
Proof.
  unfold sorted. intros Pl.
  assert (G : forall acc, Forall P acc -> StronglySorted (not_after lt) acc ->
                          StronglySorted (not_after lt)
                            (fold_left (fun acc x => insert_sorted lt x acc) l acc)).
  { induction Pl as [|x l Px _ IH]; intros acc Pacc H; cbn [fold_left]; [exact H|].
    apply IH; [apply insert_sorted_Forall|apply insert_sorted_sorted]; assumption. }
  apply G; constructor.
Qed.

End Sorting.

(** ** The order of the floats *)

Lemma lex_lt_asym (k l : list Z) : lex_lt k l = true -> lex_lt l k = false.
Proof.
  revert l. induction k as [|x k IH]; intros [|y l] H; try reflexivity; try discriminate H.
  cbn [lex_lt] in H |- *.
  destruct (Z.ltb_spec x y), (Z.ltb_spec y x), (Z.eqb_spec x y), (Z.eqb_spec y x);
    cbn [orb andb] in H |- *; try lia; try reflexivity; try discriminate H.
  apply IH. exact H.
Qed.

Lemma lex_lt_trans (k l m : list Z) :
  length k = length l -> length l = length m ->
  lex_lt l k = false -> lex_lt m l = false -> lex_lt m k = false.
Proof.
  revert l m. induction k as [|x k IH]; intros [|y l] [|z m] L1 L2 H1 H2;
    try discriminate L1; try discriminate L2; try reflexivity.
  cbn [lex_lt] in H1, H2 |- *. injection L1 as L1. injection L2 as L2.
  destruct (Z.ltb_spec y x), (Z.ltb_spec z y), (Z.ltb_spec z x),
           (Z.eqb_spec y x), (Z.eqb_spec z y), (Z.eqb_spec z x);
    cbn [orb andb] in H1, H2 |- *; try lia; try reflexivity;
    try discriminate H1; try discriminate H2.
  apply (IH l m); assumption.
Qed.

(** [<] on two floats that are not NaNs is the order of their keys. *)
Lemma flt_lex (x y : float) :
  is_nan x = false -> is_nan y = false -> flt x y = lex_lt (float_key x) (float_key y).
Proof.
  intros Hx Hy.
  destruct x as [s1|s1| |s1 m1 e1]; try discriminate Hx;
    destruct y as [s2|s2| |s2 m2 e2]; try discriminate Hy;
    unfold flt, SFltb, SFcompare, float_key;
    try (destruct s1; reflexivity); try (destruct s2; reflexivity);
    try (destruct s1, s2; reflexivity).
  destruct s1, s2; try reflexivity; cbn [lex_lt].
  - change (-1 <? -1) with false. change (-1 =? -1) with true. cbn [orb andb].
    rewrite andb_false_r, orb_false_r.
    change (Z.neg m1 <? Z.neg m2) with
      (match CompOpp (Pos.compare m1 m2) with Lt => true | _ => false end).
    change (Pos.compare_cont Eq m1 m2) with (Pos.compare m1 m2).
    destruct (Z.compare_spec e1 e2) as [E|E|E].
    + subst e2. rewrite Z.ltb_irrefl, Z.eqb_refl. cbn [orb andb]. reflexivity.
    + replace (- e1 <? - e2) with false by (symmetry; apply Z.ltb_ge; lia).
      replace (- e1 =? - e2) with false by (symmetry; apply Z.eqb_neq; lia).
      reflexivity.
    + replace (- e1 <? - e2) with true by (symmetry; apply Z.ltb_lt; lia).
      reflexivity.
  - change (1 <? 1) with false. change (1 =? 1) with true. cbn [orb andb].
    rewrite andb_false_r, orb_false_r.
    change (Z.pos m1 <? Z.pos m2) with
      (match Pos.compare m1 m2 with Lt => true | _ => false end).
    change (Pos.compare_cont Eq m1 m2) with (Pos.compare m1 m2).
    destruct (Z.compare_spec e1 e2) as [E|E|E].
    + subst e2. rewrite Z.ltb_irrefl, Z.eqb_refl. cbn [orb andb]. reflexivity.
    + replace (e1 <? e2) with true by (symmetry; apply Z.ltb_lt; lia).
      reflexivity.
    + replace (e1 <? e2) with false by (symmetry; apply Z.ltb_ge; lia).
      replace (e1 =? e2) with false by (symmetry; apply Z.eqb_neq; lia).
      reflexivity.
Qed.

Lemma float_key_length (x : float) : length (float_key x) = 3%nat.
Proof. destruct x as [s|s| |s m e]; try reflexivity; destruct s; reflexivity. Qed.

Lemma flt_asym (x y : float) :
  is_nan x = false -> is_nan y = false -> flt x y = true -> flt y x = false.
Proof.
  intros Hx Hy. rewrite (flt_lex x y Hx Hy), (flt_lex y x Hy Hx). apply lex_lt_asym.
Qed.

Lemma flt_not_after_trans (x y z : float) :
  is_nan x = false -> is_nan y = false -> is_nan z = false ->
  not_after flt x y -> not_after flt y z -> not_after flt x z.
Proof.
  unfold not_after. intros Hx Hy Hz.
  rewrite (flt_lex y x Hy Hx), (flt_lex z y Hz Hy), (flt_lex z x Hz Hx).
  apply lex_lt_trans; rewrite !float_key_length; reflexivity.
Qed.


Section Outliers.
Context {U : Unicode}.


End Outliers.

(** ** Signs of rounded results *)

Lemma shr_1_nonneg (mrs : shr_record) : 0 <= shr_m mrs -> 0 <= shr_m (shr_1 mrs).
Proof.
  destruct mrs as [m r s]. simpl. destruct m as [|p|p]; intros H.
  - simpl. lia.
  - destruct p; simpl; lia.
  - lia.
Qed.

Lemma iter_shr_1_nonneg (p : positive) (mrs : shr_record) :
  0 <= shr_m mrs -> 0 <= shr_m (iter_pos shr_1 p mrs).
Proof.
  revert mrs. induction p as [p IH|p IH|]; intros mrs H; simpl.
  - apply IH, IH, shr_1_nonneg, H.
  - apply IH, IH, H.
  - apply shr_1_nonneg, H.
Qed.

Lemma shr_fexp_nonneg (m e : Z) (l : location) :
  0 <= m -> 0 <= shr_m (fst (shr_fexp prec emax m e l)).
Proof.
  intros H. unfold shr_fexp, shr.
  assert (H0 : 0 <= shr_m (shr_record_of_loc m l)).
  { destruct l as [|[]]; exact H. }
  destruct (fexp prec emax (Zdigits2 m + e) - e) as [|p|p]; simpl;
    [exact H0|apply iter_shr_1_nonneg; exact H0|exact H0].
Qed.

Lemma round_nearest_even_nonneg (m : Z) (l : location) :
  0 <= m -> 0 <= round_nearest_even m l.
Proof.
  intros H. unfold round_nearest_even.
  destruct l as [|[]]; try destruct (Z.even m); lia.
Qed.

(** Rounding a mantissa that is not negative gives a zero, a finite number
    or an infinity of the sign asked for, never a NaN. *)
Lemma binary_round_aux_signed (s : bool) (m e : Z) (l : location) :
  0 <= m -> signed_as s (binary_round_aux prec emax s m e l).
Proof.
  intros H. unfold binary_round_aux.
  pose proof (shr_fexp_nonneg m e l H) as H1.
  destruct (shr_fexp prec emax m e l) as [mrs' e'].
  simpl fst in H1.
  pose proof (shr_fexp_nonneg _ e' loc_Exact
                (round_nearest_even_nonneg _ (loc_of_shr_record mrs') H1)) as H2.
  destruct (shr_fexp prec emax
              (round_nearest_even (shr_m mrs') (loc_of_shr_record mrs')) e' loc_Exact)
    as [mrs'' e''].
  simpl fst in H2.
  destruct (shr_m mrs'') as [|p|p]; [reflexivity| |lia].
  destruct (e'' <=? emax - prec); reflexivity.
Qed.

Lemma binary_round_signed (s : bool) (m : positive) (e : Z) :
  signed_as s (binary_round prec emax s m e).
Proof.
  unfold binary_round. destruct (shl_align m e _) as [mz ez].
  apply binary_round_aux_signed. lia.
Qed.

Lemma round_quotient_signed (s : bool) (m d : Z) :
  0 <= m -> 0 < d -> signed_as s (round_quotient s m d).
Proof.
  intros Hm Hd. unfold round_quotient, SFdiv_core_binary.
  set (e' := Z.min _ _). set (m' := match 0 - 0 - e' with Z0 => m | Zpos _ => _ | Zneg _ => 0 end).
  assert (Hm' : 0 <= m').
  { subst m'. destruct (0 - 0 - e'); [exact Hm| |lia].
    apply Z.shiftl_nonneg. exact Hm. }
  pose proof (Z.div_pos m' d Hm' Hd) as Hq.
  unfold Z.div in Hq. destruct (Z.div_eucl m' d) as [q r]. simpl in Hq.
  apply binary_round_aux_signed. exact Hq.
Qed.

Lemma int_truediv_signed (a b : Z) (q : float) :
  0 <= a -> 0 < b -> int_truediv a b = Ok q ->
  signed_as false q /\ is_infinite q = false.
Proof.
  intros Ha Hb. unfold int_truediv.
  replace (b =? 0) with false by (symmetry; apply Z.eqb_neq; lia).
  replace (a <? 0) with false by (symmetry; apply Z.ltb_ge; lia).
  replace (b <? 0) with false by (symmetry; apply Z.ltb_ge; lia).
  simpl xorb. destruct (a =? 0).
  - intros H. injection H as <-. split; reflexivity.
  - pose proof (round_quotient_signed false (Z.abs a) (Z.abs b)
                  (Z.abs_nonneg a) ltac:(lia)) as Hs.
    destruct (is_infinite (round_quotient false (Z.abs a) (Z.abs b))) eqn:E;
      intros H; [discriminate H|].
    injection H as <-. split; assumption.
Qed.

Lemma fmul_signed (x : float) (m : positive) (e : Z) :
  signed_as false x -> signed_as false (fmul x (S754_finite false m e)).
Proof.
  destruct x as [s|s| |s mx ex]; simpl; intros H; try contradiction; subst s;
    try reflexivity.
  apply binary_round_aux_signed. lia.
Qed.

Lemma fadd_signed (x y : float) :
  signed_as false x -> signed_as false y -> signed_as false (fadd x y).
Proof.
  destruct x as [s|s| |s mx ex], y as [t|t| |t my ey]; simpl;
    intros Hx Hy; try contradiction; subst; try reflexivity.
  apply binary_round_signed.
Qed.

Lemma fsum_signed (xs : list float) :
  Forall (signed_as false) xs -> signed_as false (fsum xs).
Proof.
  unfold fsum. intros H.
  assert (G : forall acc, signed_as false acc ->
                          signed_as false (fold_left fadd xs acc)).
  { induction H as [|x xs Hx _ IH]; intros acc Hacc; simpl; [exact Hacc|].
    apply IH. apply fadd_signed; assumption. }
  apply G. reflexivity.
Qed.

Lemma fdiv_int_signed (x y : float) (n : Z) :
  signed_as false x -> 0 < n -> fdiv_int x n = Ok y -> signed_as false y.
Proof.
  intros Hx Hn. unfold fdiv_int, float_of_int.
  assert (Hd : signed_as false (Z2F n)).
  { unfold Z2F, binary_normalize. destruct n as [|p|p]; try lia.
    apply binary_round_signed. }
  destruct (Z2F n) as [s|s| |s m e]; simpl in *; try contradiction; subst s;
    try discriminate.
  intros H. injection H as <-.
  destruct x as [s|s| |s mx ex]; simpl in *; try contradiction; subst s;
    try reflexivity.
  unfold SFdiv_core_binary.
  set (e' := Z.min _ _).
  set (m' := match ex - e - e' with Z0 => Zpos mx | Zpos _ => _ | Zneg _ => 0 end).
  assert (Hm' : 0 <= m').
  { subst m'. destruct (ex - e - e'); [lia| |lia].
    apply Z.shiftl_nonneg. lia. }
  pose proof (Z.div_pos m' (Zpos m) Hm' ltac:(lia)) as Hq.
  unfold Z.div in Hq. destruct (Z.div_eucl m' (Zpos m)) as [q r]. simpl in Hq.
  apply binary_round_aux_signed. exact Hq.
Qed.

(** A difference is a NaN only if a term is, or both are infinite. *)
Lemma fsub_not_nan (x y : float) :
  is_nan x = false -> is_nan y = false -> is_infinite y = false ->
  is_nan (fsub x y) = false.
Proof.
  destruct x as [s|s| |s mx ex], y as [t|t| |t my ey]; simpl;
    intros Hx Hy Hi; try discriminate; try reflexivity.
  - destruct s, t; reflexivity.
  - unfold binary_normalize.
    destruct (cond_Zopp s (Zpos (fst (shl_align mx ex (Z.min ex ey))))
              - cond_Zopp t (Zpos (fst (shl_align my ey (Z.min ex ey))))) as [|p|p];
      [reflexivity| |].
    + pose proof (binary_round_signed false p (Z.min ex ey)) as H.
      destruct (binary_round prec emax false p (Z.min ex ey)); simpl in *;
        [reflexivity|reflexivity|contradiction|reflexivity].
    + pose proof (binary_round_signed true p (Z.min ex ey)) as H.
      destruct (binary_round prec emax true p (Z.min ex ey)); simpl in *;
        [reflexivity|reflexivity|contradiction|reflexivity].
Qed.

Lemma signed_not_nan (s : bool) (x : float) : signed_as s x -> is_nan x = false.
Proof. destruct x; simpl; intros H; [reflexivity|reflexivity|contradiction|reflexivity]. Qed.

Lemma SFcompare_refl (x : float) : is_nan x = false -> SFcompare x x = Some Eq.
Proof.
  destruct x as [s|s| |s m e]; simpl; intros H; try discriminate; try reflexivity.
  - destruct s; reflexivity.
  - rewrite Z.compare_refl.
    change (Pos.compare_cont Eq m m) with (Pos.compare m m).
    rewrite Pos.compare_refl. destruct s; reflexivity.
Qed.

(** ** [max] and [min] against an [int] *)

Lemma py_max_not_below (a : num) (n : Z) : num_lt (py_max a (Int n)) (Int n) = false.
Proof.
  unfold py_max. destruct (num_lt a (Int n)) eqn:E; [|exact E].
  unfold num_lt, num_compare. rewrite Z.compare_refl. reflexivity.
Qed.

Lemma py_min_not_above (a : num) (n : Z) : num_lt (Int n) (py_min a (Int n)) = false.
Proof.
  unfold py_min. destruct (num_lt (Int n) a) eqn:E; [|exact E].
  unfold num_lt, num_compare. rewrite Z.compare_refl. reflexivity.
Qed.

(** [max(x, 0)] and [max(0, x)] are equal numbers when [x] is not a NaN. *)
Lemma py_max_commutes (f : float) :
  is_nan f = false ->
  num_eq (py_max (Float f) (Int 0)) (py_max (Int 0) (Float f)) = true.
Proof.
  intros H. unfold py_max, num_lt, num_eq.
  cbn [num_compare].
  destruct (compare_int_float 0 f) as [[]|] eqn:E; cbn [option_map CompOpp].
  - cbn [num_compare]. rewrite E. reflexivity.
  - cbn [num_compare]. rewrite (SFcompare_refl f H). reflexivity.
  - cbn [num_compare]. reflexivity.
  - destruct f; simpl in *; discriminate.
Qed.

(** ** The data quality score *)

Lemma duplicate_rows_nonneg (rows : list (list value)) (a : row_scan) :
  0 <= scan_duplicate_rows a ->
  0 <= scan_duplicate_rows (fold_left scan_row rows a).
Proof.
  revert a. induction rows as [|row rows IH]; intros a H; simpl; [exact H|].
  apply IH. unfold scan_row.
  destruct (forallb _ _); [exact H|].
  destruct (existsb _ _); simpl; lia.
Qed.

Section Quality.
Context {U : Unicode}.

Lemma numeric_stats_completeness (stats stats' : ColumnStats.t) (values : list value) :
  _compute_numeric_stats stats values = Ok stats' ->
  ColumnStats.completeness stats' = ColumnStats.completeness stats.
Proof.
  unfold _compute_numeric_stats. intros H.
  bind_inv H. destruct x as [|x0 nums].
  - injection H as <-. reflexivity.
  - do 5 bind_inv H.
    destruct (4 <=? _).
    + bind_inv H. injection H as <-. reflexivity.
    + injection H as <-. reflexivity.
Qed.

Lemma text_stats_completeness (stats stats' : ColumnStats.t) (values : list value) :
  _compute_text_stats stats values = Ok stats' ->
  ColumnStats.completeness stats' = ColumnStats.completeness stats.
Proof.
  unfold _compute_text_stats. intros H.
  destruct (text_lengths values) as [|l ls].
  - injection H as <-. reflexivity.
  - bind_inv H. injection H as <-. reflexivity.
Qed.

Lemma boolean_stats_completeness (stats : ColumnStats.t) (values : list value) :
  ColumnStats.completeness (_compute_boolean_stats stats values)
  = ColumnStats.completeness stats.
Proof.
  unfold _compute_boolean_stats. revert stats.
  induction values as [|v values IH]; intros stats; simpl; [reflexivity|].
  rewrite IH. destruct v; try reflexivity;
    repeat match goal with
           | |- context [if ?c then _ else _] => destruct c
           | |- context [match ?c with [] => _ | _ :: _ => _ end] => destruct c
           end; reflexivity.
Qed.

Lemma date_stats_completeness (stats stats' : ColumnStats.t) (values : list value) :
  _compute_date_stats stats values = Ok stats' ->
  ColumnStats.completeness stats' = ColumnStats.completeness stats.
Proof.
  unfold _compute_date_stats. intros H.
  destruct (somes (map _to_date_sortable values)) as [|d ds].
  - injection H as <-. reflexivity.
  - do 2 bind_inv H. injection H as <-. reflexivity.
Qed.

(** The completeness of a column with counts that are not negative is not a
    NaN and not negative. *)
Lemma analyze_column_completeness (col_info : ColumnInfo.t) (values : list value)
      (stats : ColumnStats.t) :
  0 <= ColumnInfo.non_empty_count col_info ->
  _analyze_column col_info values = Ok stats ->
  signed_as false (ColumnStats.completeness stats).
Proof.
  intros Hne H. unfold _analyze_column in H.
  bind_named H c Hc.
  assert (Hs : signed_as false c).
  { destruct (0 <? ColumnInfo.total_count col_info) eqn:Ht.
    - bind_named Hc q Hq. injection Hc as <-.
      apply Z.ltb_lt in Ht.
      apply int_truediv_signed in Hq; [|assumption|assumption].
      change (Z2F 100) with (S754_finite false 7036874417766400 (-46)).
      apply fmul_signed. tauto.
    - injection Hc as <-. reflexivity. }
  destruct (numeric_family _).
  { apply numeric_stats_completeness in H. rewrite H. exact Hs. }
  destruct (text_family _).
  { apply text_stats_completeness in H. rewrite H. exact Hs. }
  destruct (DataType_eqb _ _).
  { injection H as <-. rewrite boolean_stats_completeness. exact Hs. }
  destruct (date_family _).
  { apply date_stats_completeness in H. rewrite H. exact Hs. }
  injection H as <-. exact Hs.
Qed.

(** C5. For an analyzed sheet with at least one column, whose columns have
    counts that are not negative: the data quality score is
    [max(avg - penalty, 0)], a number equal to [max(0, avg - penalty)], where
    [avg] is the mean of the completeness of the columns and [penalty] is
    [min(duplicate_rows / max(row_count, 1) * 100, 30)]; the penalty is not
    above 30 and the score is not below 0. *)
Theorem quality_score_formula (sheet : SheetData.t) (analysis : SheetAnalysis.t) :
  _analyze_sheet sheet = Ok analysis ->
  SheetData.columns sheet <> [] ->
  Forall (fun c => 0 <= ColumnInfo.non_empty_count c) (SheetData.columns sheet) ->
  exists avg_completeness q d,
    fdiv_int (fsum (map ColumnStats.completeness (SheetAnalysis.column_stats analysis)))
             (Z.of_nat (length (SheetAnalysis.column_stats analysis)))
    = Ok avg_completeness /\
    int_truediv (SheetAnalysis.duplicate_rows analysis)
                (Z.max (SheetAnalysis.row_count analysis) 1) = Ok q /\
    let dup_penalty := py_min (Float (fmul q (Z2F 100))) (Int 30) in
    num_sub (Float avg_completeness) dup_penalty = Ok d /\
    SheetAnalysis.data_quality_score analysis = py_max d (Int 0) /\
    num_eq (SheetAnalysis.data_quality_score analysis) (py_max (Int 0) d) = true /\
    num_lt (Int 30) dup_penalty = false /\
    num_lt (SheetAnalysis.data_quality_score analysis) (Int 0) = false.
Proof.
  intros H Hcols Hcounts. unfold _analyze_sheet in H.
  bind_named H cstats Hcs. bind_named H score Hscore. injection H as <-.
  cbn [SheetAnalysis.column_stats SheetAnalysis.duplicate_rows
       SheetAnalysis.row_count SheetAnalysis.data_quality_score].
  set (scan := fold_left scan_row (SheetData.rows sheet) _) in *.
  assert (Hdup : 0 <= scan_duplicate_rows scan).
  { apply duplicate_rows_nonneg. simpl. lia. }
  assert (Hsigned : Forall (signed_as false) (map ColumnStats.completeness cstats)).
  { apply Forall_map. revert Hcs. apply map_result_Forall.
    intros c st Hin Hst. bind_inv Hst.
    eapply analyze_column_completeness; [|exact Hst].
    rewrite Forall_forall in Hcounts. apply Hcounts. exact Hin. }
  assert (Hlen : (0 < length cstats)%nat).
  { apply map_result_length in Hcs. rewrite Hcs.
    destruct (SheetData.columns sheet); [contradiction|simpl; lia]. }
  unfold quality_score in Hscore.
  assert (Hm : forall (A : Type) (a b : A),
             match map ColumnStats.completeness cstats with [] => a | _ :: _ => b end = b).
  { intros A a b. destruct cstats; [simpl in Hlen; lia|reflexivity]. }
  rewrite Hm in Hscore. clear Hm. rewrite length_map in Hscore.
  bind_named Hscore avg Havg. bind_named Hscore q Hq. bind_named Hscore d Hd.
  injection Hscore as <-.
  exists avg, q, d. cbv zeta.
  split; [exact Havg|]. split; [exact Hq|]. split; [exact Hd|].
  split; [reflexivity|].
  split; [|split; [apply py_min_not_above|apply py_max_not_below]].
  (* the difference is a float and not a NaN *)
  assert (Havg_s : signed_as false avg).
  { eapply fdiv_int_signed; [|
      |exact Havg]; [apply fsum_signed; exact Hsigned|lia]. }
  apply int_truediv_signed in Hq; [|exact Hdup|lia].
  destruct Hq as [Hq_s _].
  assert (Hpen_s : signed_as false (fmul q (Z2F 100))).
  { change (Z2F 100) with (S754_finite false 7036874417766400 (-46)).
    apply fmul_signed. exact Hq_s. }
  assert (Hfin : num_lt (Int 30) (Float (fmul q (Z2F 100))) = false ->
                 is_infinite (fmul q (Z2F 100)) = false).
  { revert Hpen_s. generalize (fmul q (Z2F 100)). intros x Hx Hlt.
    destruct x as [s|s| |s m e]; try reflexivity.
    simpl in Hx. subst s. vm_compute in Hlt. discriminate Hlt. }
  assert (Hd' : exists f, d = Float f /\ is_nan f = false).
  { revert Hd. unfold py_min.
    destruct (num_lt (Int 30) (Float (fmul q (Z2F 100)))) eqn:Elt.
    - cbn. intros Hd. injection Hd as <-. eexists. split; [reflexivity|].
      apply fsub_not_nan; [eapply signed_not_nan; exact Havg_s|reflexivity|reflexivity].
    - cbn. intros Hd. injection Hd as <-. eexists. split; [reflexivity|].
      apply fsub_not_nan;
        [eapply signed_not_nan; exact Havg_s|eapply signed_not_nan; exact Hpen_s|].
      apply Hfin. reflexivity. }
  destruct Hd' as (f & -> & Hf). apply py_max_commutes. exact Hf.
Qed.

End Quality.

(** ** Degenerate columns and the counts of the importer *)

Section Invariants.
Context {U : Unicode}.

(** Without a coercible value the numeric statistics stay absent, and with
    one the standard deviation is 0.0 and there is no outlier. *)
Lemma numeric_stats_degenerate (stats : ColumnStats.t) (values : list value) :
  (coercible values = Ok [] -> _compute_numeric_stats stats values = Ok stats) /\
  (forall x, coercible values = Ok [x] ->
             exists stats',
               _compute_numeric_stats stats values = Ok stats' /\
               ColumnStats.min_val stats' = Some x /\
               ColumnStats.max_val stats' = Some x /\
               ColumnStats.median_val stats' = Some x /\
               ColumnStats.std_dev stats' = Some (S754_zero false) /\
               ColumnStats.outlier_count stats' = ColumnStats.outlier_count stats).
Proof.
  unfold _compute_numeric_stats. split.
  - intros H. rewrite H. reflexivity.
  - intros x H. rewrite H. eexists. split; [reflexivity|].
    repeat split; reflexivity.
Qed.

(** The counts of the columns that the importer builds are not negative. *)
Lemma scan_counts_nonneg (values : list value) (a : column_scan) :
  0 <= scan_non_empty a -> 0 <= scan_empty a ->
  0 <= scan_non_empty (fold_left scan_value values a)
  /\ 0 <= scan_empty (fold_left scan_value values a).
Proof.
  revert a. induction values as [|v values IH]; intros a H1 H2; simpl; [tauto|].
  apply IH; unfold scan_value; destruct (DataType_eqb _ _); simpl; lia.
Qed.

Lemma import_counts_nonneg (now : str) (wb : workbook) (file_path : str)
      (sheet_names : option (list str)) (has_header : bool)
      (max_rows : option Z) (ir : ImportResult.t) :
  import_file now wb file_path sheet_names has_header max_rows = Ok ir ->
  Forall (fun sheet =>
            Forall (fun c => 0 <= ColumnInfo.non_empty_count c)
                   (SheetData.columns sheet))
         (ImportResult.sheets ir).
Proof.
  unfold import_file.
  apply (for_each_invariant _ (fun r => Forall _ (ImportResult.sheets r)));
    [|constructor].
  intros s name s' Hs Hbody. simpl in Hbody.
  destruct (find_sheet wb name) as [ws|]; [|injection Hbody as <-; exact Hs].
  bind_named Hbody sheet Hsheet. injection Hbody as <-. simpl.
  apply Forall_app. split; [exact Hs|]. constructor; [|constructor].
  unfold _process_sheet in Hsheet. destruct ws as [|first rest].
  - injection Hsheet as <-. constructor.
  - bind_named Hsheet headers Hh. bind_named Hsheet columns Hc.
    injection Hsheet as <-. simpl.
    revert Hc. apply map_result_Forall. intros i c _ Hd.
    unfold detect_column in Hd. do 4 bind_inv Hd. injection Hd as <-. simpl.
    apply scan_counts_nonneg; simpl; lia.
Qed.

End Invariants.

(** * Further properties of the importer and the analyzer *)

(** ** Strings and type names *)

Lemma str_eqb_eq (a b : str) : str_eqb a b = true <-> a = b.
Proof.
  revert b. induction a as [|x a IH]; intros [|y b]; simpl; split; intros H;
    try reflexivity; try discriminate H.
  - apply andb_true_iff in H. destruct H as [H1 H2].
    apply N.eqb_eq in H1. apply IH in H2. subst. reflexivity.
  - injection H as -> ->. rewrite N.eqb_refl. apply IH. reflexivity.
Qed.

Lemma str_eqb_refl (a : str) : str_eqb a a = true.
Proof. apply str_eqb_eq. reflexivity. Qed.

Lemma str_eqb_neq (a b : str) : str_eqb a b = false <-> a <> b.
Proof.
  split.
  - intros H E. apply str_eqb_eq in E. rewrite E in H. discriminate H.
  - intros H. destruct (str_eqb a b) eqn:E; [|reflexivity].
    apply str_eqb_eq in E. contradiction.
Qed.

Lemma str_in_In (s : str) (l : list str) : str_in s l = true <-> In s l.
Proof.
  unfold str_in. rewrite existsb_exists. split.
  - intros (x & Hx & E). apply str_eqb_eq in E. subst. exact Hx.
  - intros H. exists s. split; [exact H|apply str_eqb_refl].
Qed.

(** [DataType(t.value)] is [t], and a name that [DataType] accepts is the
    value of the member it gives. *)
Lemma DataType_of_value_round_trip (t : DataType) :
  DataType_of_value (type_value t) = Ok t.
Proof. destruct t; reflexivity. Qed.

Lemma DataType_of_value_Ok (name : str) (t : DataType) :
  DataType_of_value name = Ok t -> type_value t = name.
Proof.
  unfold DataType_of_value. intros H.
  destruct (find _ all_types) as [t'|] eqn:E; [|discriminate H].
  injection H as <-. apply find_some in E. destruct E as [_ E].
  apply str_eqb_eq in E. exact E.
Qed.

Lemma DataType_of_value_raises (name : str) (e : exn) :
  DataType_of_value name = Raise e -> e = ValueError.
Proof.
  unfold DataType_of_value. destruct (find _ all_types); intros H;
    [discriminate H|injection H as <-; reflexivity].
Qed.

Lemma type_value_inj (a b : DataType) : type_value a = type_value b -> a = b.
Proof.
  intros H. pose proof (DataType_of_value_round_trip a) as Ha.
  rewrite H, DataType_of_value_round_trip in Ha. injection Ha as <-. reflexivity.
Qed.

Lemma DataType_eqb_eq (a b : DataType) : DataType_eqb a b = true <-> a = b.
Proof.
  unfold DataType_eqb. rewrite str_eqb_eq. split; [apply type_value_inj|].
  intros ->. reflexivity.
Qed.

(** ** The classifier: empty cells and booleans *)

Section ClassifierCases.
Context {U : Unicode}.

Lemma first_match_cases (rules : list ((str -> bool) * DataType)) (s : str) :
  first_match rules s = TEXT \/ In (first_match rules s) (map snd rules).
Proof.
  induction rules as [|[p t] rules IH]; simpl; [left; reflexivity|].
  destruct (p s); [right; left; reflexivity|].
  destruct IH as [IH|IH]; [left; exact IH|right; right; exact IH].
Qed.

(** A string that does not strip to nothing has one of the nine types of the
    string rules. *)
Lemma detect_string_cases (s : str) :
  strip s <> [] ->
  In (_detect_cell_type (VStr s))
     [TEXT; BOOLEAN; PERCENTAGE; CURRENCY; EMAIL; URL; PHONE; INTEGER; FLOAT].
Proof.
  intros H. rewrite (detect_first_match s H).
  destruct (first_match_cases string_rules (strip s)) as [E|E].
  - rewrite E. left. reflexivity.
  - right. exact E.
Qed.

(** X1. The classifier gives [EMPTY] for [None] and for the strings that strip to
    nothing, and for nothing else; it never gives [MIXED]. *)
Theorem detect_empty_iff (v : value) :
  (_detect_cell_type v = EMPTY
   <-> v = VNone \/ exists s, v = VStr s /\ strip s = []) /\
  _detect_cell_type v <> MIXED.
Proof.
  destruct v as [|b|n|f|s|d t|d|t];
    try (split; [split; [discriminate|intros [H|(s & H & _)]; discriminate H]
                |discriminate]).
  - split; [|discriminate]. split; [left; reflexivity|reflexivity].
  - destruct (strip s) as [|c r] eqn:E.
    + split; [|unfold _detect_cell_type; rewrite E; discriminate].
      split; [intros _; right; exists s; split; [reflexivity|exact E]|].
      intros _. unfold _detect_cell_type. rewrite E. reflexivity.
    + assert (Hne : strip s <> []) by (rewrite E; discriminate).
      pose proof (detect_string_cases s Hne) as Hin.
      split.
      * split.
        -- intros H. rewrite H in Hin. simpl in Hin.
           repeat (destruct Hin as [Hin|Hin]; [discriminate Hin|]). contradiction.
        -- intros [H|(s' & H & H')]; [discriminate H|].
           injection H as <-. rewrite E in H'. discriminate H'.
      * intros H. rewrite H in Hin. simpl in Hin.
        repeat (destruct Hin as [Hin|Hin]; [discriminate Hin|]). contradiction.
Qed.

(** X2. A string is a Boolean for the classifier exactly when it spells, stripped
    and in lower case, one of the four words; [_is_truthy] then tells "true"
    and "yes" from "false" and "no". *)
Theorem boolean_strings (s : str) :
  _detect_cell_type (VStr s) = BOOLEAN ->
  In (lower (strip s)) [lit "true"; lit "false"; lit "yes"; lit "no"] /\
  (_is_truthy (VStr s) = true
   <-> lower (strip s) = lit "true" \/ lower (strip s) = lit "yes") /\
  (_is_truthy (VStr s) = false
   <-> lower (strip s) = lit "false" \/ lower (strip s) = lit "no").
Proof.
  intros H.
  assert (Hin : In (lower (strip s)) [lit "true"; lit "false"; lit "yes"; lit "no"]).
  { unfold _detect_cell_type in H.
    destruct (strip s) as [|c r] eqn:E; [discriminate H|].
    destruct (str_in (lower (c :: r)) _) eqn:Ein; [apply str_in_In; exact Ein|].
    exfalso.
    repeat match type of H with
           | (if ?c then _ else _) = _ => destruct c; [discriminate H|]
           end.
    discriminate H. }
  split; [exact Hin|].
  unfold _is_truthy.
  assert (Ht : str_in (lower (strip s)) [lit "true"; lit "yes"] = true
               <-> lower (strip s) = lit "true" \/ lower (strip s) = lit "yes").
  { rewrite str_in_In. simpl. intuition congruence. }
  split; [exact Ht|].
  split.
  - intros Hf. simpl in Hin.
    destruct Hin as [E|[E|[E|[E|[]]]]]; try (left; symmetry; exact E);
      try (right; symmetry; exact E); rewrite <- E in Hf; discriminate Hf.
  - intros [E|E]; rewrite E; reflexivity.
Qed.

End ClassifierCases.

(** ** Numeric coercion: what raises *)

Lemma binary_round_aux_opp (m e : Z) (l : location) :
  binary_round_aux prec emax true m e l
  = SFopp (binary_round_aux prec emax false m e l).
Proof.
  unfold binary_round_aux.
  destruct (shr_fexp prec emax m e l) as [mrs' e'].
  destruct (shr_fexp prec emax _ e' loc_Exact) as [mrs'' e''].
  destruct (shr_m mrs''); [reflexivity| |reflexivity].
  destruct (e'' <=? emax - prec); reflexivity.
Qed.

Lemma Z2F_opp (p : positive) : Z2F (Zneg p) = SFopp (Z2F (Zpos p)).
Proof.
  unfold Z2F, binary_normalize, binary_round.
  destruct (shl_align p 0 _) as [mz ez]. apply binary_round_aux_opp.
Qed.

(** The float of an integer of magnitude below 2^53 is that integer. *)
Lemma Z2F_exact_abs (n : Z) :
  Z.abs n < 2 ^ 53 ->
  compare_int_float n (Z2F n) = Some Eq /\ is_infinite (Z2F n) = false.
Proof.
  intros H.
  assert (Hpos : forall p, Zpos p < 2 ^ 53 ->
                           exists m e, Z2F (Zpos p) = S754_finite false m e /\
                                       compare_int_float (Zpos p) (S754_finite false m e)
                                       = Some Eq).
  { intros p Hp. pose proof (Z2F_exact (Zpos p) ltac:(lia)) as HE.
    assert (Hs : signed_as false (Z2F (Zpos p))) by apply binary_round_signed.
    destruct (Z2F (Zpos p)) as [s|s| |s m e]; simpl in Hs; try contradiction; subst s.
    - simpl in HE. discriminate HE.
    - simpl in HE. discriminate HE.
    - exists m, e. split; [reflexivity|exact HE]. }
  destruct n as [|p|p].
  - split; reflexivity.
  - destruct (Hpos p ltac:(lia)) as (m & e & -> & HE). split; [exact HE|reflexivity].
  - destruct (Hpos p ltac:(lia)) as (m & e & Hm & HE).
    rewrite Z2F_opp, Hm. split; [|reflexivity].
    unfold compare_int_float in *. cbn [SFopp negb].
    apply (f_equal (fun o => match o with Some c => c | None => Lt end)) in HE.
    cbv beta iota in HE. f_equal.
    destruct (0 <=? e).
    + apply Z.compare_eq_iff in HE. apply Z.compare_eq_iff.
      rewrite <- !Pos2Z.opp_pos, HE. ring.
    + apply Z.compare_eq_iff in HE. apply Z.compare_eq_iff.
      rewrite <- !Pos2Z.opp_pos, <- HE. ring.
Qed.

Section Coercion.
Context {U : Unicode}.

Lemma float_of_str_raises (s : str) (e : exn) :
  float_of_str s = Raise e -> e = ValueError.
Proof.
  unfold float_of_str. destruct (sign (strip s)) as [neg body].
  destruct (str_in _ _); [discriminate|].
  destruct (str_eqb _ _); [discriminate|].
  destruct (number body) as [[[d nfrac] rest]|];
    [|intros H; injection H as <-; reflexivity].
  destruct (exponent rest); [discriminate|].
  intros H; injection H as <-; reflexivity.
Qed.

Lemma int_of_str_raises (s : str) (e : exn) :
  int_of_str s = Raise e -> e = ValueError.
Proof.
  unfold int_of_str. destruct (sign (strip s)) as [neg body].
  destruct (digitpart 0 body) as [[[v n] [|c r]]|]; intros H;
    try discriminate H; injection H as <-; reflexivity.
Qed.

Lemma to_numeric_overflow (v : value) (e : exn) :
  _to_numeric v = Raise e ->
  e = OverflowError /\ exists n, v = VInt n /\ 2 ^ 53 <= Z.abs n.
Proof.
  destruct v as [|b|n|f|s|d t|d|t]; unfold _to_numeric; intros H;
    try discriminate H.
  - unfold float_of_int in H.
    destruct (Z_lt_le_dec (Z.abs n) (2 ^ 53)) as [Hlt|Hge].
    + exfalso. apply Z2F_exact_abs in Hlt. destruct Hlt as [_ Hfin].
      rewrite Hfin in H. discriminate H.
    + destruct (is_infinite (Z2F n)); [|discriminate H].
      cbn [bind] in H. injection H as <-.
      split; [reflexivity|]. exists n. split; [reflexivity|exact Hge].
  - exfalso. revert H. generalize (strip (rstrip_char 37
      (fold_left (fun cleaned sym => replace sym [] cleaned)
                 [36%N; euro; pound; yen; rupee] (replace 44 [] (strip s))))).
    intros cleaned H.
    destruct (float_of_str cleaned) as [x|e'] eqn:E'; cbn [bind] in H.
    + discriminate H.
    + apply float_of_str_raises in E'. subst e'. discriminate H.
Qed.

(** X3. [_to_numeric] raises only [OverflowError], and only for an integer
    of magnitude 2^53 or more: every other value, a string that is not a
    number among them, gives a float or [None]. *)
Theorem to_numeric_raises (v : value) (e : exn) :
  _to_numeric v = Raise e ->
  e = OverflowError /\ exists n, v = VInt n /\ 2 ^ 53 <= Z.abs n.
Proof. apply to_numeric_overflow. Qed.

(** X4. [_to_numeric] converts an integer of magnitude below 2^53 to the
    float that is equal to it. *)
Theorem to_numeric_small_int (n : Z) :
  Z.abs n < 2 ^ 53 ->
  _to_numeric (VInt n) = Ok (Some (Z2F n)) /\ compare_int_float n (Z2F n) = Some Eq.
Proof.
  intros H. apply Z2F_exact_abs in H. destruct H as [HE Hfin].
  split; [|exact HE]. unfold _to_numeric, float_of_int. rewrite Hfin. reflexivity.
Qed.

End Coercion.

(** ** The name of the imported file *)

Lemma after_last_snoc (c x : char) (s : str) :
  after_last c (s ++ [x]) = if N.eqb x c then [] else after_last c s ++ [x].
Proof. unfold after_last. rewrite fold_left_app. reflexivity. Qed.

(** [after_last c s] is the end of [s] after its last [c], or all of [s]. *)
Lemma after_last_spec (c : char) (s : str) :
  ~ In c (after_last c s) /\
  ((~ In c s /\ after_last c s = s)
   \/ exists before, s = before ++ c :: after_last c s).
Proof.
  induction s as [|x s IH] using rev_ind.
  - split; [intros []|left; split; [intros []|reflexivity]].
  - rewrite after_last_snoc. destruct IH as [Hnot IH].
    destruct (N.eqb x c) eqn:E.
    + apply N.eqb_eq in E. subst x. split; [intros []|].
      right. exists s. reflexivity.
    + apply N.eqb_neq in E. split.
      * intros H. apply in_app_or in H. destruct H as [H|[H|[]]]; [tauto|congruence].
      * destruct IH as [[Hs ->]|(before & Hb)].
        -- left. split; [|reflexivity]. intros H. apply in_app_or in H.
           destruct H as [H|[H|[]]]; [tauto|congruence].
        -- right. exists before. rewrite Hb at 1. rewrite <- app_assoc. reflexivity.
Qed.

(** ** Dictionaries and sums *)

Lemma sum_Z_from (l : list Z) (a : Z) : fold_left Z.add l a = a + sum_Z l.
Proof.
  unfold sum_Z. revert a. induction l as [|x l IH]; intros a; cbn [fold_left].
  - lia.
  - rewrite (IH (a + x)), (IH (0 + x)). lia.
Qed.

Lemma sum_Z_cons (x : Z) (l : list Z) : sum_Z (x :: l) = x + sum_Z l.
Proof. unfold sum_Z at 1. cbn [fold_left]. rewrite sum_Z_from. lia. Qed.

Lemma sum_Z_app (l1 l2 : list Z) : sum_Z (l1 ++ l2) = sum_Z l1 + sum_Z l2.
Proof.
  induction l1 as [|x l1 IH]; [reflexivity|].
  cbn [app]. rewrite !sum_Z_cons, IH. lia.
Qed.

Lemma str_eqb_sym (a b : str) : str_eqb a b = str_eqb b a.
Proof.
  destruct (str_eqb a b) eqn:E.
  - apply str_eqb_eq in E. subst b. symmetry. apply str_eqb_refl.
  - symmetry. apply str_eqb_neq. apply str_eqb_neq in E. congruence.
Qed.

Lemma dict_get_set {V : Type} (d : dict V) (k k' : str) (v : V) :
  dict_get (dict_set d k v) k' = if str_eqb k k' then Some v else dict_get d k'.
Proof.
  induction d as [|[k0 v0] d IH]; cbn [dict_set dict_get].
  - destruct (str_eqb k k'); reflexivity.
  - destruct (str_eqb k0 k) eqn:E; cbn [dict_get].
    + apply str_eqb_eq in E. subst k0. destruct (str_eqb k k'); reflexivity.
    + destruct (str_eqb k0 k') eqn:E'; [|exact IH].
      apply str_eqb_eq in E'. subst k0. rewrite str_eqb_sym, E. reflexivity.
Qed.

Lemma dict_count_incr (d : dict Z) (k k' : str) :
  dict_count (dict_incr d k) k' = dict_count d k' + (if str_eqb k k' then 1 else 0).
Proof.
  unfold dict_count, dict_incr. rewrite dict_get_set.
  destruct (str_eqb k k') eqn:E; [|lia].
  apply str_eqb_eq in E. subst k'. reflexivity.
Qed.

Lemma dict_set_keys {V : Type} (d : dict V) (k : str) (v : V) :
  map fst (dict_set d k v)
  = if str_in k (map fst d) then map fst d else map fst d ++ [k].
Proof.
  induction d as [|[k0 v0] d IH]; cbn [dict_set map fst]; [reflexivity|].
  unfold str_in in *. cbn [existsb].
  destruct (str_eqb k0 k) eqn:E.
  - rewrite <- (proj1 (str_eqb_eq _ _) E), str_eqb_refl. reflexivity.
  - rewrite (str_eqb_sym k k0), E. cbn [orb map fst]. rewrite IH.
    destruct (existsb (str_eqb k) (map fst d)); reflexivity.
Qed.

Lemma dict_set_sum (d : dict Z) (k : str) (v : Z) :
  sum_Z (map snd (dict_set d k v)) = sum_Z (map snd d) - dict_count d k + v.
Proof.
  unfold dict_count.
  induction d as [|[k0 v0] d IH]; cbn [dict_set dict_get map snd].
  - rewrite sum_Z_cons. unfold sum_Z. simpl. lia.
  - destruct (str_eqb k0 k); cbn [map snd]; rewrite !sum_Z_cons; [lia|].
    rewrite IH. lia.
Qed.

Lemma dict_incr_sum (d : dict Z) (k : str) :
  sum_Z (map snd (dict_incr d k)) = sum_Z (map snd d) + 1.
Proof. unfold dict_incr. rewrite dict_set_sum. unfold dict_count. lia. Qed.

Lemma dict_get_In {V : Type} (d : dict V) (k : str) (v : V) :
  dict_get d k = Some v -> In (k, v) d.
Proof.
  induction d as [|[k0 v0] d IH]; cbn [dict_get]; [discriminate|].
  destruct (str_eqb k0 k) eqn:E.
  - intros H. injection H as <-. apply str_eqb_eq in E. subst. left. reflexivity.
  - intros H. right. apply IH. exact H.
Qed.

Lemma dict_get_NoDup {V : Type} (d : dict V) (k : str) (v : V) :
  NoDup (map fst d) -> In (k, v) d -> dict_get d k = Some v.
Proof.
  induction d as [|[k0 v0] d IH]; cbn [dict_get map fst]; intros Hnd Hin; [destruct Hin|].
  inversion Hnd as [|? ? Hk0 Hnd']; subst.
  destruct Hin as [Hin|Hin].
  - injection Hin as -> ->. rewrite str_eqb_refl. reflexivity.
  - destruct (str_eqb k0 k) eqn:E; [|apply IH; assumption].
    apply str_eqb_eq in E. subst k0. exfalso. apply Hk0.
    apply (in_map fst) in Hin. exact Hin.
Qed.

Lemma dict_set_NoDup {V : Type} (d : dict V) (k : str) (v : V) :
  NoDup (map fst d) -> NoDup (map fst (dict_set d k v)).
Proof.
  intros H. rewrite dict_set_keys. destruct (str_in k (map fst d)) eqn:E; [exact H|].
  apply NoDup_rev in H. rewrite <- (rev_involutive (map fst d ++ [k])).
  apply NoDup_rev. rewrite rev_app_distr. cbn [rev app]. constructor; [|exact H].
  intros Hin. apply in_rev in Hin. apply str_in_In in Hin. congruence.
Qed.

Lemma dict_set_In {V : Type} (d : dict V) (k k' : str) (v v' : V) :
  In (k', v') (dict_set d k v) -> (k' = k /\ v' = v) \/ In (k', v') d.
Proof.
  induction d as [|[k0 v0] d IH]; cbn [dict_set].
  - intros [H|[]]. injection H as <- <-. left. split; reflexivity.
  - destruct (str_eqb k0 k) eqn:E.
    + apply str_eqb_eq in E. subst k0. intros [H|H].
      * injection H as <- <-. left. split; reflexivity.
      * right. right. exact H.
    + intros [H|H]; [right; left; exact H|].
      destruct (IH H) as [H'|H']; [left; exact H'|right; right; exact H'].
Qed.

(** ** The loop over the cells of a column *)

Lemma type_key_eqb (t t' : DataType) :
  str_eqb (type_value t) (type_value t') = DataType_eqb t t'.
Proof. destruct t, t'; vm_compute; reflexivity. Qed.

Lemma set_add_length (s : list value) (v : value) :
  (length s <= length (set_add s v) <= S (length s) /\ 1 <= length (set_add s v))%nat.
Proof.
  unfold set_add. destruct (existsb (value_eqb v) s) eqn:E.
  - split; [lia|]. destruct s; [discriminate E|cbn [length]; lia].
  - rewrite length_app. cbn [length]. lia.
Qed.

Section ColumnLoop.
Context {U : Unicode}.

Lemma scan_value_counts (a : column_scan) (v : value) :
  scan_type_counts (scan_value a v)
  = dict_incr (scan_type_counts a) (type_value (_detect_cell_type v)).
Proof. unfold scan_value. destruct (DataType_eqb _ EMPTY); reflexivity. Qed.

Lemma cells_partition_length (values : list value) :
  (length (cells_of_type EMPTY values) + length (non_empty_cells values)
   = length values)%nat.
Proof.
  unfold cells_of_type, non_empty_cells.
  induction values as [|v values IH]; [reflexivity|].
  cbn [filter]. destruct (DataType_eqb (_detect_cell_type v) EMPTY);
    cbn [negb length]; lia.
Qed.

Lemma scan_fold (values : list value) (a : column_scan) :
  scan_empty (fold_left scan_value values a)
  = scan_empty a + Z.of_nat (length (cells_of_type EMPTY values)) /\
  scan_non_empty (fold_left scan_value values a)
  = scan_non_empty a + Z.of_nat (length (non_empty_cells values)) /\
  scan_samples (fold_left scan_value values a)
  = scan_samples a ++ firstn (5 - length (scan_samples a)) (non_empty_cells values) /\
  (length (scan_unique a) <= length (scan_unique (fold_left scan_value values a))
   <= length (scan_unique a) + length (non_empty_cells values))%nat /\
  (non_empty_cells values <> [] ->
   (1 <= length (scan_unique (fold_left scan_value values a)))%nat).
Proof.
  revert a. induction values as [|v values IH]; intros a; cbn [fold_left].
  - unfold cells_of_type, non_empty_cells. cbn [filter length firstn].
    rewrite firstn_nil, app_nil_r. repeat split; try lia. intros H. congruence.
  - destruct (IH (scan_value a v)) as (He & Hn & Hs & Hu & Hu1).
    unfold cells_of_type, non_empty_cells in *. cbn [filter].
    unfold scan_value in *.
    destruct (DataType_eqb (_detect_cell_type v) EMPTY) eqn:E;
      cbn [negb length scan_empty scan_non_empty scan_samples scan_unique] in *.
    + repeat split; try lia; try assumption.
    + split; [lia|]. split; [lia|]. split.
      * rewrite Hs. destruct (length (scan_samples a) <? 5)%nat eqn:L.
        -- apply Nat.ltb_lt in L. rewrite length_app. cbn [length].
           replace (5 - length (scan_samples a))%nat
             with (S (5 - (length (scan_samples a) + 1)))%nat by lia.
           cbn [firstn]. rewrite <- app_assoc. reflexivity.
        -- apply Nat.ltb_ge in L.
           replace (5 - length (scan_samples a))%nat with 0%nat by lia.
           reflexivity.
      * pose proof (set_add_length (scan_unique a) v) as Hadd.
        split; [lia|]. intros _.
        destruct Hu as [Hu _]. lia.
Qed.

Lemma scan_fold_counts (values : list value) (a : column_scan) :
  (forall t, dict_count (scan_type_counts (fold_left scan_value values a)) (type_value t)
             = dict_count (scan_type_counts a) (type_value t)
               + Z.of_nat (length (cells_of_type t values))) /\
  sum_Z (map snd (scan_type_counts (fold_left scan_value values a)))
  = sum_Z (map snd (scan_type_counts a)) + Z.of_nat (length values) /\
  (NoDup (map fst (scan_type_counts a)) ->
   NoDup (map fst (scan_type_counts (fold_left scan_value values a)))) /\
  (forall k, In k (map fst (scan_type_counts (fold_left scan_value values a))) ->
             In k (map fst (scan_type_counts a)) \/
             exists v, In v values /\ k = type_value (_detect_cell_type v)).
Proof.
  revert a. induction values as [|v values IH]; intros a; cbn [fold_left].
  - unfold cells_of_type. cbn [filter length].
    repeat split; try lia; try tauto.
  - destruct (IH (scan_value a v)) as (Hc & Hsum & Hnd & Hk).
    rewrite scan_value_counts in *.
    split; [|split; [|split]].
    + intros t. rewrite Hc, dict_count_incr, type_key_eqb.
      unfold cells_of_type. cbn [filter].
      destruct (DataType_eqb (_detect_cell_type v) t); cbn [length]; lia.
    + rewrite Hsum, dict_incr_sum. cbn [length]. lia.
    + intros H. apply Hnd. apply dict_set_NoDup. exact H.
    + intros k Hin. destruct (Hk k Hin) as [H|(v' & Hv' & ->)].
      * unfold dict_incr in H. rewrite dict_set_keys in H.
        destruct (str_in _ _); [left; exact H|].
        apply in_app_or in H. destruct H as [H|[<-|[]]]; [left; exact H|].
        right. exists v. split; [left; reflexivity|reflexivity].
      * right. exists v'. split; [right; exact Hv'|reflexivity].
Qed.

End ColumnLoop.

(** ** [_resolve_column_type]: where the resolved type comes from *)

Lemma dominant_present (total : Z) (items : list (str * Z)) (t : DataType) :
  dominant total items = Ok t -> t = MIXED \/ In (type_value t) (map fst items).
Proof.
  induction items as [|[k n] items IH]; cbn [dominant map fst]; intros H.
  - injection H as <-. left. reflexivity.
  - bind_named H q Hq. destruct (fle f0_8 q).
    + apply DataType_of_value_Ok in H. right. left. symmetry. exact H.
    + destruct (IH H) as [E|E]; [left; exact E|right; right; exact E].
Qed.

Lemma without_empty_keys (type_counts : dict Z) (k : str) :
  In k (map fst (without_empty type_counts))
  <-> In k (map fst type_counts) /\ k <> type_value EMPTY.
Proof.
  unfold without_empty. rewrite !in_map_iff. split.
  - intros ([k' n] & <- & H). apply filter_In in H. destruct H as [H Hk].
    cbn [fst] in *. split; [exists (k', n); split; [reflexivity|exact H]|].
    apply negb_true_iff, str_eqb_neq in Hk. exact Hk.
  - intros (([k' n] & <- & H) & Hk). exists (k', n). split; [reflexivity|].
    apply filter_In. split; [exact H|]. cbn [fst] in *.
    apply negb_true_iff, str_eqb_neq. exact Hk.
Qed.

Lemma resolve_column_type_cases (type_counts : dict Z) (t : DataType) :
  _resolve_column_type type_counts = Ok t ->
  (t = EMPTY /\ without_empty type_counts = []) \/
  (without_empty type_counts <> [] /\
   (t = MIXED \/ In (type_value t) (map fst (without_empty type_counts)))).
Proof.
  intros H.
  unfold _resolve_column_type in H. fold (without_empty type_counts) in H.
  destruct (without_empty type_counts) as [|[k n] rest] eqn:E.
  - injection H as <-. left. split; reflexivity.
  - right. split; [discriminate|]. rewrite <- E in H.
    assert (H' : match rest with
                 | [] => DataType_of_value k
                 | _ :: _ =>
                   if same_set (map fst (without_empty type_counts))
                               [type_value INTEGER; type_value FLOAT]
                   then Ok FLOAT
                   else if same_set (map fst (without_empty type_counts))
                                    [type_value DATE; type_value DATETIME]
                   then Ok DATETIME
                   else dominant (sum_Z (map snd (without_empty type_counts)))
                          (sorted (fun x y => - snd x <? - snd y)
                                  (without_empty type_counts))
                 end = Ok t).
    { rewrite E in H |- *. destruct rest; exact H. }
    clear H. destruct rest as [|p rest].
    + apply DataType_of_value_Ok in H'. right. left. symmetry. exact H'.
    + rewrite <- E.
      destruct (same_set _ [type_value INTEGER; type_value FLOAT]) eqn:S1.
      { injection H' as <-. right. unfold same_set in S1.
        apply andb_true_iff in S1. destruct S1 as [_ S1].
        cbn [forallb] in S1. apply andb_true_iff in S1. destruct S1 as [_ S1].
        apply andb_true_iff in S1. destruct S1 as [S1 _].
        apply str_in_In in S1. exact S1. }
      destruct (same_set _ [type_value DATE; type_value DATETIME]) eqn:S2.
      { injection H' as <-. right. unfold same_set in S2.
        apply andb_true_iff in S2. destruct S2 as [_ S2].
        cbn [forallb] in S2. apply andb_true_iff in S2. destruct S2 as [_ S2].
        apply andb_true_iff in S2. destruct S2 as [S2 _].
        apply str_in_In in S2. exact S2. }
      apply dominant_present in H'. destruct H' as [H'|H']; [left; exact H'|].
      right. apply in_map_iff in H'. destruct H' as (p' & Hp' & Hin).
      apply in_map_iff. exists p'. split; [exact Hp'|].
      eapply Permutation_in; [apply sorted_permutation|exact Hin].
Qed.

(** X5. The resolved type of a column is [EMPTY] exactly when the histogram
    has no key but that of [EMPTY]; any other resolved type is [MIXED] or a
    type whose name is a key of the histogram. *)
Theorem resolved_type_present (type_counts : dict Z) (t : DataType) :
  _resolve_column_type type_counts = Ok t ->
  (t = EMPTY <-> without_empty type_counts = []) /\
  (t = EMPTY \/ t = MIXED \/ In (type_value t) (map fst type_counts)).
Proof.
  intros H. destruct (resolve_column_type_cases _ _ H) as [[-> K]|[Kne [->|K]]].
  - split; [tauto|left; reflexivity].
  - split; [|right; left; reflexivity]. split; [discriminate|tauto].
  - apply without_empty_keys in K. destruct K as [K1 K2]. split.
    + split; [intros ->; congruence|tauto].
    + right. right. exact K1.
Qed.

(** ** What the importer stores for a sheet and for a column *)

Lemma filter_partition_length {A : Type} (f : A -> bool) (l : list A) :
  (length (filter f l) + length (filter (fun x => negb (f x)) l) = length l)%nat.
Proof.
  induction l as [|x l IH]; [reflexivity|].
  cbn [filter]. destruct (f x); cbn [negb length]; lia.
Qed.

Lemma nth_error_seq_0 (n i x : nat) : nth_error (seq 0 n) i = Some x -> x = i /\ (i < n)%nat.
Proof.
  intros H. assert (Hi : (i < n)%nat).
  { rewrite <- (length_seq n 0). apply nth_error_Some. congruence. }
  split; [|exact Hi].
  apply (nth_error_nth _ _ 0%nat) in H. rewrite seq_nth in H by exact Hi. lia.
Qed.

Lemma map_result_nth_inv {A B : Type} (f : A -> result B) (l : list A) (ys : list B)
      (i : nat) (y : B) :
  map_result f l = Ok ys -> nth_error ys i = Some y ->
  exists x, nth_error l i = Some x /\ f x = Ok y.
Proof.
  intros H Hy. pose proof (map_result_length f l ys H) as L.
  destruct (nth_error l i) as [x|] eqn:Hx.
  - exists x. split; [reflexivity|].
    destruct (map_result_nth f l ys i x H Hx) as (y' & Hf & Hy').
    congruence.
  - apply nth_error_None in Hx.
    assert (nth_error ys i <> None) by congruence.
    apply nth_error_Some in H0. lia.
Qed.

Lemma column_cells_index (rows : list (list value)) (i : nat) (col_values : list value) :
  map_result (fun row => py_index row (Z.of_nat i)) rows = Ok col_values ->
  col_values = column_cells rows i.
Proof.
  revert col_values. induction rows as [|row rows IH]; intros cv H; cbn [map_result] in H.
  - injection H as <-. reflexivity.
  - bind_named H x Hx. bind_named H ys Hys. injection H as <-.
    unfold column_cells. cbn [map]. f_equal.
    + apply py_index_Ok in Hx; [|lia]. rewrite Nat2Z.id in Hx.
      symmetry. apply nth_error_nth. exact Hx.
    + apply IH. exact Hys.
Qed.

Section ImporterInvariants.
Context {U : Unicode}.

Lemma process_sheet_columns (ws : worksheet) (name : str) (has_header : bool)
      (max_rows : option Z) (sheet : SheetData.t) :
  _process_sheet ws name has_header max_rows = Ok sheet ->
  SheetData.row_count sheet = Z.of_nat (length (SheetData.rows sheet)) /\
  SheetData.col_count sheet = Z.of_nat (length (SheetData.columns sheet)) /\
  length (SheetData.headers sheet) = length (SheetData.columns sheet) /\
  (forall i h, nth_error (SheetData.headers sheet) i = Some h ->
               header_label (if has_header then hd_error ws else None) i = Ok h) /\
  (forall i c, nth_error (SheetData.columns sheet) i = Some c ->
               detect_column (SheetData.headers sheet) (SheetData.rows sheet) i = Ok c).
Proof.
  unfold _process_sheet. destruct ws as [|first rest].
  - intros H. injection H as <-. cbn.
    repeat split; intros [|i] x Hx; discriminate Hx.
  - set (ws := first :: rest). set (nc := list_max (map (@length value) ws)).
    intros H. bind_named H headers Hh. bind_named H columns Hc. injection H as <-.
    cbn [SheetData.row_count SheetData.col_count SheetData.rows SheetData.columns
         SheetData.headers].
    pose proof (map_result_length _ _ _ Hh) as Lh.
    pose proof (map_result_length _ _ _ Hc) as Lc.
    rewrite length_seq in Lh, Lc.
    split; [rewrite length_map; reflexivity|].
    split; [rewrite Lc; reflexivity|].
    split; [congruence|]. split.
    + intros i h Hi.
      destruct (map_result_nth_inv _ _ _ _ _ Hh Hi) as (x & Hx & Hf).
      apply nth_error_seq_0 in Hx. destruct Hx as [-> _].
      unfold ws. cbn [hd_error]. exact Hf.
    + intros i c Hi.
      destruct (map_result_nth_inv _ _ _ _ _ Hc Hi) as (x & Hx & Hf).
      apply nth_error_seq_0 in Hx. destruct Hx as [-> _]. exact Hf.
Qed.

Lemma import_loop (wb : workbook) (has_header : bool) (max_rows : option Z)
      (names : list str) (acc r : ImportResult.t) :
  for_each
    (fun (result0 : ImportResult.t) (sheet_name : str) =>
       match find_sheet wb sheet_name with
       | Some ws =>
           sheet_data <- _process_sheet ws sheet_name has_header max_rows ;;
           Ok {| ImportResult.file_path := ImportResult.file_path result0;
                 ImportResult.file_name := ImportResult.file_name result0;
                 ImportResult.sheets := ImportResult.sheets result0 ++ [sheet_data];
                 ImportResult.import_time := ImportResult.import_time result0;
                 ImportResult.total_rows :=
                   ImportResult.total_rows result0 + SheetData.row_count sheet_data;
                 ImportResult.total_columns :=
                   ImportResult.total_columns result0 + SheetData.col_count sheet_data |}
       | None => Ok result0
       end) names acc = Ok r ->
  ImportResult.file_path r = ImportResult.file_path acc /\
  ImportResult.file_name r = ImportResult.file_name acc /\
  ImportResult.import_time r = ImportResult.import_time acc /\
  exists new,
    ImportResult.sheets r = ImportResult.sheets acc ++ new /\
    Forall2 (fun n sheet => exists ws, find_sheet wb n = Some ws /\
                                       _process_sheet ws n has_header max_rows = Ok sheet)
            (filter (fun n => str_in n (map fst wb)) names) new /\
    ImportResult.total_rows r
    = ImportResult.total_rows acc + sum_Z (map SheetData.row_count new) /\
    ImportResult.total_columns r
    = ImportResult.total_columns acc + sum_Z (map SheetData.col_count new).
Proof.
  assert (Hfind : forall n, str_in n (map fst wb) = match find_sheet wb n with
                                                     | Some _ => true | None => false end).
  { intros n. unfold str_in. induction wb as [|[n' ws'] wb' IH]; [reflexivity|].
    cbn [map fst existsb find_sheet]. rewrite (str_eqb_sym n n').
    destruct (str_eqb n' n); [reflexivity|exact IH]. }
  revert acc. induction names as [|n names IH]; intros acc H; cbn [for_each] in H.
  - injection H as <-. repeat split. exists []. rewrite app_nil_r.
    repeat split; try constructor; unfold sum_Z; cbn; lia.
  - bind_named H acc' Hacc. cbn [filter]. rewrite Hfind.
    destruct (find_sheet wb n) as [ws|] eqn:F.
    + bind_named Hacc sheet Hsheet. injection Hacc as <-.
      destruct (IH _ H) as (H1 & H2 & H3 & new & H4 & H5 & H6 & H7).
      cbn [ImportResult.file_path ImportResult.file_name ImportResult.import_time
           ImportResult.sheets ImportResult.total_rows ImportResult.total_columns] in *.
      split; [exact H1|]. split; [exact H2|]. split; [exact H3|].
      exists (sheet :: new). split; [rewrite H4, <- app_assoc; reflexivity|].
      split; [constructor; [exists ws; split; [exact F|exact Hsheet]|exact H5]|].
      cbn [map]. rewrite !sum_Z_cons. lia.
    + injection Hacc as <-. apply IH. exact H.
Qed.

Lemma import_sheets_processed (now : str) (wb : workbook) (file_path : str)
      (sheet_names : option (list str)) (has_header : bool) (max_rows : option Z)
      (ir : ImportResult.t) (sheet : SheetData.t) :
  import_file now wb file_path sheet_names has_header max_rows = Ok ir ->
  In sheet (ImportResult.sheets ir) ->
  exists ws, find_sheet wb (SheetData.name sheet) = Some ws /\
             _process_sheet ws (SheetData.name sheet) has_header max_rows = Ok sheet.
Proof.
  unfold import_file. intros H Hin. apply import_loop in H.
  destruct H as (_ & _ & _ & new & Hs & HF & _).
  cbn [ImportResult.init ImportResult.sheets app] in Hs. rewrite Hs in Hin.
  clear Hs. induction HF as [|n s l l' (ws & F & P) HF IH]; [destruct Hin|].
  destruct Hin as [<-|Hin]; [|apply IH; exact Hin].
  destruct (process_sheet_rows _ _ _ _ _ P) as [-> _].
  exists ws. split; [exact F|exact P].
Qed.

End ImporterInvariants.

Section ImportedData.
Context {U : Unicode}.

Lemma detect_column_fields (headers : list str) (rows : list (list value)) (i : nat)
      (c : ColumnInfo.t) :
  detect_column headers rows i = Ok c ->
  ColumnInfo.index c = Z.of_nat i /\
  get_column_letter (Z.of_nat i + 1) = Ok (ColumnInfo.letter c) /\
  nth_error headers i = Some (ColumnInfo.header c) /\
  ColumnInfo.total_count c = Z.of_nat (length rows) /\
  _resolve_column_type (scan_type_counts (fold_left scan_value (column_cells rows i) scan_init))
  = Ok (ColumnInfo.detected_type c) /\
  ColumnInfo.non_empty_count c
  = scan_non_empty (fold_left scan_value (column_cells rows i) scan_init) /\
  ColumnInfo.empty_count c
  = scan_empty (fold_left scan_value (column_cells rows i) scan_init) /\
  ColumnInfo.sample_values c
  = scan_samples (fold_left scan_value (column_cells rows i) scan_init) /\
  ColumnInfo.unique_count c
  = Z.of_nat (length (scan_unique (fold_left scan_value (column_cells rows i) scan_init))) /\
  ColumnInfo.type_counts c
  = scan_type_counts (fold_left scan_value (column_cells rows i) scan_init).
Proof.
  unfold detect_column. intros H.
  bind_named H letter Hl. bind_named H header Hh. bind_named H col_values Hv.
  bind_named H detected Hd. injection H as <-.
  apply column_cells_index in Hv. subst col_values.
  apply py_index_Ok in Hh; [|lia]. rewrite Nat2Z.id in Hh.
  cbn [ColumnInfo.index ColumnInfo.letter ColumnInfo.header ColumnInfo.total_count
       ColumnInfo.detected_type ColumnInfo.non_empty_count ColumnInfo.empty_count
       ColumnInfo.sample_values ColumnInfo.unique_count ColumnInfo.type_counts].
  split; [reflexivity|]. split; [exact Hl|]. split; [exact Hh|]. split; [reflexivity|].
  split; [exact Hd|]. repeat split.
Qed.

(** X6. The sheets of an import result are the requested sheets that the
    workbook has, in the order of the request (all sheets of the workbook if
    the request is absent or empty); requested names that the workbook lacks
    are skipped.  [total_rows] and [total_columns] are the sums of the
    [row_count]s and [col_count]s of these sheets, and the result carries the
    path and the time of the import. *)
Theorem import_selects_sheets (now : str) (wb : workbook) (file_path : str)
        (sheet_names : option (list str)) (has_header : bool) (max_rows : option Z)
        (ir : ImportResult.t) :
  import_file now wb file_path sheet_names has_header max_rows = Ok ir ->
  map SheetData.name (ImportResult.sheets ir)
  = filter (fun n => str_in n (map fst wb))
           (match sheet_names with
            | Some ((_ :: _) as l) => l
            | _ => map fst wb
            end) /\
  ImportResult.total_rows ir = sum_Z (map SheetData.row_count (ImportResult.sheets ir)) /\
  ImportResult.total_columns ir = sum_Z (map SheetData.col_count (ImportResult.sheets ir)) /\
  ImportResult.file_path ir = file_path /\
  ImportResult.import_time ir = now.
Proof.
  unfold import_file. intros H. apply import_loop in H.
  destruct H as (H1 & _ & H3 & new & Hs & HF & Hr & Hc).
  cbn [ImportResult.init ImportResult.sheets ImportResult.file_path
       ImportResult.import_time ImportResult.total_rows ImportResult.total_columns app] in *.
  rewrite Hs. split; [|split; [lia|split; [lia|split; assumption]]].
  clear - HF. induction HF as [|n s l l' (ws & F & P) HF IH]; [reflexivity|].
  cbn [map]. rewrite IH. destruct (process_sheet_rows _ _ _ _ _ P) as [-> _].
  reflexivity.
Qed.

(** X7. [file_name] is the part of the path after its last separator: it holds
    neither [/] nor [\], and the path is the file name itself or ends with a
    separator followed by the file name. *)
Theorem import_file_name (now : str) (wb : workbook) (file_path : str)
        (sheet_names : option (list str)) (has_header : bool) (max_rows : option Z)
        (ir : ImportResult.t) :
  import_file now wb file_path sheet_names has_header max_rows = Ok ir ->
  ~ In 47%N (ImportResult.file_name ir) /\
  ~ In 92%N (ImportResult.file_name ir) /\
  (file_path = ImportResult.file_name ir \/
   exists dir sep, (sep = 47%N \/ sep = 92%N) /\
                   file_path = dir ++ sep :: ImportResult.file_name ir).
Proof.
  unfold import_file. intros H. apply import_loop in H.
  destruct H as (_ & H2 & _). rewrite H2. cbn [ImportResult.init ImportResult.file_name].
  destruct (after_last_spec 47 file_path) as [N1 S1].
  destruct (after_last_spec 92 (after_last 47 file_path)) as [N2 S2].
  split; [|split; [exact N2|]].
  - intros Hin. apply N1.
    destruct S2 as [[_ E]|(before & E)]; [rewrite <- E; exact Hin|].
    rewrite E. apply in_or_app. right. right. exact Hin.
  - destruct S1 as [[_ E1]|(b1 & E1)]; destruct S2 as [[_ E2]|(b2 & E2)].
    + left. rewrite E2. symmetry. exact E1.
    + right. exists b2, 92%N. split; [right; reflexivity|].
      transitivity (after_last 47 file_path); [symmetry; exact E1|exact E2].
    + right. exists b1, 47%N. split; [left; reflexivity|].
      rewrite E2. exact E1.
    + right. exists (b1 ++ 47%N :: b2), 92%N. split; [right; reflexivity|].
      rewrite <- app_assoc. cbn [app].
      transitivity (b1 ++ 47%N :: after_last 47 file_path); [exact E1|].
      f_equal. f_equal. exact E2.
Qed.

(** X8. Shape of an imported sheet: it has [col_count] columns and as many
    headers, and [row_count] rows; the column at position [i] has the index
    [i], the letter of the spreadsheet column [i + 1], the header at position
    [i], and counts [row_count] cells. *)
Theorem import_sheet_shape (now : str) (wb : workbook) (file_path : str)
        (sheet_names : option (list str)) (has_header : bool) (max_rows : option Z)
        (ir : ImportResult.t) (sheet : SheetData.t) :
  import_file now wb file_path sheet_names has_header max_rows = Ok ir ->
  In sheet (ImportResult.sheets ir) ->
  SheetData.row_count sheet = Z.of_nat (length (SheetData.rows sheet)) /\
  SheetData.col_count sheet = Z.of_nat (length (SheetData.columns sheet)) /\
  length (SheetData.headers sheet) = length (SheetData.columns sheet) /\
  forall i c, nth_error (SheetData.columns sheet) i = Some c ->
    ColumnInfo.index c = Z.of_nat i /\
    get_column_letter (Z.of_nat i + 1) = Ok (ColumnInfo.letter c) /\
    nth_error (SheetData.headers sheet) i = Some (ColumnInfo.header c) /\
    ColumnInfo.total_count c = SheetData.row_count sheet.
Proof.
  intros H Hin. destruct (import_sheets_processed _ _ _ _ _ _ _ _ H Hin) as (ws & _ & P).
  destruct (process_sheet_columns _ _ _ _ _ P) as (Hr & Hc & Hh & _ & Hcol).
  split; [exact Hr|]. split; [exact Hc|]. split; [exact Hh|].
  intros i c Hi. apply Hcol, detect_column_fields in Hi.
  destruct Hi as (H1 & H2 & H3 & H4 & _).
  split; [exact H1|]. split; [exact H2|]. split; [exact H3|]. congruence.
Qed.

(** X9. Counts of an imported column over the cells of that column in the
    stored rows: [empty_count] and [non_empty_count] count the cells that the
    classifier calls Empty and the others, they add up to [total_count], the
    samples are the first five non-empty cells, and [unique_count] lies
    between 1 and [non_empty_count] unless the column has no non-empty cell,
    where it is 0. *)
Theorem import_column_counts (now : str) (wb : workbook) (file_path : str)
        (sheet_names : option (list str)) (has_header : bool) (max_rows : option Z)
        (ir : ImportResult.t) (sheet : SheetData.t) (i : nat) (c : ColumnInfo.t) :
  import_file now wb file_path sheet_names has_header max_rows = Ok ir ->
  In sheet (ImportResult.sheets ir) ->
  nth_error (SheetData.columns sheet) i = Some c ->
  ColumnInfo.empty_count c
  = Z.of_nat (length (cells_of_type EMPTY (column_cells (SheetData.rows sheet) i))) /\
  ColumnInfo.non_empty_count c
  = Z.of_nat (length (non_empty_cells (column_cells (SheetData.rows sheet) i))) /\
  ColumnInfo.non_empty_count c + ColumnInfo.empty_count c = ColumnInfo.total_count c /\
  ColumnInfo.sample_values c
  = firstn 5 (non_empty_cells (column_cells (SheetData.rows sheet) i)) /\
  ColumnInfo.unique_count c <= ColumnInfo.non_empty_count c /\
  (if ColumnInfo.non_empty_count c =? 0 then ColumnInfo.unique_count c = 0
   else 1 <= ColumnInfo.unique_count c).
Proof.
  intros H Hin Hi.
  destruct (import_sheets_processed _ _ _ _ _ _ _ _ H Hin) as (ws & _ & P).
  destruct (process_sheet_columns _ _ _ _ _ P) as (_ & _ & _ & _ & Hcol).
  apply Hcol, detect_column_fields in Hi.
  destruct Hi as (_ & _ & _ & Ht & _ & Hn & He & Hs & Hu & _).
  destruct (scan_fold (column_cells (SheetData.rows sheet) i) scan_init)
    as (Fe & Fn & Fs & Fu & Fu1).
  cbn [scan_init scan_empty scan_non_empty scan_samples scan_unique length app] in *.
  rewrite Hn, He, Hs, Hu, Ht, Fe, Fn, Fs.
  assert (Hp : (length (cells_of_type EMPTY (column_cells (SheetData.rows sheet) i))
                + length (non_empty_cells (column_cells (SheetData.rows sheet) i))
                = length (SheetData.rows sheet))%nat).
  { rewrite cells_partition_length. apply length_map. }
  split; [lia|]. split; [lia|]. split; [lia|]. split; [reflexivity|].
  split; [lia|].
  destruct (non_empty_cells (column_cells (SheetData.rows sheet) i)) as [|v l] eqn:E.
  - cbn [length] in *. change (0 + Z.of_nat 0 =? 0) with true. cbv iota. lia.
  - assert (N : (0 + Z.of_nat (length (v :: l)) =? 0) = false).
    { apply Z.eqb_neq. cbn [length]. lia. }
    rewrite N. assert (Hne : v :: l <> []) by discriminate. apply Fu1 in Hne. lia.
Qed.

Lemma scan_histogram (values : list value) :
  (forall k n, In (k, n) (scan_type_counts (fold_left scan_value values scan_init)) <->
     exists t, k = type_value t /\ 1 <= n /\
               n = Z.of_nat (length (cells_of_type t values))) /\
  NoDup (map fst (scan_type_counts (fold_left scan_value values scan_init))) /\
  sum_Z (map snd (scan_type_counts (fold_left scan_value values scan_init)))
  = Z.of_nat (length values).
Proof.
  destruct (scan_fold_counts values scan_init) as (Fc & Fsum & Fnd & Fk).
  cbn [scan_init scan_type_counts map] in *.
  specialize (Fnd (NoDup_nil _)).
  split; [|split; [exact Fnd|]].
  - intros k n. split.
    + intros Hkn. pose proof (dict_get_NoDup _ _ _ Fnd Hkn) as G.
      destruct (Fk k) as [[]|(v & Hv & ->)].
      { apply in_map_iff. exists (k, n). split; [reflexivity|exact Hkn]. }
      exists (_detect_cell_type v). split; [reflexivity|].
      specialize (Fc (_detect_cell_type v)). unfold dict_count in Fc.
      rewrite G in Fc. cbn [dict_get] in Fc.
      assert (Hv' : In v (cells_of_type (_detect_cell_type v) values)).
      { apply filter_In. split; [exact Hv|]. apply DataType_eqb_eq. reflexivity. }
      destruct (cells_of_type _ _); [destruct Hv'|]. cbn [length] in *. lia.
    + intros (t & -> & Hn & E). apply dict_get_In.
      specialize (Fc t). unfold dict_count in Fc. cbn [dict_get] in Fc.
      destruct (dict_get _ (type_value t)) as [m|]; [|lia].
      f_equal. lia.
  - rewrite Fsum. unfold sum_Z. cbn [fold_left]. lia.
Qed.

(** X10. The histogram of an imported column has exactly one entry for each
    type that the classifier gives to a cell of the column, with the number of
    these cells; its keys are distinct and its values add up to
    [total_count]. *)
Theorem import_type_counts (now : str) (wb : workbook) (file_path : str)
        (sheet_names : option (list str)) (has_header : bool) (max_rows : option Z)
        (ir : ImportResult.t) (sheet : SheetData.t) (i : nat) (c : ColumnInfo.t) :
  import_file now wb file_path sheet_names has_header max_rows = Ok ir ->
  In sheet (ImportResult.sheets ir) ->
  nth_error (SheetData.columns sheet) i = Some c ->
  (forall k n, In (k, n) (ColumnInfo.type_counts c) <->
     exists t, k = type_value t /\ 1 <= n /\
               n = Z.of_nat (length (cells_of_type t (column_cells (SheetData.rows sheet) i)))) /\
  NoDup (map fst (ColumnInfo.type_counts c)) /\
  sum_Z (map snd (ColumnInfo.type_counts c)) = ColumnInfo.total_count c.
Proof.
  intros H Hin Hi.
  destruct (import_sheets_processed _ _ _ _ _ _ _ _ H Hin) as (ws & _ & P).
  destruct (process_sheet_columns _ _ _ _ _ P) as (_ & _ & _ & _ & Hcol).
  apply Hcol, detect_column_fields in Hi.
  destruct Hi as (_ & _ & _ & Ht & _ & _ & _ & _ & _ & Hc).
  destruct (scan_histogram (column_cells (SheetData.rows sheet) i)) as (F1 & F2 & F3).
  rewrite Hc, Ht. split; [exact F1|]. split; [exact F2|].
  rewrite F3. unfold column_cells. rewrite length_map. reflexivity.
Qed.

(** X11. The detected type of an imported column is [EMPTY] exactly when the
    column has no non-empty cell; a detected type other than [EMPTY] and
    [MIXED] is the type of at least one cell of the column. *)
Theorem import_detected_type (now : str) (wb : workbook) (file_path : str)
        (sheet_names : option (list str)) (has_header : bool) (max_rows : option Z)
        (ir : ImportResult.t) (sheet : SheetData.t) (i : nat) (c : ColumnInfo.t) :
  import_file now wb file_path sheet_names has_header max_rows = Ok ir ->
  In sheet (ImportResult.sheets ir) ->
  nth_error (SheetData.columns sheet) i = Some c ->
  (ColumnInfo.detected_type c = EMPTY <-> ColumnInfo.non_empty_count c = 0) /\
  (ColumnInfo.detected_type c = EMPTY \/
   ColumnInfo.detected_type c = MIXED \/
   cells_of_type (ColumnInfo.detected_type c) (column_cells (SheetData.rows sheet) i) <> []).
Proof.
  intros H Hin Hi.
  destruct (import_sheets_processed _ _ _ _ _ _ _ _ H Hin) as (ws & _ & P).
  destruct (process_sheet_columns _ _ _ _ _ P) as (_ & _ & _ & _ & Hcol).
  apply Hcol, detect_column_fields in Hi.
  destruct Hi as (_ & _ & _ & _ & Hd & Hn & _).
  set (cells := column_cells (SheetData.rows sheet) i) in *.
  destruct (scan_histogram cells) as (F1 & _ & _).
  destruct (scan_fold cells scan_init) as (_ & Fn & _).
  rewrite Hn, Fn. cbn [scan_init scan_non_empty]. clear Hn Fn.
  set (tc := scan_type_counts (fold_left scan_value cells scan_init)) in *.
  assert (Hkeys : forall k, In k (map fst (without_empty tc)) ->
                  exists t, k = type_value t /\ t <> EMPTY /\ cells_of_type t cells <> []).
  { intros k Hk. apply without_empty_keys in Hk. destruct Hk as [Hk Hne].
    apply in_map_iff in Hk. destruct Hk as ([k' n] & <- & Hk). cbn [fst] in *.
    apply F1 in Hk. destruct Hk as (t & -> & Hn & E).
    exists t. split; [reflexivity|]. split; [congruence|].
    intros Z0. rewrite Z0 in E. cbn [length] in E. lia. }
  assert (Hnone : without_empty tc = [] <-> non_empty_cells cells = []).
  { split.
    - intros E. destruct (non_empty_cells cells) as [|v l] eqn:N; [reflexivity|exfalso].
      assert (Hv : In v (non_empty_cells cells)) by (rewrite N; left; reflexivity).
      apply filter_In in Hv. destruct Hv as [Hv Ht].
      apply negb_true_iff in Ht.
      assert (Hin' : In (type_value (_detect_cell_type v),
                         Z.of_nat (length (cells_of_type (_detect_cell_type v) cells))) tc).
      { apply F1. exists (_detect_cell_type v). split; [reflexivity|]. split; [|reflexivity].
        assert (Hv' : In v (cells_of_type (_detect_cell_type v) cells)).
        { apply filter_In. split; [exact Hv|]. apply DataType_eqb_eq. reflexivity. }
        destruct (cells_of_type _ cells); [destruct Hv'|]. cbn [length]. lia. }
      assert (Hw : In (type_value (_detect_cell_type v)) (map fst (without_empty tc))).
      { apply without_empty_keys. split.
        - apply in_map_iff. eexists. split; [|exact Hin']. reflexivity.
        - intros Eq. apply type_value_inj in Eq. apply DataType_eqb_eq in Eq. congruence. }
      rewrite E in Hw. destruct Hw.
    - intros N. destruct (without_empty tc) as [|[k n] l] eqn:E; [reflexivity|exfalso].
      destruct (Hkeys k) as (t & -> & Hne & Hc); [left; reflexivity|].
      destruct (cells_of_type t cells) as [|v l'] eqn:C; [congruence|].
      assert (Hv : In v (cells_of_type t cells)) by (rewrite C; left; reflexivity).
      apply filter_In in Hv. destruct Hv as [Hv Ht]. apply DataType_eqb_eq in Ht.
      assert (Hv' : In v (non_empty_cells cells)).
      { apply filter_In. split; [exact Hv|]. apply negb_true_iff.
        destruct (DataType_eqb (_detect_cell_type v) EMPTY) eqn:B; [|reflexivity].
        apply DataType_eqb_eq in B. congruence. }
      rewrite N in Hv'. destruct Hv'. }
  assert (Hlen : 0 + Z.of_nat (length (non_empty_cells cells)) = 0
                 <-> non_empty_cells cells = []).
  { destruct (non_empty_cells cells); cbn [length]; split; intros; try reflexivity;
      try discriminate; lia. }
  destruct (resolve_column_type_cases _ _ Hd) as [[E K]|[Kne [E|K]]].
  - split; [|left; exact E]. rewrite Hlen, <- Hnone. tauto.
  - split; [|right; left; exact E]. rewrite Hlen, <- Hnone, E.
    split; [discriminate|tauto].
  - destruct (Hkeys _ K) as (t & Ht & Hne & Hc). apply type_value_inj in Ht.
    rewrite Hlen, <- Hnone, Ht. split; [tauto|]. right. right. exact Hc.
Qed.

End ImportedData.

(** ** The analyzer: what an analysis copies from the import *)

Lemma map_result_Forall2 {A B : Type} (f : A -> result B) (l : list A) (ys : list B) :
  map_result f l = Ok ys -> Forall2 (fun x y => f x = Ok y) l ys.
Proof.
  revert ys. induction l as [|x l IH]; intros ys H; cbn [map_result] in H.
  - injection H as <-. constructor.
  - bind_named H y Hy. bind_named H ys' Hys. injection H as <-.
    constructor; [exact Hy|apply IH; exact Hys].
Qed.

Section AnalysisFrame.
Context {U : Unicode}.

Lemma numeric_stats_base (stats stats' : ColumnStats.t) (values : list value) :
  _compute_numeric_stats stats values = Ok stats' ->
  base_fields stats' = base_fields stats.
Proof.
  unfold _compute_numeric_stats. intros H.
  bind_named H nums Hn. destruct nums as [|x0 nums].
  - injection H as <-. reflexivity.
  - bind_named H mn Hmn. bind_named H mx Hmx. bind_named H mean Hmean.
    bind_named H med Hmed. bind_named H sd Hsd.
    destruct (4 <=? _).
    + bind_named H q Hq. injection H as <-. reflexivity.
    + injection H as <-. reflexivity.
Qed.

Lemma text_stats_base (stats stats' : ColumnStats.t) (values : list value) :
  _compute_text_stats stats values = Ok stats' ->
  base_fields stats' = base_fields stats.
Proof.
  unfold _compute_text_stats. intros H.
  destruct (text_lengths values) as [|l ls].
  - injection H as <-. reflexivity.
  - bind_named H avg Havg. injection H as <-. reflexivity.
Qed.

Lemma boolean_stats_base (stats : ColumnStats.t) (values : list value) :
  base_fields (_compute_boolean_stats stats values) = base_fields stats.
Proof.
  unfold _compute_boolean_stats. revert stats.
  induction values as [|v values IH]; intros stats; cbn [fold_left]; [reflexivity|].
  rewrite IH. destruct v; try reflexivity;
    repeat match goal with
           | |- context [if ?c then _ else _] => destruct c
           | |- context [match ?c with [] => _ | _ :: _ => _ end] => destruct c
           end; reflexivity.
Qed.

Lemma date_stats_base (stats stats' : ColumnStats.t) (values : list value) :
  _compute_date_stats stats values = Ok stats' ->
  base_fields stats' = base_fields stats.
Proof.
  unfold _compute_date_stats. intros H.
  destruct (somes (map _to_date_sortable values)) as [|d ds].
  - injection H as <-. reflexivity.
  - bind_named H a Ha. bind_named H b Hb. injection H as <-. reflexivity.
Qed.

Lemma analyze_column_base (col_info : ColumnInfo.t) (values : list value)
      (stats : ColumnStats.t) :
  _analyze_column col_info values = Ok stats ->
  ColumnStats.header stats = ColumnInfo.header col_info /\
  ColumnStats.data_type stats = ColumnInfo.detected_type col_info /\
  ColumnStats.total_count stats = ColumnInfo.total_count col_info /\
  ColumnStats.non_empty_count stats = ColumnInfo.non_empty_count col_info /\
  ColumnStats.empty_count stats = ColumnInfo.empty_count col_info /\
  ColumnStats.unique_count stats = ColumnInfo.unique_count col_info /\
  ColumnStats.duplicate_count stats
  = sum_Z (map (fun c => c - 1)
               (filter (fun c => 1 <? c)
                       (map snd (fold_left dict_incr
                                           (map str_of_value (filter is_non_empty values)) [])))) /\
  ColumnStats.top_values stats
  = firstn 10 (sorted (fun x y => snd y <? snd x)
                      (fold_left dict_incr
                                 (map str_of_value (filter is_non_empty values)) [])).
Proof.
  intros H. unfold _analyze_column in H. bind_named H compl Hc.
  match type of H with
  | context [_compute_numeric_stats ?s _] => set (base := s) in *
  end.
  assert (B : base_fields stats = base_fields base).
  { destruct (numeric_family _); [apply numeric_stats_base in H; exact H|].
    destruct (text_family _); [apply text_stats_base in H; exact H|].
    destruct (DataType_eqb _ _); [injection H as <-; apply boolean_stats_base|].
    destruct (date_family _); [apply date_stats_base in H; exact H|].
    injection H as <-. reflexivity. }
  unfold base_fields in B. injection B as -> -> -> -> -> -> _ -> ->.
  repeat split.
Qed.

End AnalysisFrame.

(** ** Counting with a dictionary, and sorting *)

Lemma dict_incr_fold (keys : list str) (d : dict Z) :
  (forall k, dict_count (fold_left dict_incr keys d) k
             = dict_count d k + occurrences k keys) /\
  sum_Z (map snd (fold_left dict_incr keys d))
  = sum_Z (map snd d) + Z.of_nat (length keys) /\
  (NoDup (map fst d) -> NoDup (map fst (fold_left dict_incr keys d))) /\
  (forall k, In k (map fst (fold_left dict_incr keys d)) ->
             In k (map fst d) \/ In k keys).
Proof.
  unfold occurrences.
  revert d. induction keys as [|x keys IH]; intros d; cbn [fold_left].
  - cbn [filter length]. repeat split; try lia; try tauto.
  - destruct (IH (dict_incr d x)) as (Hc & Hsum & Hnd & Hk).
    split; [|split; [|split]].
    + intros k. rewrite Hc, dict_count_incr. cbn [filter].
      rewrite (str_eqb_sym k x).
      destruct (str_eqb x k); cbn [length]; lia.
    + rewrite Hsum, dict_incr_sum. cbn [length]. lia.
    + intros H. apply Hnd. apply dict_set_NoDup. exact H.
    + intros k Hin. destruct (Hk k Hin) as [H|H].
      * unfold dict_incr in H. rewrite dict_set_keys in H.
        destruct (str_in _ _); [left; exact H|].
        apply in_app_or in H. destruct H as [H|[<-|[]]]; [left; exact H|].
        right. left. reflexivity.
      * right. right. exact H.
Qed.

Lemma occurrences_pos (k : str) (keys : list str) :
  In k keys <-> 1 <= occurrences k keys.
Proof.
  unfold occurrences. split.
  - intros H. assert (Hin : In k (filter (str_eqb k) keys)).
    { apply filter_In. split; [exact H|apply str_eqb_refl]. }
    destruct (filter _ keys); [destruct Hin|cbn [length]; lia].
  - intros H. destruct (filter (str_eqb k) keys) as [|x l] eqn:E; [cbn [length] in H; lia|].
    assert (Hin : In x (filter (str_eqb k) keys)) by (rewrite E; left; reflexivity).
    apply filter_In in Hin. destruct Hin as [Hin Hx].
    apply str_eqb_eq in Hx. subst x. exact Hin.
Qed.

(** The dictionary that counts the strings of [keys], from the empty one. *)
Lemma counts_of_keys (keys : list str) :
  NoDup (map fst (fold_left dict_incr keys [])) /\
  (forall k n, In (k, n) (fold_left dict_incr keys []) <->
               In k keys /\ n = occurrences k keys) /\
  sum_Z (map snd (fold_left dict_incr keys [])) = Z.of_nat (length keys) /\
  Permutation (map fst (fold_left dict_incr keys [])) (distinct keys).
Proof.
  destruct (dict_incr_fold keys []) as (Hc & Hsum & Hnd & Hk).
  cbn [map] in *. specialize (Hnd (NoDup_nil _)).
  assert (Hin : forall k n, In (k, n) (fold_left dict_incr keys []) <->
                            In k keys /\ n = occurrences k keys).
  { intros k n. split.
    - intros Hkn. pose proof (dict_get_NoDup _ _ _ Hnd Hkn) as G.
      specialize (Hc k). unfold dict_count in Hc. rewrite G in Hc. cbn [dict_get] in Hc.
      split; [|lia].
      destruct (Hk k) as [[]|H]; [|exact H].
      apply in_map_iff. exists (k, n). split; [reflexivity|exact Hkn].
    - intros [Hkin ->]. apply dict_get_In. apply occurrences_pos in Hkin.
      specialize (Hc k). unfold dict_count in Hc. cbn [dict_get] in Hc.
      destruct (dict_get _ k) as [m|]; [f_equal; lia|lia]. }
  split; [exact Hnd|]. split; [exact Hin|]. split.
  - rewrite Hsum. unfold sum_Z. cbn [fold_left]. lia.
  - apply NoDup_Permutation; [exact Hnd|apply NoDup_nodup|].
    intros k. unfold distinct. rewrite nodup_In. split.
    + intros H. apply in_map_iff in H. destruct H as ([k' n] & <- & H).
      apply Hin in H. tauto.
    + intros H. apply in_map_iff. exists (k, occurrences k keys). split; [reflexivity|].
      apply Hin. tauto.
Qed.

Lemma fold_left_map {A B C : Type} (f : A -> B -> A) (g : C -> B) (l : list C) (a : A) :
  fold_left (fun acc x => f acc (g x)) l a = fold_left f (map g l) a.
Proof. revert a. induction l as [|x l IH]; intros a; [reflexivity|apply IH]. Qed.

Lemma StronglySorted_app {A : Type} (R : A -> A -> Prop) (l1 l2 : list A) :
  StronglySorted R (l1 ++ l2) ->
  StronglySorted R l1 /\ StronglySorted R l2 /\
  forall x y, In x l1 -> In y l2 -> R x y.
Proof.
  induction l1 as [|a l1 IH]; cbn [app]; intros H.
  - split; [constructor|]. split; [exact H|]. intros x y [].
  - inversion H as [|? ? Hl Ha]; subst. destruct (IH Hl) as (H1 & H2 & H3).
    rewrite Forall_forall in Ha.
    split; [|split; [exact H2|]].
    + constructor; [exact H1|]. apply Forall_forall. intros z Hz.
      apply Ha. apply in_or_app. left. exact Hz.
    + intros x y [<-|Hx] Hy; [apply Ha; apply in_or_app; right; exact Hy|].
      apply H3; assumption.
Qed.

Lemma sum_excess (vals : list Z) :
  Forall (fun c => 1 <= c) vals ->
  sum_Z (map (fun c => c - 1) (filter (fun c => 1 <? c) vals))
  = sum_Z vals - Z.of_nat (length vals).
Proof.
  induction 1 as [|c vals Hc H IH]; [reflexivity|].
  cbn [filter]. destruct (1 <? c) eqn:E; cbn [map length];
    rewrite ?sum_Z_cons, IH, ?sum_Z_cons.
  - lia.
  - apply Z.ltb_ge in E. lia.
Qed.

Lemma by_count_sorted (d : dict Z) :
  StronglySorted (fun x y : str * Z => snd y <= snd x)
                 (sorted (fun x y : str * Z => snd y <? snd x) d).
Proof.
  assert (S : StronglySorted (not_after (fun x y : str * Z => snd y <? snd x))
                             (sorted (fun x y : str * Z => snd y <? snd x) d)).
  { apply (sorted_sorted (fun x y : str * Z => snd y <? snd x) (fun _ => True)).
    - intros x y _ _ E. apply Z.ltb_lt in E. apply Z.ltb_ge. lia.
    - unfold not_after. intros x y z _ _ _ H1 H2.
      apply Z.ltb_ge in H1, H2. apply Z.ltb_ge. lia.
    - apply Forall_forall. intros x _. exact I. }
  induction S as [|a l _ IH Ha]; constructor; [exact IH|].
  eapply Forall_impl; [|exact Ha]. intros b Hb. unfold not_after in Hb.
  apply Z.ltb_ge in Hb. exact Hb.
Qed.

Section ColumnAnalysis.
Context {U : Unicode}.

(** X12. Duplicates and most frequent values of an analyzed column, over the
    texts of its values that are not blank: [duplicate_count] is the number
    of these texts less the number of distinct ones; [top_values] lists at
    most ten distinct texts, each with the number of its occurrences, in
    descending order of that number, and no text outside the list occurs more
    often than one inside. *)
Theorem column_duplicates_and_top (col_info : ColumnInfo.t) (values : list value)
        (stats : ColumnStats.t) :
  _analyze_column col_info values = Ok stats ->
  ColumnStats.duplicate_count stats
  = Z.of_nat (length (map str_of_value (filter is_non_empty values)))
    - Z.of_nat (length (distinct (map str_of_value (filter is_non_empty values)))) /\
  (length (ColumnStats.top_values stats) <= 10)%nat /\
  NoDup (map fst (ColumnStats.top_values stats)) /\
  (forall k n, In (k, n) (ColumnStats.top_values stats) ->
     In k (map str_of_value (filter is_non_empty values)) /\
     n = occurrences k (map str_of_value (filter is_non_empty values))) /\
  StronglySorted (fun x y => snd y <= snd x) (ColumnStats.top_values stats) /\
  (forall k, In k (map str_of_value (filter is_non_empty values)) ->
     ~ In k (map fst (ColumnStats.top_values stats)) ->
     length (ColumnStats.top_values stats) = 10%nat /\
     forall k' n', In (k', n') (ColumnStats.top_values stats) ->
       occurrences k (map str_of_value (filter is_non_empty values)) <= n').
Proof.
  intros H. apply analyze_column_base in H.
  destruct H as (_ & _ & _ & _ & _ & _ & Hd & Ht).
  rewrite Hd, Ht. clear Hd Ht.
  set (strs := map str_of_value (filter is_non_empty values)).
  destruct (counts_of_keys strs) as (Hnd & Hin & Hsum & Hperm).
  set (d := fold_left dict_incr strs []) in *.
  pose proof (sorted_permutation (fun x y : str * Z => snd y <? snd x) d) as HP.
  pose proof (by_count_sorted d) as HS.
  set (S := sorted (fun x y : str * Z => snd y <? snd x) d) in *.
  rewrite <- (firstn_skipn 10 S) in HS.
  apply StronglySorted_app in HS. destruct HS as (HS1 & _ & HS3).
  split; [|split; [|split; [|split; [|split]]]].
  - rewrite sum_excess.
    + rewrite Hsum, length_map, <- (length_map fst d), (Permutation_length Hperm).
      reflexivity.
    + apply Forall_forall. intros n Hn. apply in_map_iff in Hn.
      destruct Hn as ([k n'] & <- & Hkn). apply Hin in Hkn.
      destruct Hkn as [Hk ->]. apply occurrences_pos. exact Hk.
  - rewrite length_firstn. lia.
  - assert (N : NoDup (map fst S)).
    { eapply Permutation_NoDup; [|exact Hnd].
      apply Permutation_map. symmetry. exact HP. }
    rewrite <- (firstn_skipn 10 S), map_app in N.
    apply NoDup_app_remove_r in N. exact N.
  - intros k n Hkn. apply Hin.
    eapply Permutation_in; [exact HP|].
    rewrite <- (firstn_skipn 10 S). apply in_or_app. left. exact Hkn.
  - exact HS1.
  - intros k Hk Hnot.
    assert (Hkd : In (k, occurrences k strs) S).
    { eapply Permutation_in; [symmetry; exact HP|]. apply Hin. tauto. }
    rewrite <- (firstn_skipn 10 S) in Hkd. apply in_app_or in Hkd.
    destruct Hkd as [Hkd|Hkd].
    { exfalso. apply Hnot. apply in_map_iff.
      exists (k, occurrences k strs). split; [reflexivity|exact Hkd]. }
    split.
    + rewrite length_firstn. destruct (Nat.le_gt_cases 10 (length S)) as [L|L]; [lia|].
      rewrite skipn_all2 in Hkd by lia. destruct Hkd.
    + intros k' n' Hin'. apply (HS3 _ _ Hin' Hkd).
Qed.

End ColumnAnalysis.

(** ** Boolean columns *)

Section BooleanColumns.
Context {U : Unicode}.

Lemma detect_cell_empty (v : value) :
  DataType_eqb (_detect_cell_type v) EMPTY = negb (not_blank v).
Proof.
  destruct v as [|b|n|f|s|d t|d|t]; try reflexivity.
  unfold not_blank. destruct (strip s) as [|c r] eqn:E.
  - unfold _detect_cell_type. rewrite E. reflexivity.
  - assert (Hne : strip s <> []) by (rewrite E; discriminate).
    pose proof (detect_string_cases s Hne) as Hin. cbn [In] in Hin.
    repeat (destruct Hin as [Hin|Hin]; [rewrite <- Hin; reflexivity|]).
    destruct Hin.
Qed.

Lemma non_empty_cells_not_blank (values : list value) :
  non_empty_cells values = filter not_blank values.
Proof.
  unfold non_empty_cells. apply filter_ext. intros v.
  rewrite detect_cell_empty. apply negb_involutive.
Qed.

Lemma boolean_stats_counts (values : list value) (stats : ColumnStats.t) :
  ColumnStats.true_count (_compute_boolean_stats stats values)
  = ColumnStats.true_count stats
    + Z.of_nat (length (filter _is_truthy (filter not_blank values))) /\
  ColumnStats.false_count (_compute_boolean_stats stats values)
  = ColumnStats.false_count stats
    + Z.of_nat (length (filter (fun v => negb (_is_truthy v)) (filter not_blank values))).
Proof.
  unfold _compute_boolean_stats. revert stats.
  induction values as [|v values IH]; intros stats; cbn [fold_left filter].
  - cbn [length]. lia.
  - match goal with
    | |- context [fold_left ?f values ?s] =>
      destruct (IH s) as [It If]; rewrite It, If; clear It If
    end.
    destruct v as [|b|n|f|s|d t|d|t]; unfold not_blank;
      try destruct (strip s) as [|c r];
      cbv beta iota zeta; cbn [filter];
      try (match goal with
           | |- context [_is_truthy ?v] => destruct (_is_truthy v)
           end);
      cbn [negb filter length ColumnStats.set_boolean ColumnStats.true_count
           ColumnStats.false_count]; lia.
Qed.

End BooleanColumns.

(** ** The analysis of a sheet and of a workbook *)

Lemma Forall2_nth_error_r {A B : Type} (R : A -> B -> Prop) (l : list A) (l' : list B)
      (i : nat) (y : B) :
  Forall2 R l l' -> nth_error l' i = Some y ->
  exists x, nth_error l i = Some x /\ R x y.
Proof.
  intros H. revert i. induction H as [|a b l l' Hab H IH]; intros i Hi.
  - destruct i; discriminate Hi.
  - destruct i as [|i]; cbn [nth_error] in *.
    + injection Hi as <-. exists a. split; [reflexivity|exact Hab].
    + apply IH. exact Hi.
Qed.

Lemma Forall2_In_r {A B : Type} (R : A -> B -> Prop) (l : list A) (l' : list B) (y : B) :
  Forall2 R l l' -> In y l' -> exists x, In x l /\ R x y.
Proof.
  intros H Hy. apply In_nth_error in Hy. destruct Hy as [i Hi].
  destruct (Forall2_nth_error_r _ _ _ _ _ H Hi) as (x & Hx & Hr).
  exists x. split; [eapply nth_error_In; exact Hx|exact Hr].
Qed.

Section AnalysisChain.
Context {U : Unicode}.

Lemma analyze_sheet_parts (sheet : SheetData.t) (sa : SheetAnalysis.t) :
  _analyze_sheet sheet = Ok sa ->
  SheetAnalysis.sheet_name sa = SheetData.name sheet /\
  SheetAnalysis.row_count sa = SheetData.row_count sheet /\
  SheetAnalysis.col_count sa = SheetData.col_count sheet /\
  Forall2 (fun c st =>
             exists vals,
               map_result (fun row => py_index row (ColumnInfo.index c))
                          (SheetData.rows sheet) = Ok vals /\
               _analyze_column c vals = Ok st)
          (SheetData.columns sheet) (SheetAnalysis.column_stats sa) /\
  SheetAnalysis.type_summary sa
  = fold_left dict_incr
              (map (fun c => type_value (ColumnInfo.detected_type c))
                   (SheetData.columns sheet)) [] /\
  SheetAnalysis.duplicate_rows sa
  = scan_duplicate_rows
      (fold_left scan_row (SheetData.rows sheet)
                 {| seen_rows := []; scan_duplicate_rows := 0; scan_empty_rows := 0 |}) /\
  SheetAnalysis.completely_empty_rows sa
  = scan_empty_rows
      (fold_left scan_row (SheetData.rows sheet)
                 {| seen_rows := []; scan_duplicate_rows := 0; scan_empty_rows := 0 |}) /\
  quality_score (map ColumnStats.completeness (SheetAnalysis.column_stats sa))
                (SheetAnalysis.duplicate_rows sa) (SheetData.row_count sheet)
  = Ok (SheetAnalysis.data_quality_score sa).
Proof.
  unfold _analyze_sheet. intros H.
  bind_named H stats Hs. bind_named H score Hq. injection H as <-.
  cbn [SheetAnalysis.sheet_name SheetAnalysis.row_count SheetAnalysis.col_count
       SheetAnalysis.column_stats SheetAnalysis.type_summary
       SheetAnalysis.duplicate_rows SheetAnalysis.completely_empty_rows
       SheetAnalysis.data_quality_score].
  split; [reflexivity|]. split; [reflexivity|]. split; [reflexivity|].
  split.
  { apply map_result_Forall2 in Hs.
    eapply Forall2_impl; [|exact Hs]. intros c st Hc. cbv beta in Hc.
    bind_named Hc vals Hv. exists vals. split; assumption. }
  split; [apply (fold_left_map dict_incr (fun c => type_value (ColumnInfo.detected_type c)))|].
  split; [reflexivity|]. split; [reflexivity|exact Hq].
Qed.

Lemma analyze_parts (now : str) (ir : ImportResult.t) (ar : AnalysisResult.t) :
  analyze now ir = Ok ar ->
  AnalysisResult.file_name ar = ImportResult.file_name ir /\
  AnalysisResult.analysis_time ar = now /\
  AnalysisResult.total_rows ar = ImportResult.total_rows ir /\
  AnalysisResult.total_columns ar = ImportResult.total_columns ir /\
  Forall2 (fun sheet sa => _analyze_sheet sheet = Ok sa)
          (ImportResult.sheets ir) (AnalysisResult.sheets ar).
Proof.
  unfold analyze. intros H.
  bind_named H sheets Hs. bind_named H overall Ho. injection H as <-.
  cbn [AnalysisResult.file_name AnalysisResult.analysis_time AnalysisResult.total_rows
       AnalysisResult.total_columns AnalysisResult.sheets].
  repeat split. apply map_result_Forall2. exact Hs.
Qed.

(** X13. An analysis mirrors the import it was made from: file name and
    totals are copied, the time is the time of the analysis, and the sheets
    and their columns correspond one to one, in order, with names, row and
    column counts, headers, types and cell counts copied.  The type summary
    of a sheet counts its columns by type. *)
Theorem analysis_mirrors_import (now : str) (ir : ImportResult.t) (ar : AnalysisResult.t) :
  analyze now ir = Ok ar ->
  AnalysisResult.file_name ar = ImportResult.file_name ir /\
  AnalysisResult.analysis_time ar = now /\
  AnalysisResult.total_rows ar = ImportResult.total_rows ir /\
  AnalysisResult.total_columns ar = ImportResult.total_columns ir /\
  Forall2
    (fun sheet sa =>
       SheetAnalysis.sheet_name sa = SheetData.name sheet /\
       SheetAnalysis.row_count sa = SheetData.row_count sheet /\
       SheetAnalysis.col_count sa = SheetData.col_count sheet /\
       Forall2
         (fun c st =>
            ColumnStats.header st = ColumnInfo.header c /\
            ColumnStats.data_type st = ColumnInfo.detected_type c /\
            ColumnStats.total_count st = ColumnInfo.total_count c /\
            ColumnStats.non_empty_count st = ColumnInfo.non_empty_count c /\
            ColumnStats.empty_count st = ColumnInfo.empty_count c /\
            ColumnStats.unique_count st = ColumnInfo.unique_count c)
         (SheetData.columns sheet) (SheetAnalysis.column_stats sa) /\
       (forall k n, In (k, n) (SheetAnalysis.type_summary sa) <->
          In k (map (fun c => type_value (ColumnInfo.detected_type c))
                    (SheetData.columns sheet)) /\
          n = occurrences k (map (fun c => type_value (ColumnInfo.detected_type c))
                                 (SheetData.columns sheet))) /\
       sum_Z (map snd (SheetAnalysis.type_summary sa))
       = Z.of_nat (length (SheetData.columns sheet)))
    (ImportResult.sheets ir) (AnalysisResult.sheets ar).
Proof.
  intros H. apply analyze_parts in H. destruct H as (H1 & H2 & H3 & H4 & H5).
  split; [exact H1|]. split; [exact H2|]. split; [exact H3|]. split; [exact H4|].
  eapply Forall2_impl; [|exact H5]. intros sheet sa Hsa. cbv beta in Hsa.
  apply analyze_sheet_parts in Hsa.
  destruct Hsa as (S1 & S2 & S3 & S4 & S5 & _).
  split; [exact S1|]. split; [exact S2|]. split; [exact S3|]. split.
  { eapply Forall2_impl; [|exact S4]. intros c st (vals & _ & Hc). 
    apply analyze_column_base in Hc. tauto. }
  rewrite S5.
  destruct (counts_of_keys (map (fun c => type_value (ColumnInfo.detected_type c))
                                (SheetData.columns sheet))) as (_ & K2 & K3 & _).
  split; [exact K2|]. rewrite K3, length_map. reflexivity.
Qed.

(** A column of the analysis of an imported workbook is the analysis of a
    column of the import, over the cells of that column. *)
Lemma analysis_of_import_column (now : str) (wb : workbook) (file_path : str)
      (sheet_names : option (list str)) (has_header : bool) (max_rows : option Z)
      (ir : ImportResult.t) (now' : str) (ar : AnalysisResult.t)
      (sa : SheetAnalysis.t) (j : nat) (st : ColumnStats.t) :
  import_file now wb file_path sheet_names has_header max_rows = Ok ir ->
  analyze now' ir = Ok ar ->
  In sa (AnalysisResult.sheets ar) ->
  nth_error (SheetAnalysis.column_stats sa) j = Some st ->
  exists sheet c,
    In sheet (ImportResult.sheets ir) /\ _analyze_sheet sheet = Ok sa /\
    nth_error (SheetData.columns sheet) j = Some c /\
    _analyze_column c (column_cells (SheetData.rows sheet) j) = Ok st.
Proof.
  intros Hi Ha Hsa Hst. apply analyze_parts in Ha.
  destruct Ha as (_ & _ & _ & _ & HF).
  destruct (Forall2_In_r _ _ _ _ HF Hsa) as (sheet & Hsheet & Hsa').
  exists sheet.
  pose proof (analyze_sheet_parts _ _ Hsa') as (_ & _ & _ & HC & _).
  destruct (Forall2_nth_error_r _ _ _ _ _ HC Hst) as (c & Hc & vals & Hv & Hcol).
  exists c. split; [exact Hsheet|]. split; [exact Hsa'|]. split; [exact Hc|].
  destruct (import_sheets_processed _ _ _ _ _ _ _ _ Hi Hsheet) as (ws & _ & P).
  destruct (process_sheet_columns _ _ _ _ _ P) as (_ & _ & _ & _ & Hcols).
  apply Hcols, detect_column_fields in Hc. destruct Hc as (Hidx & _).
  rewrite Hidx in Hv. apply column_cells_index in Hv. subst vals. exact Hcol.
Qed.

End AnalysisChain.

(** ** The text of a value that is not a string is never blank *)

Lemma decimal_digits (fuel : nat) (n : Z) (acc : str) :
  Forall (fun c => d09 c = true) acc ->
  Forall (fun c => d09 c = true) (decimal fuel n acc) /\
  (acc <> [] \/ fuel <> O -> decimal fuel n acc <> []).
Proof.
  revert n acc. induction fuel as [|fuel IH]; intros n acc Hacc; cbn [decimal].
  - split; [exact Hacc|]. intros [H|H]; [exact H|congruence].
  - destruct (n <? 10) eqn:E.
    + split; [|discriminate]. constructor; [|exact Hacc].
      apply Z.ltb_lt in E. unfold d09, in_range, digit_char.
      apply andb_true_iff. split; apply N.leb_le; lia.
    + apply Z.ltb_ge in E.
      assert (Hd : Forall (fun c => d09 c = true) (digit_char (n mod 10) :: acc)).
      { constructor; [|exact Hacc].
        pose proof (Z.mod_pos_bound n 10 ltac:(lia)) as Hm.
        unfold d09, in_range, digit_char.
        apply andb_true_iff. split; apply N.leb_le; lia. }
      destruct (IH (n / 10) _ Hd) as [H1 H2].
      split; [exact H1|]. intros _. apply H2. left. discriminate.
Qed.

Lemma str_of_nat_digits (n : Z) :
  Forall (fun c => d09 c = true) (str_of_nat n) /\ str_of_nat n <> [].
Proof.
  unfold str_of_nat.
  destruct (decimal_digits (S (Z.to_nat (Z.log2 n))) n [] (Forall_nil _)) as [H1 H2].
  split; [exact H1|]. apply H2. right. discriminate.
Qed.

Section Visible.
Context {U : Unicode}.

Lemma lstrip_keeps (c : char) (s : str) :
  In c s -> isspace c = false -> In c (lstrip s).
Proof.
  intros Hin Hc. induction s as [|x s IH]; [destruct Hin|].
  cbn [lstrip]. destruct (isspace x) eqn:E; [|exact Hin].
  destruct Hin as [->|Hin]; [congruence|apply IH; exact Hin].
Qed.

Lemma strip_keeps (c : char) (s : str) :
  In c s -> isspace c = false -> In c (strip s).
Proof.
  intros Hin Hc. unfold strip, rstrip. apply in_rev. rewrite rev_involutive.
  apply lstrip_keeps; [|exact Hc]. apply in_rev. rewrite rev_involutive.
  apply lstrip_keeps; assumption.
Qed.

(** A string with a printable ASCII character does not strip to nothing. *)
Lemma strip_visible (c : char) (s : str) :
  In c s -> (33 <= c < 128)%N -> strip s <> [].
Proof.
  intros Hin Hc E. apply below_64_not_space in Hc.
  pose proof (strip_keeps c s Hin Hc) as H. rewrite E in H. destruct H.
Qed.

Lemma str_of_nat_visible (n : Z) : exists c, In c (str_of_nat n) /\ (33 <= c < 128)%N.
Proof.
  destruct (str_of_nat_digits n) as [H1 H2].
  destruct (str_of_nat n) as [|c s]; [congruence|].
  exists c. split; [left; reflexivity|].
  inversion H1 as [|? ? Hc _]; subst. apply d09_bounds in Hc. lia.
Qed.

Lemma repr_float_visible (x : float) :
  exists c, In c (repr_float x) /\ (33 <= c < 128)%N.
Proof.
  destruct x as [s|s| |s m e]; cbn [repr_float].
  - exists 46%N. split; [destruct s; cbn; tauto|lia].
  - exists 105%N. split; [destruct s; cbn; tauto|lia].
  - exists 97%N. split; [cbn; tauto|lia].
  - destruct (shortest _ _ _ _ _ _ _) as [d x10].
    match goal with
    | |- exists c, In c (if s then 45%N :: ?b else ?b) /\ _ =>
      assert (Hb : exists c, In c b /\ (33 <= c < 128)%N)
    end.
    { destruct (_ || _).
      - exists 101%N. split; [|lia]. apply in_or_app. right. left. reflexivity.
      - destruct (_ <=? 0).
        + exists 46%N. split; [|lia]. right. left. reflexivity.
        + destruct (_ <=? _).
          * exists 46%N. split; [|lia]. apply in_or_app. right.
            apply in_or_app. right. left. reflexivity.
          * exists 46%N. split; [|lia]. apply in_or_app. right. left. reflexivity. }
    destruct Hb as (c & Hc & Hr). exists c. split; [|exact Hr].
    destruct s; [right; exact Hc|exact Hc].
Qed.

Lemma iso_date_visible (d : date) : exists c, In c (iso_date d) /\ (33 <= c < 128)%N.
Proof.
  exists 45%N. split; [|lia]. unfold iso_date.
  apply in_or_app. right. left. reflexivity.
Qed.

Lemma iso_time_visible (t : time) : exists c, In c (iso_time t) /\ (33 <= c < 128)%N.
Proof.
  exists 58%N. split; [|lia]. unfold iso_time.
  apply in_or_app. right. left. reflexivity.
Qed.

Lemma str_of_value_visible (v : value) :
  match v with
  | VStr _ => True
  | _ => strip (str_of_value v) <> []
  end.
Proof.
  destruct v as [|b|n|f|s|d t|d|t]; cbn [str_of_value]; [| | | |exact I| | |].
  - apply (strip_visible 78%N); [left; reflexivity|lia].
  - destruct b; [apply (strip_visible 84%N)|apply (strip_visible 70%N)];
      try (left; reflexivity); lia.
  - unfold str_of_int. destruct (str_of_nat_visible n) as (c & Hc & Hr).
    destruct (n <? 0).
    + apply (strip_visible 45%N); [left; reflexivity|lia].
    + apply (strip_visible c); assumption.
  - destruct (repr_float_visible f) as (c & Hc & Hr).
    apply (strip_visible c); assumption.
  - destruct (iso_date_visible d) as (c & Hc & Hr).
    apply (strip_visible c); [|exact Hr]. apply in_or_app. left. exact Hc.
  - destruct (iso_date_visible d) as (c & Hc & Hr).
    apply (strip_visible c); assumption.
  - destruct (iso_time_visible t) as (c & Hc & Hr).
    apply (strip_visible c); assumption.
Qed.

(** The test of [_analyze_column] for a value that counts and the test of the
    classifier agree. *)
Lemma is_non_empty_not_blank (v : value) : is_non_empty v = not_blank v.
Proof.
  pose proof (str_of_value_visible v) as H.
  destruct v as [|b|n|f|s|d t|d|t]; unfold is_non_empty, not_blank;
    try reflexivity;
    try (destruct (strip (str_of_value _)); [congruence|reflexivity]).
Qed.

End Visible.

(** ** One family of statistics for a column *)

Section Families.
Context {U : Unicode}.

Lemma numeric_stats_frame (stats stats' : ColumnStats.t) (values : list value) :
  _compute_numeric_stats stats values = Ok stats' ->
  text_fields stats' = text_fields stats /\
  boolean_fields stats' = boolean_fields stats /\
  date_fields stats' = date_fields stats.
Proof.
  unfold _compute_numeric_stats. intros H.
  bind_named H nums Hn. destruct nums as [|x0 nums].
  - injection H as <-. repeat split.
  - bind_named H mn Hmn. bind_named H mx Hmx. bind_named H mean Hmean.
    bind_named H med Hmed. bind_named H sd Hsd.
    destruct (4 <=? _).
    + bind_named H q Hq. injection H as <-. repeat split.
    + injection H as <-. repeat split.
Qed.

Lemma text_stats_frame (stats stats' : ColumnStats.t) (values : list value) :
  _compute_text_stats stats values = Ok stats' ->
  numeric_fields stats' = numeric_fields stats /\
  boolean_fields stats' = boolean_fields stats /\
  date_fields stats' = date_fields stats.
Proof.
  unfold _compute_text_stats. intros H.
  destruct (text_lengths values) as [|l ls].
  - injection H as <-. repeat split.
  - bind_named H avg Havg. injection H as <-. repeat split.
Qed.

Lemma boolean_stats_frame (stats : ColumnStats.t) (values : list value) :
  numeric_fields (_compute_boolean_stats stats values) = numeric_fields stats /\
  text_fields (_compute_boolean_stats stats values) = text_fields stats /\
  date_fields (_compute_boolean_stats stats values) = date_fields stats.
Proof.
  unfold _compute_boolean_stats. revert stats.
  induction values as [|v values IH]; intros stats; cbn [fold_left]; [repeat split|].
  match goal with
  | |- context [fold_left ?f values ?s] => destruct (IH s) as (I1 & I2 & I3)
  end.
  rewrite I1, I2, I3.
  destruct v; try (repeat split; fail);
    repeat match goal with
           | |- context [if ?c then _ else _] => destruct c
           | |- context [match ?c with [] => _ | _ :: _ => _ end] => destruct c
           end; repeat split.
Qed.

Lemma date_stats_frame (stats stats' : ColumnStats.t) (values : list value) :
  _compute_date_stats stats values = Ok stats' ->
  numeric_fields stats' = numeric_fields stats /\
  text_fields stats' = text_fields stats /\
  boolean_fields stats' = boolean_fields stats.
Proof.
  unfold _compute_date_stats. intros H.
  destruct (somes (map _to_date_sortable values)) as [|d ds].
  - injection H as <-. repeat split.
  - bind_named H a Ha. bind_named H b Hb. injection H as <-. repeat split.
Qed.

(** The part of [_analyze_column] that depends on the type of the column. *)
Lemma analyze_column_cases (col_info : ColumnInfo.t) (values : list value)
      (stats : ColumnStats.t) :
  _analyze_column col_info values = Ok stats ->
  exists base,
    numeric_fields base
    = numeric_fields (ColumnStats.init (ColumnInfo.header col_info)
                                       (ColumnInfo.detected_type col_info)) /\
    text_fields base
    = text_fields (ColumnStats.init (ColumnInfo.header col_info)
                                    (ColumnInfo.detected_type col_info)) /\
    boolean_fields base
    = boolean_fields (ColumnStats.init (ColumnInfo.header col_info)
                                       (ColumnInfo.detected_type col_info)) /\
    date_fields base
    = date_fields (ColumnStats.init (ColumnInfo.header col_info)
                                    (ColumnInfo.detected_type col_info)) /\
    if numeric_family (ColumnInfo.detected_type col_info)
    then _compute_numeric_stats base values = Ok stats
    else if text_family (ColumnInfo.detected_type col_info)
    then _compute_text_stats base values = Ok stats
    else if DataType_eqb (ColumnInfo.detected_type col_info) BOOLEAN
    then stats = _compute_boolean_stats base values
    else if date_family (ColumnInfo.detected_type col_info)
    then _compute_date_stats base values = Ok stats
    else stats = base.
Proof.
  intros H. unfold _analyze_column in H. bind_named H compl Hc.
  match type of H with
  | context [_compute_numeric_stats ?s _] => exists s
  end.
  split; [reflexivity|]. split; [reflexivity|]. split; [reflexivity|].
  split; [reflexivity|].
  destruct (numeric_family _); [exact H|].
  destruct (text_family _); [exact H|].
  destruct (DataType_eqb _ _); [injection H as <-; reflexivity|].
  destruct (date_family _); [exact H|].
  injection H as <-. reflexivity.
Qed.

(** X14. An analyzed column has the statistics of its own family of types
    only: the numeric, text, Boolean and date statistics of a column of
    another family keep the values they have in a new [ColumnStats]. *)
Theorem one_family_of_statistics (col_info : ColumnInfo.t) (values : list value)
        (stats : ColumnStats.t) :
  _analyze_column col_info values = Ok stats ->
  (numeric_family (ColumnStats.data_type stats) = false ->
   numeric_fields stats = (None, None, None, None, None, None, false, 0)) /\
  (text_family (ColumnStats.data_type stats) = false ->
   text_fields stats = (None, None, None)) /\
  (ColumnStats.data_type stats <> BOOLEAN -> boolean_fields stats = (0, 0)) /\
  (date_family (ColumnStats.data_type stats) = false ->
   date_fields stats = (None, None)).
Proof.
  intros H. pose proof (analyze_column_base _ _ _ H) as (_ & Hdt & _).
  rewrite Hdt. clear Hdt.
  apply analyze_column_cases in H. destruct H as (base & Bn & Bt & Bb & Bd & H).
  change (numeric_fields (ColumnStats.init _ _))
    with (@None float, @None float, @None float, @None float, @None float, @None float,
          false, 0) in Bn.
  change (text_fields (ColumnStats.init _ _)) with (@None Z, @None Z, @None float) in Bt.
  change (boolean_fields (ColumnStats.init _ _)) with (0, 0) in Bb.
  change (date_fields (ColumnStats.init _ _)) with (@None str, @None str) in Bd.
  destruct (numeric_family _) eqn:Fn.
  { apply numeric_stats_frame in H. destruct H as (H1 & H2 & H3).
    rewrite H1, H2, H3.
    split; [discriminate|]. split; [intros _; exact Bt|].
    split; [intros _; exact Bb|intros _; exact Bd]. }
  destruct (text_family _) eqn:Ft.
  { apply text_stats_frame in H. destruct H as (H1 & H2 & H3).
    rewrite H1, H2, H3.
    split; [intros _; exact Bn|]. split; [discriminate|].
    split; [intros _; exact Bb|intros _; exact Bd]. }
  destruct (DataType_eqb _ BOOLEAN) eqn:Fb.
  { subst stats. destruct (boolean_stats_frame base values) as (H1 & H2 & H3).
    rewrite H1, H2, H3. apply DataType_eqb_eq in Fb.
    split; [intros _; exact Bn|]. split; [intros _; exact Bt|].
    split; [intros N; congruence|intros _; exact Bd]. }
  destruct (date_family _) eqn:Fd.
  { apply date_stats_frame in H. destruct H as (H1 & H2 & H3).
    rewrite H1, H2, H3.
    split; [intros _; exact Bn|]. split; [intros _; exact Bt|].
    split; [intros _; exact Bb|discriminate]. }
  subst stats.
  split; [intros _; exact Bn|]. split; [intros _; exact Bt|].
  split; [intros _; exact Bb|intros _; exact Bd].
Qed.

End Families.

(** ** Text statistics *)

Lemma fold_min_spec (ls : list Z) (l : Z) :
  In (fold_left Z.min ls l) (l :: ls) /\
  forall x, In x (l :: ls) -> fold_left Z.min ls l <= x.
Proof.
  revert l. induction ls as [|y ls IH]; intros l; cbn [fold_left].
  - split; [left; reflexivity|]. intros x [<-|[]]. lia.
  - destruct (IH (Z.min l y)) as [I1 I2]. split.
    + destruct I1 as [I1|I1]; [|right; right; exact I1].
      rewrite <- I1. destruct (Z.min_spec l y) as [[_ ->]|[_ ->]];
        [left; reflexivity|right; left; reflexivity].
    + intros x Hx.
      assert (Hm : fold_left Z.min ls (Z.min l y) <= Z.min l y)
        by (apply I2; left; reflexivity).
      destruct Hx as [<-|[<-|Hx]]; [lia|lia|apply I2; right; exact Hx].
Qed.

Lemma fold_max_spec (ls : list Z) (l : Z) :
  In (fold_left Z.max ls l) (l :: ls) /\
  forall x, In x (l :: ls) -> x <= fold_left Z.max ls l.
Proof.
  revert l. induction ls as [|y ls IH]; intros l; cbn [fold_left].
  - split; [left; reflexivity|]. intros x [<-|[]]. lia.
  - destruct (IH (Z.max l y)) as [I1 I2]. split.
    + destruct I1 as [I1|I1]; [|right; right; exact I1].
      rewrite <- I1. destruct (Z.max_spec l y) as [[_ ->]|[_ ->]];
        [right; left; reflexivity|left; reflexivity].
    + intros x Hx.
      assert (Hm : Z.max l y <= fold_left Z.max ls (Z.max l y))
        by (apply I2; left; reflexivity).
      destruct Hx as [<-|[<-|Hx]]; [lia|lia|apply I2; right; exact Hx].
Qed.

Section TextStatistics.
Context {U : Unicode}.

(** The lengths that [_compute_text_stats] collects are those of the
    stripped texts of the values that are not blank. *)
Lemma text_lengths_spec (values : list value) :
  text_lengths values
  = map (fun v => Z.of_nat (length (strip (str_of_value v)))) (filter is_non_empty values).
Proof.
  induction values as [|v values IH]; [reflexivity|].
  cbn [text_lengths filter]. unfold is_non_empty at 1.
  destruct v as [|b|n|f|s|d t|d|t]; try exact IH;
    (destruct (strip (str_of_value _)) as [|c r] eqn:E;
     [exact IH|cbn [map]; rewrite E, IH; reflexivity]).
Qed.

(** X15. Text statistics.  With no value that is not blank,
    [_compute_text_stats] leaves the statistics as they are.  Otherwise
    [min_length] and [max_length] are the least and the greatest length of a
    stripped text of such a value, both at least 1, and [avg_length] is the
    quotient of the sum of these lengths by their number. *)
Theorem text_stats_lengths (stats stats' : ColumnStats.t) (values : list value) :
  _compute_text_stats stats values = Ok stats' ->
  let lengths :=
      map (fun v => Z.of_nat (length (strip (str_of_value v))))
          (filter is_non_empty values) in
  match filter is_non_empty values with
  | [] => stats' = stats
  | _ :: _ =>
      exists mn mx avg,
        ColumnStats.min_length stats' = Some mn /\
        ColumnStats.max_length stats' = Some mx /\
        ColumnStats.avg_length stats' = Some avg /\
        In mn lengths /\ In mx lengths /\
        (forall l, In l lengths -> 1 <= mn <= l /\ l <= mx) /\
        int_truediv (sum_Z lengths) (Z.of_nat (length lengths)) = Ok avg
  end.
Proof.
  intros H. cbv zeta. unfold _compute_text_stats in H. rewrite text_lengths_spec in H.
  set (lengths := map (fun v => Z.of_nat (length (strip (str_of_value v))))
                      (filter is_non_empty values)) in *.
  assert (Hpos : forall l, In l lengths -> 1 <= l).
  { intros l Hl. apply in_map_iff in Hl. destruct Hl as (v & <- & Hv).
    apply filter_In in Hv. destruct Hv as [_ Hv]. unfold is_non_empty in Hv.
    destruct v; try discriminate Hv;
      (destruct (strip (str_of_value _)); [discriminate Hv|cbn [length]; lia]). }
  subst lengths.
  destruct (filter is_non_empty values) as [|v vs].
  - injection H as <-. reflexivity.
  - cbn [map] in *.
    set (l0 := Z.of_nat (length (strip (str_of_value v)))) in *.
    set (ls := map (fun v => Z.of_nat (length (strip (str_of_value v)))) vs) in *.
    bind_named H avg Havg. injection H as <-.
    destruct (fold_min_spec ls l0) as [M1 M2].
    destruct (fold_max_spec ls l0) as [X1 X2].
    exists (fold_left Z.min ls l0), (fold_left Z.max ls l0), avg.
    split; [reflexivity|]. split; [reflexivity|]. split; [reflexivity|].
    split; [exact M1|]. split; [exact X1|]. split; [|exact Havg].
    intros l Hl. specialize (M2 l Hl). specialize (X2 l Hl).
    specialize (Hpos _ M1). lia.
Qed.

End TextStatistics.

(** ** Date statistics *)

Lemma datetime_lt_asym (a b : date * time) :
  datetime_lt a b = true -> datetime_lt b a = false.
Proof.
  exact (lex_lt_asym
           [year (fst a); month (fst a); day (fst a);
            hour (snd a); minute (snd a); second (snd a); microsecond (snd a)]
           [year (fst b); month (fst b); day (fst b);
            hour (snd b); minute (snd b); second (snd b); microsecond (snd b)]).
Qed.

Lemma datetime_not_after_trans (a b c : date * time) :
  not_after datetime_lt a b -> not_after datetime_lt b c -> not_after datetime_lt a c.
Proof.
  unfold not_after.
  exact (lex_lt_trans
           [year (fst a); month (fst a); day (fst a);
            hour (snd a); minute (snd a); second (snd a); microsecond (snd a)]
           [year (fst b); month (fst b); day (fst b);
            hour (snd b); minute (snd b); second (snd b); microsecond (snd b)]
           [year (fst c); month (fst c); day (fst c);
            hour (snd c); minute (snd c); second (snd c); microsecond (snd c)]
           eq_refl eq_refl).
Qed.

Lemma py_index_ends {A : Type} (l : list A) :
  l <> [] ->
  exists a rest init b,
    l = a :: rest /\ l = init ++ [b] /\
    py_index l 0 = Ok a /\ py_index l (-1) = Ok b.
Proof.
  intros Hne. destruct (exists_last Hne) as (init & b & E).
  destruct l as [|a rest]; [congruence|].
  exists a, rest, init, b. split; [reflexivity|]. split; [exact E|]. split.
  - unfold py_index. cbn [length].
    replace (0 <? 0) with false by reflexivity.
    replace ((0 <=? 0) && (0 <? Z.of_nat (S (length rest)))) with true
      by (symmetry; apply andb_true_iff; split; [reflexivity|apply Z.ltb_lt; lia]).
    reflexivity.
  - rewrite E. clear E. unfold py_index. rewrite length_app. cbn [length].
    replace (-1 <? 0) with true by reflexivity.
    replace ((0 <=? -1 + Z.of_nat (length init + 1))
             && (-1 + Z.of_nat (length init + 1) <? Z.of_nat (length init + 1)))
      with true
      by (symmetry; apply andb_true_iff; split; [apply Z.leb_le|apply Z.ltb_lt]; lia).
    replace (Z.to_nat (-1 + Z.of_nat (length init + 1))) with (length init) by lia.
    rewrite nth_error_app2 by lia. rewrite Nat.sub_diag. reflexivity.
Qed.

(** The ends of a list sorted by [lt]: no element is before the first, and
    the last is before none. *)
Lemma sorted_ends {A : Type} (lt : A -> A -> bool) (P : A -> Prop) (l : list A) :
  (forall x y, P x -> P y -> lt x y = true -> lt y x = false) ->
  (forall x y z, P x -> P y -> P z ->
                 not_after lt x y -> not_after lt y z -> not_after lt x z) ->
  Forall P l ->
  l <> [] ->
  exists first last,
    py_index (sorted lt l) 0 = Ok first /\ py_index (sorted lt l) (-1) = Ok last /\
    In first l /\ In last l /\
    forall x, In x l -> lt x first = false /\ lt last x = false.
Proof.
  intros Hasym Htrans HP Hne.
  assert (Hirr : forall x, P x -> lt x x = false).
  { intros x Px. destruct (lt x x) eqn:E; [|reflexivity].
    rewrite (Hasym x x Px Px E) in E. discriminate E. }
  pose proof (sorted_sorted lt P Hasym Htrans l HP) as HS.
  pose proof (sorted_permutation lt l) as HPm.
  assert (Hne' : sorted lt l <> []).
  { intros E. rewrite E in HPm. apply Permutation_nil in HPm. congruence. }
  destruct (py_index_ends _ Hne') as (a & rest & init & b & E1 & E2 & P1 & P2).
  exists a, b. split; [exact P1|]. split; [exact P2|].
  split; [eapply Permutation_in; [exact HPm|rewrite E1; left; reflexivity]|].
  split; [eapply Permutation_in; [exact HPm|rewrite E2; apply in_or_app; right; left;
                                              reflexivity]|].
  intros x Hx. rewrite Forall_forall in HP. pose proof (HP x Hx) as Px.
  apply (Permutation_in _ (Permutation_sym HPm)) in Hx. split.
  - rewrite E1 in HS, Hx. inversion HS as [|? ? _ Ha]; subst.
    destruct Hx as [<-|Hx]; [apply Hirr; exact Px|].
    rewrite Forall_forall in Ha. apply Ha. exact Hx.
  - rewrite E2 in HS, Hx. apply StronglySorted_app in HS.
    destruct HS as (_ & _ & H3). apply in_app_or in Hx.
    destruct Hx as [Hx|[<-|[]]]; [|apply Hirr; exact Px].
    apply (H3 x b Hx). left. reflexivity.
Qed.

Lemma sorted_dates_ends (l : list (date * time)) :
  l <> [] ->
  exists first last,
    py_index (sorted datetime_lt l) 0 = Ok first /\
    py_index (sorted datetime_lt l) (-1) = Ok last /\
    In first l /\ In last l /\
    forall x, In x l -> datetime_lt x first = false /\ datetime_lt last x = false.
Proof.
  apply (sorted_ends datetime_lt (fun _ => True)).
  - intros x y _ _. apply datetime_lt_asym.
  - intros x y z _ _ _. apply datetime_not_after_trans.
  - apply Forall_forall. intros x _. exact I.
Qed.

Section DateStatistics.
Context {U : Unicode}.

(** X16. [_compute_date_stats] always returns.  With no date among the
    values it leaves the statistics as they are; otherwise [earliest] and
    [latest] are the ISO texts of two of the dates before and after which the
    values have no date. *)
Theorem date_stats_range (stats : ColumnStats.t) (values : list value) :
  exists stats',
    _compute_date_stats stats values = Ok stats' /\
    match somes (map _to_date_sortable values) with
    | [] => stats' = stats
    | _ :: _ =>
        exists first last,
          In first (somes (map _to_date_sortable values)) /\
          In last (somes (map _to_date_sortable values)) /\
          ColumnStats.earliest stats' = Some (isoformat (fst first) (snd first)) /\
          ColumnStats.latest stats' = Some (isoformat (fst last) (snd last)) /\
          forall d, In d (somes (map _to_date_sortable values)) ->
                    datetime_lt d first = false /\ datetime_lt last d = false
    end.
Proof.
  unfold _compute_date_stats.
  destruct (somes (map _to_date_sortable values)) as [|d ds] eqn:E.
  - exists stats. split; reflexivity.
  - rewrite <- E.
    assert (Hne : somes (map _to_date_sortable values) <> []) by (rewrite E; discriminate).
    destruct (sorted_dates_ends _ Hne) as (first & last & P1 & P2 & I1 & I2 & Hall).
    rewrite P1, P2. cbn [bind].
    eexists. split; [reflexivity|].
    exists first, last. cbn [ColumnStats.set_dates ColumnStats.earliest ColumnStats.latest].
    split; [exact I1|]. split; [exact I2|]. split; [reflexivity|].
    split; [reflexivity|exact Hall].
Qed.

End DateStatistics.

(** ** Duplicate rows and empty rows *)

Lemma list_str_eqb_eq (a b : list str) : list_str_eqb a b = true <-> a = b.
Proof.
  unfold list_str_eqb. revert b. induction a as [|x a IH]; intros [|y b];
    cbn [length combine forallb Nat.eqb andb fst snd]; try (split; [discriminate|discriminate]).
  - split; reflexivity.
  - specialize (IH b). destruct (length a =? length b)%nat eqn:L.
    + cbn [andb] in IH |- *. rewrite andb_true_iff, IH, str_eqb_eq.
      split; [intros [-> ->]; reflexivity|intros E; injection E as -> ->; tauto].
    + cbn [andb]. split; [discriminate|]. intros E. injection E as -> ->.
      rewrite Nat.eqb_refl in L. discriminate L.
Qed.

Lemma seen_In (fp : list str) (seen : list (list str)) :
  existsb (list_str_eqb fp) seen = true <-> In fp seen.
Proof.
  rewrite existsb_exists. split.
  - intros (x & Hx & E). apply list_str_eqb_eq in E. subst. exact Hx.
  - intros H. exists fp. split; [exact H|apply list_str_eqb_eq; reflexivity].
Qed.

Lemma row_scan_invariant (rows : list (list value)) :
  let a := fold_left scan_row rows
                     {| seen_rows := []; scan_duplicate_rows := 0; scan_empty_rows := 0 |} in
  NoDup (seen_rows a) /\
  (forall fp, In fp (seen_rows a) <-> In fp (map fingerprint rows)) /\
  scan_empty_rows a = Z.of_nat (length (filter blank_row (map fingerprint rows))) /\
  scan_duplicate_rows a
  = Z.of_nat (length (filter (fun fp => negb (blank_row fp)) (map fingerprint rows)))
    - Z.of_nat (length (filter (fun fp => negb (blank_row fp)) (seen_rows a))).
Proof.
  induction rows as [|row rows IH] using rev_ind.
  - cbn. repeat split; try constructor; tauto.
  - cbv zeta in IH |- *. rewrite fold_left_app. cbn [fold_left].
    destruct IH as (Hnd & Hset & He & Hd).
    set (a := fold_left scan_row rows _) in *.
    rewrite map_app, !filter_app, !length_app. cbn [map filter].
    unfold scan_row. fold (blank_row (fingerprint row)).
    pose proof (seen_In (fingerprint row) (seen_rows a)) as Hin.
    assert (Hseen :
              NoDup (if existsb (list_str_eqb (fingerprint row)) (seen_rows a)
                     then seen_rows a else fingerprint row :: seen_rows a) /\
              (forall fp,
                  In fp (if existsb (list_str_eqb (fingerprint row)) (seen_rows a)
                         then seen_rows a else fingerprint row :: seen_rows a)
                  <-> In fp (map fingerprint rows ++ [fingerprint row]))).
    { destruct (existsb _ (seen_rows a)) eqn:E.
      - split; [exact Hnd|]. intros fp. rewrite in_app_iff, <- Hset. cbn [In].
        split; [tauto|]. intros [H|[<-|[]]]; [exact H|apply Hin; reflexivity].
      - split.
        + constructor; [|exact Hnd]. intros H. apply Hin in H. congruence.
        + intros fp. rewrite in_app_iff, <- Hset. cbn [In]. tauto. }
    destruct Hseen as [Hnd' Hset'].
    destruct (blank_row (fingerprint row)) eqn:B;
      cbn [seen_rows scan_empty_rows scan_duplicate_rows negb length].
    + split; [exact Hnd'|]. split; [exact Hset'|]. split; [lia|].
      destruct (existsb _ (seen_rows a)); cbn [filter]; rewrite ?B; cbn [negb]; lia.
    + destruct (existsb _ (seen_rows a)) eqn:E;
        cbn [seen_rows scan_empty_rows scan_duplicate_rows].
      * split; [exact Hnd'|]. split; [exact Hset'|]. split; lia.
      * split; [exact Hnd'|]. split; [exact Hset'|]. split; [lia|].
        cbn [filter]. rewrite B. cbn [negb length]. lia.
Qed.

Lemma filter_map_swap {A B : Type} (f : A -> B) (p : B -> bool) (q : A -> bool)
      (H : forall x, p (f x) = q x) (l : list A) :
  filter p (map f l) = map f (filter q l).
Proof.
  induction l as [|x l IH]; [reflexivity|].
  cbn [map filter]. rewrite H. destruct (q x); cbn [map]; rewrite IH; reflexivity.
Qed.

Section RowCounts.
Context {U : Unicode}.

Lemma fingerprint_blank (row : list value) :
  blank_row (fingerprint row) = forallb void_cell row.
Proof.
  unfold blank_row, fingerprint.
  induction row as [|v row IH]; [reflexivity|].
  cbn [map forallb]. rewrite IH. f_equal.
  pose proof (str_of_value_visible v) as H.
  destruct v as [|b|n|f|s|d t|d|t]; cbn [void_cell]; try reflexivity;
    try (destruct (str_of_value _) eqn:E; [exfalso; apply H; reflexivity|reflexivity]).
Qed.

(** X17. Empty and duplicate rows of an analyzed sheet.
    [completely_empty_rows] counts the rows whose every cell is [None] or the
    empty string; [duplicate_rows] is the number of the other rows less the
    number of their distinct fingerprints, so that each repetition of a row
    counts once.  Neither is negative and together they do not exceed the
    number of rows. *)
Theorem sheet_row_counts (sheet : SheetData.t) (sa : SheetAnalysis.t) :
  _analyze_sheet sheet = Ok sa ->
  SheetAnalysis.completely_empty_rows sa
  = Z.of_nat (length (filter (forallb void_cell) (SheetData.rows sheet))) /\
  SheetAnalysis.duplicate_rows sa
  = Z.of_nat (length (filter (fun row => negb (forallb void_cell row))
                             (SheetData.rows sheet)))
    - Z.of_nat (length (distinct_rows
                          (map fingerprint
                               (filter (fun row => negb (forallb void_cell row))
                                       (SheetData.rows sheet))))) /\
  0 <= SheetAnalysis.duplicate_rows sa /\
  SheetAnalysis.duplicate_rows sa + SheetAnalysis.completely_empty_rows sa
  <= Z.of_nat (length (SheetData.rows sheet)).
Proof.
  intros H. apply analyze_sheet_parts in H.
  destruct H as (_ & _ & _ & _ & _ & Hd & He & _).
  rewrite Hd, He. clear Hd He.
  pose proof (row_scan_invariant (SheetData.rows sheet)) as Inv. cbv zeta in Inv.
  destruct Inv as (Hnd & Hset & He & Hd). rewrite He, Hd. clear He Hd.
  set (rows := SheetData.rows sheet) in *.
  set (a := fold_left scan_row rows _) in *.
  pose proof (fun p q H => filter_map_swap fingerprint p q H rows) as F1.
  rewrite (F1 blank_row (forallb void_cell) fingerprint_blank).
  rewrite (F1 (fun fp => negb (blank_row fp)) (fun row => negb (forallb void_cell row)))
    by (intros row; rewrite fingerprint_blank; reflexivity).
  rewrite !length_map.
  set (NE := filter (fun row => negb (forallb void_cell row)) rows).
  assert (Hlen : length (filter (fun fp => negb (blank_row fp)) (seen_rows a))
                 = length (distinct_rows (map fingerprint NE))).
  { apply Permutation_length. apply NoDup_Permutation.
    - apply NoDup_filter. exact Hnd.
    - apply NoDup_nodup.
    - intros fp. unfold distinct_rows. rewrite nodup_In, filter_In, Hset.
      unfold NE.
      rewrite <- (F1 (fun fp => negb (blank_row fp))
                     (fun row => negb (forallb void_cell row)))
        by (intros row; rewrite fingerprint_blank; reflexivity).
      rewrite filter_In. tauto. }
  rewrite Hlen.
  assert (Hle : (length (distinct_rows (map fingerprint NE)) <= length NE)%nat).
  { rewrite <- (length_map fingerprint NE). apply NoDup_incl_length.
    - apply NoDup_nodup.
    - intros x Hx. apply nodup_In in Hx. exact Hx. }
  pose proof (filter_partition_length (forallb void_cell) rows) as Hp.
  fold NE in Hp.
  split; [reflexivity|]. split; [reflexivity|]. split; lia.
Qed.

End RowCounts.

(** ** The analysis of an imported workbook *)

Lemma nodup_length_bounds {A : Type} (dec : forall x y : A, {x = y} + {x <> y})
      (l : list A) :
  (length (nodup dec l) <= length l)%nat /\
  (l <> [] -> 1 <= length (nodup dec l))%nat.
Proof.
  split.
  - apply NoDup_incl_length; [apply NoDup_nodup|].
    intros x Hx. apply nodup_In in Hx. exact Hx.
  - intros Hne. destruct l as [|x l]; [congruence|].
    assert (Hin : In x (nodup dec (x :: l))) by (apply nodup_In; left; reflexivity).
    destruct (nodup dec (x :: l)); [destruct Hin|cbn [length]; lia].
Qed.

Section AnalyzedImport.
Context {U : Unicode}.

(** X18. Consistency of the analysis of an imported workbook.  For every
    column of every analyzed sheet: [total_count] is the row count of the
    sheet and the sum of [non_empty_count] and [empty_count];
    [duplicate_count] is not negative and below [non_empty_count] unless both
    are 0; [top_values] is empty exactly when the column has no non-empty
    cell; in a Boolean column [true_count] and [false_count] add up to
    [non_empty_count]; and in a column of the text family [min_length] is
    absent exactly when the column has no non-empty cell. *)
Theorem analyzed_import_column (now : str) (wb : workbook) (file_path : str)
        (sheet_names : option (list str)) (has_header : bool) (max_rows : option Z)
        (ir : ImportResult.t) (now' : str) (ar : AnalysisResult.t)
        (sa : SheetAnalysis.t) (j : nat) (st : ColumnStats.t) :
  import_file now wb file_path sheet_names has_header max_rows = Ok ir ->
  analyze now' ir = Ok ar ->
  In sa (AnalysisResult.sheets ar) ->
  nth_error (SheetAnalysis.column_stats sa) j = Some st ->
  ColumnStats.total_count st = SheetAnalysis.row_count sa /\
  ColumnStats.non_empty_count st + ColumnStats.empty_count st
  = ColumnStats.total_count st /\
  0 <= ColumnStats.duplicate_count st /\
  (0 < ColumnStats.non_empty_count st ->
   ColumnStats.duplicate_count st < ColumnStats.non_empty_count st) /\
  (ColumnStats.top_values st = [] <-> ColumnStats.non_empty_count st = 0) /\
  (ColumnStats.data_type st = BOOLEAN ->
   ColumnStats.true_count st + ColumnStats.false_count st
   = ColumnStats.non_empty_count st) /\
  (text_family (ColumnStats.data_type st) = true ->
   (ColumnStats.min_length st = None <-> ColumnStats.non_empty_count st = 0)).
Proof.
  intros Hi Ha Hsa Hst.
  destruct (analysis_of_import_column _ _ _ _ _ _ _ _ _ _ _ _ Hi Ha Hsa Hst)
    as (sheet & c & Hsheet & Hsa' & Hc & Hcol).
  destruct (import_sheets_processed _ _ _ _ _ _ _ _ Hi Hsheet) as (ws & _ & P).
  destruct (process_sheet_columns _ _ _ _ _ P) as (Hrc & _ & _ & _ & Hcols).
  apply Hcols, detect_column_fields in Hc.
  destruct Hc as (_ & _ & _ & Ht & _ & Hn & He & _).
  set (cells := column_cells (SheetData.rows sheet) j) in *.
  destruct (scan_fold cells scan_init) as (Fe & Fn & _).
  cbn [scan_init scan_empty scan_non_empty] in Fe, Fn.
  rewrite Fe in He. rewrite Fn in Hn. clear Fe Fn.
  assert (Hp : (length (cells_of_type EMPTY cells) + length (non_empty_cells cells)
                = length (SheetData.rows sheet))%nat).
  { rewrite cells_partition_length. apply length_map. }
  assert (Hne : non_empty_cells cells = filter is_non_empty cells).
  { rewrite non_empty_cells_not_blank. apply filter_ext. intros v.
    symmetry. apply is_non_empty_not_blank. }
  rewrite Hne in Hn, Hp.
  pose proof (analyze_sheet_parts _ _ Hsa') as (_ & Hrow & _).
  pose proof (analyze_column_base _ _ _ Hcol) as (_ & Bdt & Bt & Bn & Be & _ & Bd & Btop).
  rewrite Hrow, Bt, Bn, Be, Bd, Btop, Bdt, Ht, Hn, He, Hrc. clear Bt Bn Be Bd Btop.
  set (NE := filter is_non_empty cells) in *.
  set (strs := map str_of_value NE).
  destruct (counts_of_keys strs) as (_ & _ & _ & Hperm).
  apply Permutation_length in Hperm. rewrite length_map in Hperm.
  destruct (nodup_length_bounds (list_eq_dec N.eq_dec) strs) as [D1 D2].
  fold (distinct strs) in D1, D2.
  assert (Hstrs : length strs = length NE) by apply length_map.
  assert (Hdup : sum_Z (map (fun c => c - 1)
                            (filter (fun c => 1 <? c)
                                    (map snd (fold_left dict_incr strs []))))
                 = Z.of_nat (length NE) - Z.of_nat (length (distinct strs))).
  { rewrite sum_excess.
    - destruct (counts_of_keys strs) as (_ & _ & Hsum & _).
      rewrite Hsum, length_map, Hperm, Hstrs. reflexivity.
    - apply Forall_forall. intros n Hn'. apply in_map_iff in Hn'.
      destruct Hn' as ([k n'] & <- & Hkn).
      destruct (counts_of_keys strs) as (_ & Hin & _). apply Hin in Hkn.
      destruct Hkn as [Hk ->]. apply occurrences_pos. exact Hk. }
  rewrite Hdup.
  assert (D3 : NE <> [] -> (1 <= length (distinct strs))%nat).
  { intros H. apply D2. unfold strs. destruct NE; [congruence|discriminate]. }
  assert (D1' : (length (distinct strs) <= length NE)%nat)
    by (rewrite <- Hstrs; exact D1).
  split; [reflexivity|]. split; [lia|]. split; [lia|]. split.
  { intros Hpos. assert (H : NE <> []) by (intros E; rewrite E in Hpos; cbn in Hpos; lia).
    specialize (D3 H). lia. }
  split.
  { assert (L : length (firstn 10 (sorted (fun x y : str * Z => snd y <? snd x)
                                          (fold_left dict_incr strs [])))
                = Nat.min 10 (length (distinct strs))).
    { rewrite length_firstn, sorted_length, Hperm. reflexivity. }
    split.
    - intros E. rewrite E in L. cbn [length] in L.
      destruct NE as [|v l]; [reflexivity|].
      assert (v :: l <> []) by discriminate. specialize (D3 H). lia.
    - intros E. destruct NE as [|v l]; [|cbn [length] in E; lia].
      cbn [length] in *. 
      destruct (firstn 10 _) as [|x xs]; [reflexivity|cbn [length] in L; lia]. }
  apply analyze_column_cases in Hcol.
  destruct Hcol as (base & _ & Bt & Bb & _ & Hcase).
  split.
  - intros Hb. rewrite Hb in Hcase. cbn [numeric_family text_family] in Hcase.
    change (DataType_eqb BOOLEAN BOOLEAN) with true in Hcase. cbv iota in Hcase.
    subst st.
    destruct (boolean_stats_counts cells base) as [Tc Fc]. rewrite Tc, Fc.
    unfold boolean_fields in Bb. cbn [ColumnStats.init ColumnStats.true_count
                                      ColumnStats.false_count] in Bb.
    injection Bb as -> ->.
    pose proof (filter_partition_length _is_truthy (filter not_blank cells)) as Hpart.
    assert (Hnb : filter not_blank cells = NE).
    { apply filter_ext. intros v. symmetry. apply is_non_empty_not_blank. }
    rewrite Hnb in *. lia.
  - intros Htf. destruct (numeric_family (ColumnInfo.detected_type c)) eqn:Nf.
    { destruct (ColumnInfo.detected_type c); discriminate. }
    rewrite Htf in Hcase. unfold _compute_text_stats in Hcase.
    rewrite text_lengths_spec in Hcase. fold NE in Hcase.
    unfold text_fields in Bt. cbn [ColumnStats.init ColumnStats.min_length
                                   ColumnStats.max_length ColumnStats.avg_length] in Bt.
    injection Bt as Bmin _ _.
    destruct NE as [|v l]; cbn [map] in Hcase.
    + injection Hcase as <-. rewrite Bmin. cbn [length]. tauto.
    + bind_named Hcase avg Havg. injection Hcase as <-.
      cbn [ColumnStats.set_text ColumnStats.min_length length].
      split; [discriminate|lia].
Qed.

End AnalyzedImport.

(** ** Rounding: when the result is finite and when it is not a zero *)

Lemma digits2_pos_lower (p : positive) : 2 ^ (Zpos (digits2_pos p) - 1) <= Zpos p.
Proof.
  induction p as [p IH|p IH|]; cbn [digits2_pos].
  - rewrite Pos2Z.inj_succ.
    replace (Z.succ (Zpos (digits2_pos p)) - 1) with (Z.succ (Zpos (digits2_pos p) - 1))
      by lia.
    rewrite Z.pow_succ_r by lia. lia.
  - rewrite Pos2Z.inj_succ.
    replace (Z.succ (Zpos (digits2_pos p)) - 1) with (Z.succ (Zpos (digits2_pos p) - 1))
      by lia.
    rewrite Z.pow_succ_r by lia. lia.
  - reflexivity.
Qed.

Lemma Zdigits2_upper (m k : Z) : 0 <= m < 2 ^ k -> 0 <= k -> Zdigits2 m <= k.
Proof.
  intros [H0 H1] Hk. destruct m as [|p|p]; [exact Hk| |lia].
  apply digits2_pos_bound; assumption.
Qed.

Lemma Zdigits2_nonneg (m : Z) : 0 <= Zdigits2 m.
Proof. destruct m; cbn; lia. Qed.

Lemma shr_1_div (mrs : shr_record) :
  0 <= shr_m mrs -> shr_m (shr_1 mrs) = shr_m mrs / 2.
Proof.
  destruct mrs as [m r s]. cbn [shr_m shr_1]. intros H.
  destruct m as [|[p|p|]|p]; cbn [shr_m]; try lia.
  - reflexivity.
  - apply Z.div_unique with (r := 1); lia.
  - apply Z.div_unique with (r := 0); lia.
  - reflexivity.
Qed.

Lemma iter_shr_1_div (p : positive) (mrs : shr_record) :
  0 <= shr_m mrs -> shr_m (iter_pos shr_1 p mrs) = shr_m mrs / 2 ^ Zpos p.
Proof.
  revert mrs. induction p as [p IH|p IH|]; intros mrs H; cbn [iter_pos].
  - rewrite IH by (apply iter_shr_1_nonneg, shr_1_nonneg, H).
    rewrite IH by (apply shr_1_nonneg, H).
    rewrite shr_1_div by exact H.
    rewrite !Z.div_div by lia.
    f_equal. assert (E : Zpos p~1 = Zpos p + Zpos p + 1) by lia.
    rewrite E, !Z.pow_add_r, Z.pow_1_r by lia. ring.
  - rewrite IH by (apply iter_shr_1_nonneg, H).
    rewrite IH by exact H.
    rewrite Z.div_div by lia.
    f_equal. assert (E : Zpos p~0 = Zpos p + Zpos p) by lia.
    rewrite E, Z.pow_add_r by lia. reflexivity.
  - rewrite shr_1_div by exact H. reflexivity.
Qed.

(** What [shr_fexp] does to a mantissa that is not negative: it divides by
    a power of two and raises the exponent to the canonical one. *)
Lemma shr_fexp_spec (m e : Z) (l : location) :
  0 <= m ->
  snd (shr_fexp prec emax m e l) = Z.max e (fexp prec emax (Zdigits2 m + e)) /\
  shr_m (fst (shr_fexp prec emax m e l))
  = m / 2 ^ (Z.max e (fexp prec emax (Zdigits2 m + e)) - e).
Proof.
  intros H. unfold shr_fexp, shr.
  assert (H0 : shr_m (shr_record_of_loc m l) = m) by (destruct l as [|[]]; reflexivity).
  destruct (fexp prec emax (Zdigits2 m + e) - e) as [|p|p] eqn:E; cbn [fst snd].
  - replace (Z.max e (fexp prec emax (Zdigits2 m + e))) with e by lia.
    rewrite H0, Z.sub_diag, Z.div_1_r. split; reflexivity.
  - replace (Z.max e (fexp prec emax (Zdigits2 m + e))) with (e + Zpos p) by lia.
    rewrite iter_shr_1_div by (rewrite H0; exact H).
    rewrite H0. split; [reflexivity|]. f_equal. f_equal. lia.
  - replace (Z.max e (fexp prec emax (Zdigits2 m + e))) with e by lia.
    rewrite H0, Z.sub_diag, Z.div_1_r. split; reflexivity.
Qed.

Lemma round_nearest_even_bounds (m : Z) (l : location) :
  m <= round_nearest_even m l <= m + 1.
Proof.
  unfold round_nearest_even. destruct l as [|[]]; try destruct (Z.even m); lia.
Qed.

Lemma fexp_mono (a b : Z) : a <= b -> fexp prec emax a <= fexp prec emax b.
Proof. unfold fexp, emin, prec, emax. lia. Qed.

(** A mantissa below [2^k] rounds to a finite number when the exponents that
    the two roundings can reach stay below the greatest one. *)
Lemma binary_round_aux_finite (s : bool) (m e : Z) (l : location) (k : Z) :
  0 <= m < 2 ^ k -> 0 <= k ->
  Z.max e (fexp prec emax (k + e)) <= Z.min 971 (1023 - k) ->
  is_infinite (binary_round_aux prec emax s m e l) = false.
Proof.
  intros [Hm0 Hmk] Hk Hb. unfold binary_round_aux.
  destruct (shr_fexp_spec m e l Hm0) as [E1 M1].
  pose proof (shr_fexp_nonneg m e l Hm0) as N1.
  destruct (shr_fexp prec emax m e l) as [mrs' e']. cbn [fst snd] in E1, M1, N1.
  set (m1 := round_nearest_even (shr_m mrs') (loc_of_shr_record mrs')).
  pose proof (round_nearest_even_bounds (shr_m mrs') (loc_of_shr_record mrs')) as R.
  fold m1 in R.
  assert (Hm1 : 0 <= m1) by lia.
  destruct (shr_fexp_spec m1 e' loc_Exact Hm1) as [E2 _].
  destruct (shr_fexp prec emax m1 e' loc_Exact) as [mrs'' e'']. cbn [fst snd] in E2.
  destruct (shr_m mrs'') as [|p|p]; try reflexivity.
  assert (Hd : Zdigits2 m <= k) by (apply Zdigits2_upper; [split|]; assumption).
  assert (He' : e' <= Z.max e (fexp prec emax (k + e))).
  { rewrite E1. pose proof (fexp_mono (Zdigits2 m + e) (k + e) ltac:(lia)). lia. }
  assert (Hle : shr_m mrs' <= m).
  { rewrite M1. apply Z.div_le_upper_bound.
    - apply Z.pow_pos_nonneg; lia.
    - assert (1 <= 2 ^ (Z.max e (fexp prec emax (Zdigits2 m + e)) - e))
        by (apply Z.lt_pred_le, Z.pow_pos_nonneg; lia).
      nia. }
  assert (Hd1 : Zdigits2 m1 <= k + 1).
  { apply Zdigits2_upper; [|lia]. split; [exact Hm1|].
    rewrite Z.pow_add_r, Z.pow_1_r by lia. lia. }
  assert (He'' : e'' <= 971).
  { rewrite E2. unfold fexp, emin, prec, emax in *. lia. }
  replace (e'' <=? emax - prec) with true; [reflexivity|].
  symmetry. apply Z.leb_le. unfold emax, prec. lia.
Qed.

(** A positive mantissa with an exponent that is not below the least one
    does not round to a zero. *)
Lemma binary_round_aux_nonzero (s : bool) (m e : Z) (l : location) :
  0 < m -> emin prec emax <= e ->
  is_zero (binary_round_aux prec emax s m e l) = false.
Proof.
  intros Hm He. unfold binary_round_aux.
  assert (Step : forall m e l, 0 < m -> emin prec emax <= e ->
                   0 < shr_m (fst (shr_fexp prec emax m e l)) /\
                   emin prec emax <= snd (shr_fexp prec emax m e l)).
  { clear. intros m e l Hm He.
    destruct (shr_fexp_spec m e l ltac:(lia)) as [E M]. rewrite E, M. split; [|lia].
    destruct m as [|p|p]; try lia. cbn [Zdigits2].
    pose proof (digits2_pos_lower p) as Hl.
    set (d := Zpos (digits2_pos p)) in *.
    assert (Hd : 1 <= d) by (unfold d; lia).
    set (n := Z.max e (fexp prec emax (d + e)) - e).
    assert (Hn : 0 <= n <= d - 1).
    { unfold n, fexp, emin, prec, emax in *. lia. }
    apply Z.div_str_pos. split; [apply Z.pow_pos_nonneg; lia|].
    apply Z.le_trans with (2 ^ (d - 1)); [|exact Hl].
    apply Z.pow_le_mono_r; lia. }
  destruct (Step m e l Hm He) as [P1 Q1].
  destruct (shr_fexp prec emax m e l) as [mrs' e']. cbn [fst snd] in P1, Q1.
  pose proof (round_nearest_even_bounds (shr_m mrs') (loc_of_shr_record mrs')) as R.
  destruct (Step (round_nearest_even (shr_m mrs') (loc_of_shr_record mrs')) e' loc_Exact
                 ltac:(lia) Q1) as [P2 _].
  destruct (shr_fexp prec emax _ e' loc_Exact) as [mrs'' e'']. cbn [fst] in P2.
  destruct (shr_m mrs'') as [|p|p]; try lia.
  destruct (e'' <=? emax - prec); reflexivity.
Qed.

Lemma digits2_pos_upper (p : positive) : Zpos p < 2 ^ Zpos (digits2_pos p).
Proof.
  induction p as [p IH|p IH|]; cbn [digits2_pos];
    rewrite ?Pos2Z.inj_succ, ?Z.pow_succ_r by lia; lia.
Qed.

Lemma Zdigits2_mono (a b : Z) : 0 <= a <= b -> Zdigits2 a <= Zdigits2 b.
Proof.
  intros [Ha Hab]. destruct b as [|q|q]; [assert (a = 0) by lia; subst; reflexivity| |lia].
  apply Zdigits2_upper; [|cbn; lia]. split; [exact Ha|].
  cbn [Zdigits2]. pose proof (digits2_pos_upper q). lia.
Qed.

(** The quotient of two positive integers, the first not above the second,
    rounds to a finite float. *)
Lemma round_quotient_finite (neg : bool) (a b : Z) :
  0 < a <= b -> is_infinite (round_quotient neg a b) = false.
Proof.
  intros [Ha Hab]. unfold round_quotient, SFdiv_core_binary.
  pose proof (Zdigits2_mono a b ltac:(lia)) as Hd.
  assert (Hda : 1 <= Zdigits2 a) by (destruct a; cbn; lia).
  set (e' := Z.min (fexp prec emax (Zdigits2 a + 0 - (Zdigits2 b + 0))) (0 - 0)).
  assert (He' : -1074 <= e' <= -53) by (unfold e', fexp, emin, prec, emax; lia).
  set (s := 0 - 0 - e'). assert (Hs : 53 <= s <= 1074) by (unfold s; lia).
  assert (Hm' : match s with
                | 0 => a
                | Zpos _ => Z.shiftl a s
                | Zneg _ => 0
                end = a * 2 ^ s).
  { destruct s as [|p|p] eqn:E; try lia. apply Z.shiftl_mul_pow2. lia. }
  rewrite Hm'.
  pose proof (Z.div_eucl_eq (a * 2 ^ s) b ltac:(lia)) as Hdiv.
  pose proof (Z.mod_pos_bound (a * 2 ^ s) b ltac:(lia)) as Hmod.
  unfold Z.modulo in Hmod.
  destruct (Z.div_eucl (a * 2 ^ s) b) as [q r].
  assert (Hp : 0 < 2 ^ s) by (apply Z.pow_pos_nonneg; lia).
  assert (Hq : 0 <= q <= 2 ^ s) by nia.
  apply binary_round_aux_finite with (k := s + 1).
  - split; [lia|]. rewrite Z.pow_add_r, Z.pow_1_r by lia. lia.
  - lia.
  - unfold fexp, emin, prec, emax. unfold s in *. lia.
Qed.

(** [a / b] returns for integers [0 <= a <= b] with [b] positive. *)
Lemma int_truediv_fraction (a b : Z) :
  0 <= a <= b -> 0 < b -> exists q, int_truediv a b = Ok q.
Proof.
  intros [Ha Hab] Hb. unfold int_truediv.
  replace (b =? 0) with false by (symmetry; apply Z.eqb_neq; lia).
  destruct (a =? 0) eqn:E; [eexists; reflexivity|].
  apply Z.eqb_neq in E.
  rewrite !Z.abs_eq by lia.
  rewrite round_quotient_finite by lia. eexists. reflexivity.
Qed.

(** ** When the importer returns and what it raises *)

Lemma bind_Raise {A B : Type} (r : result A) (k : A -> result B) (e : exn) :
  (x <- r ;; k x) = Raise e -> r = Raise e \/ exists a, r = Ok a /\ k a = Raise e.
Proof.
  destruct r as [a|e']; cbn [bind]; intros H.
  - right. exists a. split; [reflexivity|exact H].
  - left. injection H as <-. reflexivity.
Qed.

Lemma map_result_Raise {A B : Type} (f : A -> result B) (l : list A) (e : exn) :
  map_result f l = Raise e -> exists x, In x l /\ f x = Raise e.
Proof.
  induction l as [|x l IH]; cbn [map_result]; intros H; [discriminate H|].
  apply bind_Raise in H. destruct H as [H|(y & Hy & H)].
  - exists x. split; [left; reflexivity|exact H].
  - apply bind_Raise in H. destruct H as [H|(ys & Hys & H)]; [|discriminate H].
    destruct (IH H) as (x' & Hx' & Hf). exists x'. split; [right; exact Hx'|exact Hf].
Qed.

Lemma map_result_returns {A B : Type} (f : A -> result B) (l : list A) :
  (forall x, In x l -> exists y, f x = Ok y) -> exists ys, map_result f l = Ok ys.
Proof.
  induction l as [|x l IH]; intros H; cbn [map_result]; [eexists; reflexivity|].
  destruct (H x (or_introl eq_refl)) as [y Hy]. rewrite Hy. cbn [bind].
  destruct IH as [ys Hys]; [intros x' Hx'; apply H; right; exact Hx'|].
  rewrite Hys. cbn [bind]. eexists. reflexivity.
Qed.

Lemma for_each_Raise {A S : Type} (body : S -> A -> result S) (xs : list A) (acc : S)
      (e : exn) :
  for_each body xs acc = Raise e -> exists x s, In x xs /\ body s x = Raise e.
Proof.
  revert acc. induction xs as [|x xs IH]; intros acc H; cbn [for_each] in H;
    [discriminate H|].
  apply bind_Raise in H. destruct H as [H|(acc' & _ & H)].
  - exists x, acc. split; [left; reflexivity|exact H].
  - destruct (IH _ H) as (x' & s & Hx' & Hb). exists x', s.
    split; [right; exact Hx'|exact Hb].
Qed.

Lemma for_each_returns {A S : Type} (body : S -> A -> result S) (xs : list A) (acc : S) :
  (forall x s, In x xs -> exists s', body s x = Ok s') ->
  exists r, for_each body xs acc = Ok r.
Proof.
  revert acc. induction xs as [|x xs IH]; intros acc H; cbn [for_each];
    [eexists; reflexivity|].
  destruct (H x acc (or_introl eq_refl)) as [s' Hs']. rewrite Hs'. cbn [bind].
  apply IH. intros x' s Hx'. apply H. right. exact Hx'.
Qed.

Lemma py_index_returns {A : Type} (l : list A) (i : Z) :
  0 <= i < Z.of_nat (length l) -> exists x, py_index l i = Ok x.
Proof.
  intros H. unfold py_index.
  replace (i <? 0) with false by (symmetry; apply Z.ltb_ge; lia).
  replace ((0 <=? i) && (i <? Z.of_nat (length l))) with true
    by (symmetry; apply andb_true_iff; split; [apply Z.leb_le|apply Z.ltb_lt]; lia).
  destruct (nth_error l (Z.to_nat i)) as [x|] eqn:E; [eexists; reflexivity|].
  apply nth_error_None in E. lia.
Qed.

Lemma get_column_letter_cases (idx : Z) :
  (1 <= idx <= 18278 /\ exists l, get_column_letter idx = Ok l) \/
  (~ 1 <= idx <= 18278 /\ get_column_letter idx = Raise ValueError).
Proof.
  unfold get_column_letter.
  destruct ((1 <=? idx) && (idx <=? 18278)) eqn:E.
  - apply andb_true_iff in E. destruct E as [E1 E2].
    apply Z.leb_le in E1, E2. left. split; [lia|eexists; reflexivity].
  - right. split; [|reflexivity]. intros [H1 H2].
    apply Z.leb_le in H1, H2. rewrite H1, H2 in E. discriminate E.
Qed.

Lemma sum_Z_member (l : list Z) (n : Z) :
  Forall (fun c => 1 <= c) l -> In n l -> 1 <= n <= sum_Z l.
Proof.
  induction 1 as [|c l Hc H IH]; intros Hin; [destruct Hin|].
  rewrite sum_Z_cons.
  assert (0 <= sum_Z l).
  { clear - H. induction H as [|c l Hc H IH]; [unfold sum_Z; cbn; lia|].
    rewrite sum_Z_cons. lia. }
  destruct Hin as [<-|Hin]; [lia|]. specialize (IH Hin). lia.
Qed.

Section ImporterTotal.
Context {U : Unicode}.

Lemma dominant_returns (total : Z) (items : list (str * Z)) :
  Forall (fun kv => (exists t, fst kv = type_value t) /\ 1 <= snd kv <= total) items ->
  exists t, dominant total items = Ok t.
Proof.
  induction 1 as [|[k n] items [[t Hk] Hn] _ IH]; cbn [dominant]; [eexists; reflexivity|].
  cbn [fst snd] in *.
  destruct (int_truediv_fraction n total ltac:(lia) ltac:(lia)) as [q Hq].
  rewrite Hq. cbn [bind]. destruct (fle f0_8 q); [|exact IH].
  exists t. rewrite Hk. apply DataType_of_value_round_trip.
Qed.

(** [_resolve_column_type] returns for a histogram whose keys are names of
    types and whose values are positive. *)
Lemma resolve_column_type_returns (type_counts : dict Z) :
  Forall (fun kv => (exists t, fst kv = type_value t) /\ 1 <= snd kv) type_counts ->
  exists t, _resolve_column_type type_counts = Ok t.
Proof.
  intros H. unfold _resolve_column_type. fold (without_empty type_counts).
  assert (Hne : Forall (fun kv => (exists t, fst kv = type_value t) /\ 1 <= snd kv)
                       (without_empty type_counts)).
  { apply Forall_forall. intros kv Hkv. apply filter_In in Hkv.
    rewrite Forall_forall in H. apply H. tauto. }
  destruct (without_empty type_counts) as [|[k n] rest] eqn:E; [eexists; reflexivity|].
  destruct rest as [|p rest].
  - inversion Hne as [|? ? [[t Hk] _] _]; subst. cbn [fst] in Hk.
    exists t. rewrite Hk. apply DataType_of_value_round_trip.
  - destruct (same_set _ _); [eexists; reflexivity|].
    destruct (same_set _ _); [eexists; reflexivity|].
    apply dominant_returns. apply Forall_forall. intros kv Hkv.
    apply (Permutation_in _ (sorted_permutation _ _)) in Hkv.
    rewrite Forall_forall in Hne. destruct (Hne kv Hkv) as [Ht Hn].
    split; [exact Ht|]. apply sum_Z_member.
    + apply Forall_forall. intros c Hc. apply in_map_iff in Hc.
      destruct Hc as (kv' & <- & Hkv'). apply (Hne kv' Hkv').
    + apply in_map. exact Hkv.
Qed.

Lemma scan_histogram_returns (values : list value) :
  exists t, _resolve_column_type
              (scan_type_counts (fold_left scan_value values scan_init)) = Ok t.
Proof.
  apply resolve_column_type_returns.
  destruct (scan_histogram values) as (H & _).
  apply Forall_forall. intros [k n] Hkn. apply H in Hkn.
  destruct Hkn as (t & -> & Hn & _). cbn [fst snd].
  split; [exists t; reflexivity|exact Hn].
Qed.

(** A column is detected unless it has no letter. *)
Lemma detect_column_total (headers : list str) (rows : list (list value)) (i : nat) :
  (i < length headers)%nat ->
  Forall (fun row => (i < length row)%nat) rows ->
  match get_column_letter (Z.of_nat i + 1) with
  | Ok _ => exists c, detect_column headers rows i = Ok c
  | Raise e => detect_column headers rows i = Raise e
  end.
Proof.
  intros Hh Hrows. unfold detect_column.
  destruct (get_column_letter (Z.of_nat i + 1)) as [l|e]; cbn [bind]; [|reflexivity].
  destruct (py_index_returns headers (Z.of_nat i) ltac:(lia)) as [h Hh'].
  rewrite Hh'. cbn [bind].
  destruct (map_result_returns (fun row => py_index row (Z.of_nat i)) rows) as [vals Hv].
  { intros row Hrow. rewrite Forall_forall in Hrows. specialize (Hrows row Hrow).
    apply py_index_returns. lia. }
  rewrite Hv. cbn [bind].
  destruct (scan_histogram_returns vals) as [t Ht]. rewrite Ht. cbn [bind].
  eexists. reflexivity.
Qed.

Lemma header_label_total (raw : option (list value)) (i : nat) :
  (exists h, header_label raw i = Ok h) \/
  header_label raw i = Raise ValueError /\ ~ 1 <= Z.of_nat i + 1 <= 18278.
Proof.
  assert (G : (exists h, (l <- get_column_letter (Z.of_nat i + 1) ;;
                          Ok (lit "Column_" ++ l)) = Ok h) \/
              (l <- get_column_letter (Z.of_nat i + 1) ;; Ok (lit "Column_" ++ l))
              = Raise ValueError /\ ~ 1 <= Z.of_nat i + 1 <= 18278).
  { destruct (get_column_letter_cases (Z.of_nat i + 1)) as [[_ [l Hl]]|[Hn Hr]].
    - left. rewrite Hl. eexists. reflexivity.
    - right. rewrite Hr. split; [reflexivity|exact Hn]. }
  unfold header_label. destruct raw as [[|h0 hs]|]; try exact G.
  destruct (nth_error (h0 :: hs) i) as [[| | | | | | |]|]; try exact G;
    left; eexists; reflexivity.
Qed.

(** A worksheet is processed unless it has more columns than letters go up
    to, and then the error is [ValueError]. *)
Lemma process_sheet_total (ws : worksheet) (name : str) (has_header : bool)
      (max_rows : option Z) :
  if Z.of_nat (list_max (map (@length value) ws)) <=? 18278
  then exists sheet, _process_sheet ws name has_header max_rows = Ok sheet
  else _process_sheet ws name has_header max_rows = Raise ValueError.
Proof.
  unfold _process_sheet. destruct ws as [|first rest].
  { cbn. eexists. reflexivity. }
  set (ws := first :: rest). set (nc := list_max (map (@length value) ws)).
  set (raw := if has_header then Some first else None).
  set (data := match max_rows with
               | Some n => slice_to n (if has_header then rest else ws)
               | None => if has_header then rest else ws
               end).
  assert (Hdata : Forall (fun row => length (normalize_row nc row) = nc) data).
  { apply Forall_forall. intros row Hrow. apply normalize_row_pads.
    apply length_le_list_max. apply (In_data_rows ws has_header max_rows). exact Hrow. }
  destruct (Z.of_nat nc <=? 18278) eqn:E.
  - apply Z.leb_le in E.
    destruct (map_result_returns (header_label raw) (seq 0 nc)) as [headers Hh].
    { intros i Hi. apply in_seq in Hi.
      destruct (header_label_total raw i) as [H|[_ H]]; [exact H|]. exfalso. lia. }
    rewrite Hh. cbn [bind].
    pose proof (map_result_length _ _ _ Hh) as Lh. rewrite length_seq in Lh.
    destruct (map_result_returns (detect_column headers (map (normalize_row nc) data))
                                 (seq 0 nc)) as [columns Hc].
    { intros i Hi. apply in_seq in Hi.
      pose proof (detect_column_total headers (map (normalize_row nc) data) i) as T.
      destruct (get_column_letter_cases (Z.of_nat i + 1)) as [[_ [l Hl]]|[Hn _]];
        [|exfalso; lia].
      rewrite Hl in T. apply T; [lia|].
      apply Forall_forall. intros row Hrow. apply in_map_iff in Hrow.
      destruct Hrow as (r & <- & Hr). rewrite Forall_forall in Hdata.
      rewrite (Hdata r Hr). lia. }
    rewrite Hc. cbn [bind]. eexists. reflexivity.
  - apply Z.leb_gt in E.
    destruct (map_result (header_label raw) (seq 0 nc)) as [headers|e] eqn:Hh; cbn [bind].
    + pose proof (map_result_length _ _ _ Hh) as Lh. rewrite length_seq in Lh.
      destruct (map_result (detect_column headers (map (normalize_row nc) data))
                           (seq 0 nc)) as [columns|e] eqn:Hc; cbn [bind].
      * exfalso.
        set (j := Z.to_nat 18278).
        assert (Hj : Z.of_nat j = 18278) by (unfold j; lia).
        assert (Hi : nth_error (seq 0 nc) j = Some j).
        { rewrite nth_error_nth' with (d := 0%nat) by (rewrite length_seq; lia).
          rewrite seq_nth by lia. reflexivity. }
        destruct (map_result_nth _ _ _ _ _ Hc Hi) as (c & Hd & _).
        pose proof (detect_column_total headers (map (normalize_row nc) data) j) as T.
        destruct (get_column_letter_cases (Z.of_nat j + 1)) as [[Hr _]|[_ Hr]]; [lia|].
        rewrite Hr in T. rewrite T in Hd; [discriminate Hd|lia|].
        apply Forall_forall. intros row Hrow. apply in_map_iff in Hrow.
        destruct Hrow as (r & <- & Hr'). rewrite Forall_forall in Hdata.
        rewrite (Hdata r Hr'). lia.
      * apply map_result_Raise in Hc. destruct Hc as (i & Hi & Hd). apply in_seq in Hi.
        pose proof (detect_column_total headers (map (normalize_row nc) data) i) as T.
        destruct (get_column_letter_cases (Z.of_nat i + 1)) as [[_ [l Hl]]|[_ Hr]].
        -- rewrite Hl in T. destruct T as [c Hc']; [lia| |congruence].
           apply Forall_forall. intros row Hrow. apply in_map_iff in Hrow.
           destruct Hrow as (r & <- & Hr). rewrite Forall_forall in Hdata.
           rewrite (Hdata r Hr). lia.
        -- rewrite Hr in T. rewrite T in Hd; [congruence|lia|].
           apply Forall_forall. intros row Hrow. apply in_map_iff in Hrow.
           destruct Hrow as (r & <- & Hr'). rewrite Forall_forall in Hdata.
           rewrite (Hdata r Hr'). lia.
    + apply map_result_Raise in Hh. destruct Hh as (i & _ & Hl).
      destruct (header_label_total raw i) as [[h H]|[H _]]; congruence.
Qed.

End ImporterTotal.

Lemma find_sheet_In (wb : workbook) (name : str) (ws : worksheet) :
  find_sheet wb name = Some ws -> In (name, ws) wb.
Proof.
  induction wb as [|[n w] wb IH]; cbn [find_sheet]; [discriminate|].
  destruct (str_eqb n name) eqn:E.
  - intros H. injection H as <-. apply str_eqb_eq in E. subst. left. reflexivity.
  - intros H. right. apply IH. exact H.
Qed.

Section ImportFileTotal.
Context {U : Unicode}.

(** X19. The importer returns for a workbook none of whose sheets has a row
    of more than 18278 cells, the number of columns that have letters.  Its
    only error is the [ValueError] of a column without letter: it raises
    nothing else, and only for a workbook with a sheet that has a row of more
    than 18278 cells. *)
Theorem import_file_total (now : str) (wb : workbook) (file_path : str)
        (sheet_names : option (list str)) (has_header : bool) (max_rows : option Z) :
  (Forall (fun sh => Z.of_nat (list_max (map (@length value) (snd sh))) <= 18278) wb ->
   exists ir, import_file now wb file_path sheet_names has_header max_rows = Ok ir) /\
  (forall e,
      import_file now wb file_path sheet_names has_header max_rows = Raise e ->
      e = ValueError /\
      Exists (fun sh => 18278 < Z.of_nat (list_max (map (@length value) (snd sh)))) wb).
Proof.
  split.
  - intros H. unfold import_file. apply for_each_returns.
    intros name s _. destruct (find_sheet wb name) as [ws|] eqn:F; [|eexists; reflexivity].
    apply find_sheet_In in F. rewrite Forall_forall in H. specialize (H _ F).
    cbn [snd] in H.
    pose proof (process_sheet_total ws name has_header max_rows) as T.
    apply Z.leb_le in H. rewrite H in T. destruct T as [sheet Hs].
    rewrite Hs. cbn [bind]. eexists. reflexivity.
  - unfold import_file. intros e H. apply for_each_Raise in H.
    destruct H as (name & s & _ & H).
    destruct (find_sheet wb name) as [ws|] eqn:F; [|discriminate H].
    apply find_sheet_In in F.
    pose proof (process_sheet_total ws name has_header max_rows) as T.
    destruct (Z.of_nat (list_max (map (@length value) ws)) <=? 18278) eqn:E.
    + destruct T as [sheet Hs]. rewrite Hs in H. discriminate H.
    + rewrite T in H. cbn [bind] in H. injection H as <-.
      split; [reflexivity|]. apply Exists_exists. exists (name, ws).
      split; [exact F|]. cbn [snd]. apply Z.leb_gt in E. exact E.
Qed.

End ImportFileTotal.

(** ** What the analyzer raises *)

Lemma not_negative_cases (f : float) :
  not_negative f <-> is_nan f = true \/ signed_as false f.
Proof.
  destruct f; cbn [not_negative is_nan signed_as]; split; intros H;
    try (right; exact H); try (left; reflexivity); try exact I;
    destruct H as [H|H]; try discriminate H; exact H.
Qed.

Lemma Z2F_nonzero (n : Z) : 1 <= n -> is_zero (Z2F n) = false.
Proof.
  intros H. destruct n as [|p|p]; try lia.
  unfold Z2F, binary_normalize, binary_round, shl_align.
  set (e' := fexp prec emax (Zpos (digits2_pos p) + 0)).
  assert (He : emin prec emax <= e') by (unfold e', fexp; lia).
  destruct (e' - 0) as [|d|d] eqn:E; apply binary_round_aux_nonzero; try lia;
    unfold emin, prec, emax; lia.
Qed.

Lemma fdiv_int_raises (x : float) (n : Z) (e : exn) :
  1 <= n -> fdiv_int x n = Raise e -> e = OverflowError.
Proof.
  intros Hn. unfold fdiv_int, float_of_int.
  destruct (is_infinite (Z2F n)); cbn [bind].
  - intros H. injection H as <-. reflexivity.
  - rewrite (Z2F_nonzero n Hn). discriminate.
Qed.

Lemma int_truediv_raises (a b : Z) (e : exn) :
  b <> 0 -> int_truediv a b = Raise e -> e = OverflowError.
Proof.
  intros Hb. unfold int_truediv.
  replace (b =? 0) with false by (symmetry; apply Z.eqb_neq; exact Hb).
  destruct (a =? 0); [discriminate|].
  destruct (is_infinite _); [|discriminate].
  intros H. injection H as <-. reflexivity.
Qed.

Lemma float_of_int_raises (n : Z) (e : exn) :
  float_of_int n = Raise e -> e = OverflowError.
Proof.
  unfold float_of_int. destruct (is_infinite _); [|discriminate].
  intros H. injection H as <-. reflexivity.
Qed.

Lemma fsquare_raises (x : float) (e : exn) : fsquare x = Raise e -> e = OverflowError.
Proof.
  unfold fsquare. destruct (_ && _); [|discriminate].
  intros H. injection H as <-. reflexivity.
Qed.

Lemma fsquare_not_negative (x y : float) : fsquare x = Ok y -> not_negative y.
Proof.
  unfold fsquare. destruct (_ && _); [discriminate|].
  intros H. injection H as <-.
  destruct x as [s|s| |s m e]; cbn [fmul SFmul not_negative]; unfold fmul; cbn [SFmul];
    try (destruct s; reflexivity); try exact I.
  apply not_negative_cases. right.
  replace (xorb s s) with false by (destruct s; reflexivity).
  apply binary_round_aux_signed. lia.
Qed.

Lemma fadd_not_negative (x y : float) :
  not_negative x -> not_negative y -> not_negative (fadd x y).
Proof.
  intros Hx Hy. apply not_negative_cases in Hx, Hy. apply not_negative_cases.
  destruct Hx as [Hx|Hx].
  { left. destruct x; try discriminate Hx. reflexivity. }
  destruct Hy as [Hy|Hy].
  { left. destruct y; try discriminate Hy. destruct x; reflexivity. }
  right. apply fadd_signed; assumption.
Qed.

Lemma fsum_not_negative (xs : list float) :
  Forall not_negative xs -> not_negative (fsum xs).
Proof.
  unfold fsum. intros H.
  assert (G : forall acc, not_negative acc -> not_negative (fold_left fadd xs acc)).
  { induction H as [|x xs Hx _ IH]; intros acc Hacc; cbn [fold_left]; [exact Hacc|].
    apply IH. apply fadd_not_negative; assumption. }
  apply G. reflexivity.
Qed.

Lemma fdiv_int_not_negative (x y : float) (n : Z) :
  not_negative x -> 1 <= n -> fdiv_int x n = Ok y -> not_negative y.
Proof.
  intros Hx Hn H. apply not_negative_cases in Hx. apply not_negative_cases.
  destruct Hx as [Hx|Hx].
  - left. destruct x; try discriminate Hx.
    unfold fdiv_int in H. destruct (float_of_int n) as [d|e]; cbn [bind] in H;
      [|discriminate H].
    destruct (is_zero d); [discriminate H|]. injection H as <-. reflexivity.
  - right. apply (fdiv_int_signed x y n); [exact Hx|lia|exact H].
Qed.

Lemma math_sqrt_returns (x : float) : not_negative x -> exists y, math_sqrt x = Ok y.
Proof.
  intros H. destruct x as [s|s| |s m e]; cbn [not_negative] in H; try subst s;
    eexists; reflexivity.
Qed.

Section AnalyzerRaises.
Context {U : Unicode}.

Lemma coercible_raises (values : list value) (e : exn) :
  coercible values = Raise e -> e = OverflowError.
Proof.
  unfold coercible. intros H. apply bind_Raise in H.
  destruct H as [H|(l & _ & H)]; [|discriminate H].
  apply map_result_Raise in H. destruct H as (v & _ & Hv).
  apply to_numeric_overflow in Hv. tauto.
Qed.

Lemma numeric_stats_raises (stats : ColumnStats.t) (values : list value) (e : exn) :
  _compute_numeric_stats stats values = Raise e -> e = OverflowError.
Proof.
  unfold _compute_numeric_stats. intros H.
  apply bind_Raise in H. destruct H as [H|(nums & _ & H)];
    [apply coercible_raises in H; exact H|].
  destruct nums as [|x0 nums']; [discriminate H|].
  set (nums := x0 :: nums') in *.
  assert (Hlen : 1 <= Z.of_nat (length nums)) by (unfold nums; cbn [length]; lia).
  pose proof (sorted_length flt nums) as Hs.
  set (S := sorted flt nums) in *.
  assert (HS : S <> []).
  { intros E. rewrite E in Hs. cbn [length] in Hs. lia. }
  destruct (py_index_ends S HS) as (a & rest & init & b & _ & _ & P1 & P2).
  rewrite P1, P2 in H. cbn [bind] in H.
  apply bind_Raise in H. destruct H as [H|(mean & _ & H)];
    [apply fdiv_int_raises in H; [exact H|lia]|].
  apply bind_Raise in H. destruct H as [H|(med & _ & H)].
  { destruct (_ =? 1) eqn:Em.
    - destruct (py_index_returns S (Z.of_nat (length S) / 2)) as [x Hx].
      { rewrite Hs. Z.to_euclidean_division_equations. lia. }
      rewrite Hx in H. discriminate H.
    - apply Z.eqb_neq in Em.
      destruct (py_index_returns S (Z.of_nat (length S) / 2 - 1)) as [y Hy].
      { rewrite Hs in *. Z.to_euclidean_division_equations. lia. }
      destruct (py_index_returns S (Z.of_nat (length S) / 2)) as [x Hx].
      { rewrite Hs. Z.to_euclidean_division_equations. lia. }
      rewrite Hy, Hx in H. cbn [bind] in H.
      apply fdiv_int_raises in H; [exact H|lia]. }
  apply bind_Raise in H. destruct H as [H|(sd & _ & H)].
  { destruct (1 <? _) eqn:E1; [|discriminate H]. apply Z.ltb_lt in E1.
    apply bind_Raise in H. destruct H as [H|(squares & Hsq & H)].
    { apply map_result_Raise in H. destruct H as (x & _ & Hx).
      apply fsquare_raises in Hx. exact Hx. }
    apply bind_Raise in H. destruct H as [H|(variance & Hvar & H)];
      [apply fdiv_int_raises in H; [exact H|lia]|].
    exfalso.
    assert (Hnn : not_negative variance).
    { eapply fdiv_int_not_negative; [| |exact Hvar]; [|lia].
      apply fsum_not_negative.
      apply (map_result_Forall _ not_negative _ _
               (fun x y _ Hy => fsquare_not_negative (fsub x mean) y Hy) Hsq). }
    destruct (math_sqrt_returns variance Hnn) as [y Hy]. rewrite Hy in H.
    discriminate H. }
  destruct (4 <=? _) eqn:E4; [|discriminate H]. apply Z.leb_le in E4.
  apply bind_Raise in H. destruct H as [H|(q & _ & H)]; [|discriminate H].
  exfalso. unfold quartiles in H.
  destruct (py_index_returns S (Z.of_nat (length S) / 4)) as [x Hx].
  { rewrite Hs. Z.to_euclidean_division_equations. lia. }
  destruct (py_index_returns S (3 * Z.of_nat (length S) / 4)) as [y Hy].
  { rewrite Hs. Z.to_euclidean_division_equations. lia. }
  rewrite Hx, Hy in H. discriminate H.
Qed.

Lemma text_stats_raises (stats : ColumnStats.t) (values : list value) (e : exn) :
  _compute_text_stats stats values = Raise e -> e = OverflowError.
Proof.
  unfold _compute_text_stats. destruct (text_lengths values) as [|l ls]; [discriminate|].
  intros H. apply bind_Raise in H. destruct H as [H|(avg & _ & H)]; [|discriminate H].
  apply int_truediv_raises in H; [exact H|]. cbn [length]. lia.
Qed.

Lemma date_stats_returns (stats : ColumnStats.t) (values : list value) :
  exists stats', _compute_date_stats stats values = Ok stats'.
Proof.
  unfold _compute_date_stats.
  destruct (somes (map _to_date_sortable values)) as [|d ds] eqn:E;
    [eexists; reflexivity|].
  assert (Hne : d :: ds <> []) by discriminate.
  destruct (sorted_dates_ends _ Hne) as (first & last & P1 & P2 & _).
  rewrite P1, P2. cbn [bind]. eexists. reflexivity.
Qed.

Lemma analyze_column_raises (col_info : ColumnInfo.t) (values : list value) (e : exn) :
  _analyze_column col_info values = Raise e -> e = OverflowError.
Proof.
  unfold _analyze_column. intros H.
  apply bind_Raise in H. destruct H as [H|(compl & _ & H)].
  { destruct (0 <? _) eqn:E0; [|discriminate H]. apply Z.ltb_lt in E0.
    apply bind_Raise in H. destruct H as [H|(q & _ & H)]; [|discriminate H].
    apply int_truediv_raises in H; [exact H|lia]. }
  destruct (numeric_family _); [apply numeric_stats_raises in H; exact H|].
  destruct (text_family _); [apply text_stats_raises in H; exact H|].
  destruct (DataType_eqb _ _); [discriminate H|].
  destruct (date_family _); [|discriminate H].
  match type of H with
  | _compute_date_stats ?s ?v = _ => destruct (date_stats_returns s v) as [st Hst]
  end.
  rewrite Hst in H. discriminate H.
Qed.

Lemma to_float_raises (a : num) (e : exn) : to_float a = Raise e -> e = OverflowError.
Proof. destruct a; cbn [to_float]; [apply float_of_int_raises|discriminate]. Qed.

Lemma num_sub_raises (a b : num) (e : exn) : num_sub a b = Raise e -> e = OverflowError.
Proof.
  destruct a, b; cbn [num_sub]; intros H; try discriminate H;
    (apply bind_Raise in H; destruct H as [H|(x & _ & H)];
     [apply to_float_raises in H; exact H|];
     apply bind_Raise in H; destruct H as [H|(y & _ & H)];
     [apply to_float_raises in H; exact H|discriminate H]).
Qed.

Lemma num_add_raises (a b : num) (e : exn) : num_add a b = Raise e -> e = OverflowError.
Proof.
  destruct a, b; cbn [num_add]; intros H; try discriminate H;
    (apply bind_Raise in H; destruct H as [H|(x & _ & H)];
     [apply to_float_raises in H; exact H|];
     apply bind_Raise in H; destruct H as [H|(y & _ & H)];
     [apply to_float_raises in H; exact H|discriminate H]).
Qed.

Lemma quality_score_raises (scores : list float) (dups rows : Z) (e : exn) :
  quality_score scores dups rows = Raise e -> e = OverflowError.
Proof.
  unfold quality_score. destruct scores as [|c cs]; [discriminate|].
  intros H. apply bind_Raise in H. destruct H as [H|(avg & _ & H)].
  { apply fdiv_int_raises in H; [exact H|]. cbn [length]. lia. }
  apply bind_Raise in H. destruct H as [H|(q & _ & H)].
  { apply int_truediv_raises in H; [exact H|lia]. }
  apply bind_Raise in H. destruct H as [H|(d & _ & H)]; [|discriminate H].
  apply num_sub_raises in H. exact H.
Qed.

(** A sheet whose rows have a cell for every column is analyzed, or the
    analysis raises [OverflowError]. *)
Lemma analyze_sheet_raises (sheet : SheetData.t) (e : exn) :
  Forall (fun c => Forall (fun row => 0 <= ColumnInfo.index c < Z.of_nat (length row))
                          (SheetData.rows sheet))
         (SheetData.columns sheet) ->
  _analyze_sheet sheet = Raise e -> e = OverflowError.
Proof.
  intros Hwf. unfold _analyze_sheet. intros H.
  apply bind_Raise in H. destruct H as [H|(stats & _ & H)].
  { apply map_result_Raise in H. destruct H as (c & Hc & H).
    apply bind_Raise in H. destruct H as [H|(vals & _ & H)];
      [|apply analyze_column_raises in H; exact H].
    exfalso. apply map_result_Raise in H. destruct H as (row & Hrow & H).
    rewrite Forall_forall in Hwf. specialize (Hwf c Hc).
    rewrite Forall_forall in Hwf. specialize (Hwf row Hrow).
    destruct (py_index_returns row (ColumnInfo.index c) Hwf) as [x Hx].
    rewrite Hx in H. discriminate H. }
  apply bind_Raise in H. destruct H as [H|(score & _ & H)]; [|discriminate H].
  apply quality_score_raises in H. exact H.
Qed.

Lemma py_sum_raises (xs : list num) (e : exn) : py_sum xs = Raise e -> e = OverflowError.
Proof.
  unfold py_sum. intros H. apply for_each_Raise in H.
  destruct H as (x & s & _ & H). apply num_add_raises in H. exact H.
Qed.

Lemma num_truediv_raises (a : num) (n : Z) (e : exn) :
  1 <= n -> num_truediv a (Int n) = Raise e -> e = OverflowError.
Proof.
  intros Hn. destruct a as [x|f]; cbn [num_truediv to_float bind].
  - apply int_truediv_raises. lia.
  - intros H. unfold float_of_int in H.
    destruct (is_infinite (Z2F n)); cbn [bind] in H;
      [injection H as <-; reflexivity|].
    rewrite (Z2F_nonzero n Hn) in H. discriminate H.
Qed.

Lemma analyze_raises_cases (now : str) (ir : ImportResult.t) (e : exn) :
  Forall (fun sheet =>
            Forall (fun c => Forall (fun row => 0 <= ColumnInfo.index c
                                                < Z.of_nat (length row))
                                    (SheetData.rows sheet))
                   (SheetData.columns sheet))
         (ImportResult.sheets ir) ->
  analyze now ir = Raise e -> e = OverflowError.
Proof.
  intros Hwf. unfold analyze. intros H.
  apply bind_Raise in H. destruct H as [H|(sheets & Hs & H)].
  { apply map_result_Raise in H. destruct H as (sheet & Hsheet & H).
    rewrite Forall_forall in Hwf.
    apply (analyze_sheet_raises sheet e (Hwf sheet Hsheet) H). }
  apply bind_Raise in H. destruct H as [H|(overall & _ & H)]; [|discriminate H].
  destruct (map SheetAnalysis.data_quality_score sheets) as [|q qs] eqn:E;
    [discriminate H|].
  apply bind_Raise in H. destruct H as [H|(total & _ & H)];
    [apply py_sum_raises in H; exact H|].
  apply num_truediv_raises in H; [exact H|]. cbn [length]. lia.
Qed.

(** X20. The analysis of an imported workbook returns or raises
    [OverflowError]: no division by zero, no index out of range and no
    square root of a negative number occurs. *)
Theorem analyze_imported_only_overflows (now : str) (wb : workbook) (file_path : str)
        (sheet_names : option (list str)) (has_header : bool) (max_rows : option Z)
        (ir : ImportResult.t) (now' : str) (e : exn) :
  import_file now wb file_path sheet_names has_header max_rows = Ok ir ->
  analyze now' ir = Raise e ->
  e = OverflowError.
Proof.
  intros Hi. apply analyze_raises_cases.
  apply Forall_forall. intros sheet Hsheet.
  destruct (import_sheets_processed _ _ _ _ _ _ _ _ Hi Hsheet) as (ws & _ & P).
  destruct (process_sheet_columns _ _ _ _ _ P) as (_ & Hcc & _ & _ & Hcols).
  destruct (process_sheet_rows _ _ _ _ _ P) as (_ & _ & _ & Hrows).
  apply Forall_forall. intros c Hc. apply In_nth_error in Hc. destruct Hc as [i Hc].
  assert (Hi' : (i < length (SheetData.columns sheet))%nat)
    by (apply nth_error_Some; congruence).
  apply Hcols, detect_column_fields in Hc. destruct Hc as (Hidx & _).
  eapply Forall_impl; [|exact Hrows]. intros row Hrow. cbv beta in Hrow. lia.
Qed.

End AnalyzerRaises.

(** ** Serializing an analysis *)

Lemma column_to_dict_returns (st : ColumnStats.t) :
  (ColumnStats.data_type st = BOOLEAN ->
   0 <= ColumnStats.true_count st <= ColumnStats.non_empty_count st) ->
  exists d, ColumnStats.to_dict st = Ok d.
Proof.
  intros Hb.
  destruct st as [h dt tot ne em un co mn mx sm me md sd ml xl al tv ea la tc fc du ho oc].
  cbn [ColumnStats.data_type ColumnStats.true_count ColumnStats.non_empty_count] in Hb.
  destruct dt;
    cbv beta iota zeta delta [ColumnStats.to_dict ColumnStats.data_type];
    try (cbn [bind]; eexists; reflexivity).
  specialize (Hb eq_refl).
  cbn [ColumnStats.non_empty_count ColumnStats.true_count].
  destruct (0 <? ne) eqn:E0; cbn [bind]; [|eexists; reflexivity].
  apply Z.ltb_lt in E0.
  destruct (int_truediv_fraction tc ne Hb E0) as [q Hq].
  rewrite Hq. cbn [bind]. eexists. reflexivity.
Qed.

Section Serialization.
Context {U : Unicode}.

(** X21. The analysis of an imported workbook can be serialized:
    [AnalysisResult.to_dict], which calls [to_dict] on every sheet and every
    column, returns. *)
Theorem analysis_serializes (now : str) (wb : workbook) (file_path : str)
        (sheet_names : option (list str)) (has_header : bool) (max_rows : option Z)
        (ir : ImportResult.t) (now' : str) (ar : AnalysisResult.t) :
  import_file now wb file_path sheet_names has_header max_rows = Ok ir ->
  analyze now' ir = Ok ar ->
  exists d, AnalysisResult_to_dict ar = Ok d.
Proof.
  intros Hi Ha. unfold AnalysisResult_to_dict.
  destruct (map_result_returns SheetAnalysis_to_dict (AnalysisResult.sheets ar))
    as [sheets Hs]; [|rewrite Hs; cbn [bind]; eexists; reflexivity].
  intros sa Hsa. unfold SheetAnalysis_to_dict.
  destruct (map_result_returns ColumnStats.to_dict (SheetAnalysis.column_stats sa))
    as [cols Hc]; [|rewrite Hc; cbn [bind]; eexists; reflexivity].
  intros st Hst. apply In_nth_error in Hst. destruct Hst as [j Hst].
  apply column_to_dict_returns. intros Hb.
  destruct (analysis_of_import_column _ _ _ _ _ _ _ _ _ _ _ _ Hi Ha Hsa Hst)
    as (sheet & c & Hsheet & _ & Hc & Hcol).
  destruct (import_sheets_processed _ _ _ _ _ _ _ _ Hi Hsheet) as (ws & _ & P).
  destruct (process_sheet_columns _ _ _ _ _ P) as (_ & _ & _ & _ & Hcols).
  apply Hcols, detect_column_fields in Hc.
  destruct Hc as (_ & _ & _ & _ & _ & Hn & _).
  set (cells := column_cells (SheetData.rows sheet) j) in *.
  destruct (scan_fold cells scan_init) as (_ & Fn & _).
  cbn [scan_init scan_non_empty] in Fn. rewrite Fn in Hn. clear Fn.
  rewrite non_empty_cells_not_blank in Hn.
  pose proof (analyze_column_base _ _ _ Hcol) as (_ & Bdt & _ & Bn & _).
  rewrite Bn, Hn. rewrite Bdt in Hb.
  apply analyze_column_cases in Hcol.
  destruct Hcol as (base & _ & _ & Bb & _ & Hcase).
  rewrite Hb in Hcase. cbn [numeric_family text_family] in Hcase.
  change (DataType_eqb BOOLEAN BOOLEAN) with true in Hcase. cbv iota in Hcase.
  subst st.
  destruct (boolean_stats_counts cells base) as [Tc _]. rewrite Tc.
  unfold boolean_fields in Bb.
  cbn [ColumnStats.init ColumnStats.true_count ColumnStats.false_count] in Bb.
  injection Bb as -> _.
  pose proof (filter_partition_length _is_truthy (filter not_blank cells)) as Hpart.
  lia.
Qed.

End Serialization.

(** ** The least and the greatest number of a column, and the row limit *)

Section NumericOrder.
Context {U : Unicode}.

(** X22. Least and greatest value.  When [_compute_numeric_stats] returns
    for a column with coercible values none of which is a NaN, [min_val] and
    [max_val] are two of these values, and no value is less than [min_val]
    or greater than [max_val]. *)
Theorem numeric_stats_order (stats stats' : ColumnStats.t) (values : list value)
        (nums : list float) :
  _compute_numeric_stats stats values = Ok stats' ->
  coercible values = Ok nums ->
  nums <> [] ->
  Forall (fun x => is_nan x = false) nums ->
  exists mn mx,
    ColumnStats.min_val stats' = Some mn /\
    ColumnStats.max_val stats' = Some mx /\
    In mn nums /\ In mx nums /\
    (forall x, In x nums -> flt x mn = false /\ flt mx x = false).
Proof.
  intros H Hnums Hne Hnan.
  destruct (sorted_ends flt (fun x => is_nan x = false) nums
                        flt_asym flt_not_after_trans Hnan Hne)
    as (mn & mx & P1 & P2 & I1 & I2 & Hall).
  exists mn, mx.
  unfold _compute_numeric_stats in H. rewrite Hnums in H. cbn [bind] in H.
  destruct nums as [|x0 nums']; [congruence|].
  rewrite P1, P2 in H. cbn [bind] in H.
  bind_named H mean Hmean. bind_named H med Hmed. bind_named H sd Hsd.
  destruct (4 <=? _).
  - bind_named H q Hq. injection H as <-.
    split; [reflexivity|]. split; [reflexivity|]. split; [exact I1|].
    split; [exact I2|exact Hall].
  - injection H as <-.
    split; [reflexivity|]. split; [reflexivity|]. split; [exact I1|].
    split; [exact I2|exact Hall].
Qed.

(** X23. The row limit.  A sheet of an import result stores the first
    [max_rows] data rows of its worksheet, all of them without a limit; a
    negative limit is not refused but leaves out that many rows at the end. *)
Theorem import_row_limit (now : str) (wb : workbook) (file_path : str)
        (sheet_names : option (list str)) (has_header : bool) (max_rows : option Z)
        (ir : ImportResult.t) (sheet : SheetData.t) :
  import_file now wb file_path sheet_names has_header max_rows = Ok ir ->
  In sheet (ImportResult.sheets ir) ->
  exists ws,
    find_sheet wb (SheetData.name sheet) = Some ws /\
    SheetData.row_count sheet
    = match max_rows with
      | None => Z.of_nat (length (if has_header then tl ws else ws))
      | Some n =>
          if 0 <=? n
          then Z.min n (Z.of_nat (length (if has_header then tl ws else ws)))
          else Z.max 0 (Z.of_nat (length (if has_header then tl ws else ws)) + n)
      end.
Proof.
  intros H Hin. destruct (import_sheets_processed _ _ _ _ _ _ _ _ H Hin) as (ws & F & P).
  exists ws. split; [exact F|].
  destruct (process_sheet_columns _ _ _ _ _ P) as (Hr & _).
  destruct (process_sheet_rows _ _ _ _ _ P) as (_ & _ & Hrows & _).
  rewrite Hr, Hrows, length_map. unfold data_rows_of.
  destruct max_rows as [n|]; [|reflexivity].
  unfold slice_to. destruct (0 <=? n) eqn:E; rewrite length_firstn.
  - apply Z.leb_le in E. lia.
  - apply Z.leb_gt in E. lia.
Qed.

End NumericOrder.

(** * The theorems at concrete inputs *)

#[local] Existing Instance ascii_only.

(** "1234567", with a space on either side, is a phone number for the
    classifier, although the two rules after that of phone numbers, for
    integers and for floats, hold of it as well. *)
Lemma classifier_precedence_witness :
  @strip ascii_only (lit " 1234567 ") <> [] /\
  @string_rules ascii_only
  = firstn 5 string_rules ++ (re_match PHONE_PATTERN, PHONE) :: skipn 6 string_rules /\
  Forall (fun q => fst q (@strip ascii_only (lit " 1234567 ")) = false)
         (firstn 5 (@string_rules ascii_only)) /\
  Forall (fun q => fst q (@strip ascii_only (lit " 1234567 ")) = true)
         (skipn 5 (@string_rules ascii_only)) /\
  @_detect_cell_type ascii_only (VStr (lit " 1234567 ")) = PHONE /\
  @_detect_cell_type ascii_only (VStr (lit " " ++ lit "TrUe" ++ [10%N])) = BOOLEAN.
Proof.
  assert (H1 : @strip ascii_only (lit " 1234567 ") <> [])
    by (vm_compute; discriminate).
  assert (H2 : @string_rules ascii_only
               = firstn 5 string_rules
                        ++ (re_match PHONE_PATTERN, PHONE) :: skipn 6 string_rules)
    by reflexivity.
  assert (H3 : Forall (fun q => fst q (@strip ascii_only (lit " 1234567 ")) = false)
                      (firstn 5 (@string_rules ascii_only)))
    by (repeat (constructor; [vm_compute; reflexivity|]); constructor).
  assert (H4 : Forall (fun q => fst q (@strip ascii_only (lit " 1234567 ")) = true)
                      (skipn 5 (@string_rules ascii_only)))
    by (repeat (constructor; [vm_compute; reflexivity|]); constructor).
  assert (H5 : re_match (@PHONE_PATTERN ascii_only)
                        (@strip ascii_only (lit " 1234567 ")) = true)
    by (vm_compute; reflexivity).
  assert (H6 : Forall (fun c => @isspace ascii_only c = true) (lit " "))
    by (repeat constructor).
  assert (H7 : Forall (fun c => @isspace ascii_only c = true) [10%N])
    by (repeat constructor).
  assert (H8 : map ascii_lower (lit "TrUe") = lit "true") by reflexivity.
  destruct (@classifier_precedence ascii_only _ _ _ _ _ _ _ _ H1 H2 H3 H5 H6 H7 H8)
    as (K1 & _ & _ & K4).
  repeat split; assumption.
Defined.

(** The rows of [ragged_book], read with at most two data rows: four
    columns, for the fourth row has four cells, and two rows of four cells. *)
Lemma import_rectangular_witness :
  exists ir,
    @import_file ascii_only (lit "t0") ragged_book (lit "ragged.xlsx") None true (Some 2)
    = Ok ir /\
    rectangular ir /\
    map SheetData.col_count (ImportResult.sheets ir) = [4] /\
    map SheetData.rows (ImportResult.sheets ir)
    = [[[VInt 1; VNone; VNone; VNone]; [VInt 2; VInt 3; VNone; VNone]]].
Proof.
  eexists. split; [vm_compute; reflexivity|].
  split.
  - refine (proj1 (@import_rectangular ascii_only (lit "t0") ragged_book
                     (lit "ragged.xlsx") None true (Some 2) _ _)).
    vm_compute. reflexivity.
  - split; vm_compute; reflexivity.
Defined.

(** The labels of [short_header_sheet]: the text of the first header cell,
    and [Column_B] and [Column_C] for the two cells that there are not. *)
Lemma header_labels_witness :
  exists sheet,
    @_process_sheet ascii_only short_header_sheet (lit "People") true None = Ok sheet /\
    length (SheetData.headers sheet) = 3%nat /\
    nth_error (SheetData.headers sheet) 0 = Some (lit "Name") /\
    nth_error (SheetData.headers sheet) 1 = Some (lit "Column_B") /\
    nth_error (SheetData.headers sheet) 2 = Some (lit "Column_C").
Proof.
  eexists. split; [vm_compute; reflexivity|].
  match goal with
  | |- length (SheetData.headers ?sheet) = _ /\ _ =>
      assert (H : @_process_sheet ascii_only
                    ([VStr (lit "Name"); VNone] :: [[VStr (lit "Ann"); VInt 30; VInt 7]])
                    (lit "People") true None = Ok sheet)
        by (vm_compute; reflexivity)
  end.
  destruct (@header_labels ascii_only _ _ _ _ _ H) as (Hlen & Hnth & _).
  split; [exact Hlen|].
  destruct (Hnth 0%nat ltac:(simpl; lia)) as (l0 & _ & H0).
  destruct (Hnth 1%nat ltac:(simpl; lia)) as (l1 & E1 & H1).
  destruct (Hnth 2%nat ltac:(simpl; lia)) as (l2 & E2 & H2).
  vm_compute in E1. injection E1 as <-.
  vm_compute in E2. injection E2 as <-.
  split; [exact H0|]. split; [exact H1|exact H2].
Defined.

(** "50%" is coerced to 50.0. *)
Lemma percent_face_value_witness :
  lit "50" <> [] /\
  Forall (fun c => d09 c = true) (lit "50") /\
  digits_value (lit "50") = 50 /\
  @_to_numeric ascii_only (VStr (lit "50" ++ lit "%")) = Ok (Some (Z2F 50)) /\
  compare_int_float 50 (Z2F 50) = Some Eq.
Proof.
  assert (H1 : lit "50" <> []) by discriminate.
  assert (H2 : Forall (fun c => d09 c = true) (lit "50")) by (repeat constructor).
  destruct (@percent_face_value ascii_only (lit "50") H1 H2) as (K1 & K2 & _).
  split; [exact H1|]. split; [exact H2|]. split; [reflexivity|].
  split; [exact K1|].
  apply K2. reflexivity.
Defined.


(** The sheet [duplicate_sheet]: complete, with one duplicate row among
    three; a third of a hundred is above the cap of the penalty, and the
    score is 70. *)
Lemma quality_score_formula_witness :
  exists analysis,
    @_analyze_sheet ascii_only duplicate_sheet = Ok analysis /\
    SheetData.columns duplicate_sheet <> [] /\
    Forall (fun c => 0 <= ColumnInfo.non_empty_count c) (SheetData.columns duplicate_sheet) /\
    SheetAnalysis.duplicate_rows analysis = 1 /\
    num_eq (SheetAnalysis.data_quality_score analysis)
           (py_max (Int 0) (Float (Z2F 70))) = true /\
    num_lt (SheetAnalysis.data_quality_score analysis) (Int 0) = false.
Proof.
  eexists. split; [vm_compute; reflexivity|].
  match goal with
  | |- _ /\ _ /\ SheetAnalysis.duplicate_rows ?analysis = _ /\ _ =>
      assert (H1 : @_analyze_sheet ascii_only duplicate_sheet = Ok analysis)
        by (vm_compute; reflexivity)
  end.
  assert (H2 : SheetData.columns duplicate_sheet <> []) by discriminate.
  assert (H3 : Forall (fun c => 0 <= ColumnInfo.non_empty_count c)
                      (SheetData.columns duplicate_sheet))
    by (repeat constructor; simpl; lia).
  destruct (@quality_score_formula ascii_only _ _ H1 H2 H3)
    as (avg & q & d & Havg & Hq & Hd & _ & Heq & _ & Hge).
  split; [exact H2|]. split; [exact H3|].
  split; [reflexivity|].
  split; [|exact Hge].
  vm_compute in Havg. injection Havg as <-.
  vm_compute in Hq. injection Hq as <-.
  vm_compute in Hd. injection Hd as <-.
  exact Heq.
Defined.

(** " Yes " is a Boolean string, and a true one. *)
Lemma boolean_strings_witness :
  @_detect_cell_type ascii_only (VStr (lit " Yes ")) = BOOLEAN /\
  @_is_truthy ascii_only (VStr (lit " Yes ")) = true.
Proof.
  assert (H : @_detect_cell_type ascii_only (VStr (lit " Yes ")) = BOOLEAN)
    by (vm_compute; reflexivity).
  destruct (@boolean_strings ascii_only _ H) as (_ & K & _).
  split; [exact H|]. apply K. right. vm_compute. reflexivity.
Defined.

(** The integer 2^1024 has no float. *)
Lemma to_numeric_raises_witness :
  @_to_numeric ascii_only (VInt (2 ^ 1024)) = Raise OverflowError /\
  2 ^ 53 <= Z.abs (2 ^ 1024).
Proof.
  assert (H : @_to_numeric ascii_only (VInt (2 ^ 1024)) = Raise OverflowError)
    by (vm_compute; reflexivity).
  destruct (@to_numeric_raises ascii_only _ _ H) as (_ & n & E & Hn).
  injection E as <-. split; [exact H|exact Hn].
Defined.

(** -100 is converted exactly. *)
Lemma to_numeric_small_int_witness :
  Z.abs (-100) < 2 ^ 53 /\
  @_to_numeric ascii_only (VInt (-100)) = Ok (Some (Z2F (-100))) /\
  compare_int_float (-100) (Z2F (-100)) = Some Eq.
Proof.
  assert (H : Z.abs (-100) < 2 ^ 53) by (vm_compute; reflexivity).
  split; [exact H|]. apply (@to_numeric_small_int ascii_only (-100) H).
Defined.

(** Three integers and a text: no type has four fifths of the cells, and
    the column is Mixed. *)
Lemma resolved_type_present_witness :
  _resolve_column_type (histogram [(INTEGER, 3); (TEXT, 1)]) = Ok MIXED /\
  without_empty (histogram [(INTEGER, 3); (TEXT, 1)]) <> [].
Proof.
  assert (H : _resolve_column_type (histogram [(INTEGER, 3); (TEXT, 1)]) = Ok MIXED)
    by (vm_compute; reflexivity).
  destruct (resolved_type_present _ _ H) as (K & _).
  split; [exact H|]. intros E. apply K in E. discriminate E.
Defined.

(** Of the requested sheets Other and People, the workbook has the second. *)
Lemma import_selects_sheets_witness :
  exists ir,
    @import_file ascii_only (lit "t0") people_book (lit "people.xlsx")
                 (Some [lit "Other"; lit "People"]) true None = Ok ir /\
    map SheetData.name (ImportResult.sheets ir) = [lit "People"] /\
    ImportResult.total_rows ir = 3 /\
    ImportResult.total_columns ir = 4.
Proof.
  eexists. split; [vm_compute; reflexivity|].
  match goal with
  | |- map SheetData.name (ImportResult.sheets ?ir) = _ /\ _ =>
      assert (H : @import_file ascii_only (lit "t0") people_book (lit "people.xlsx")
                               (Some [lit "Other"; lit "People"]) true None = Ok ir)
        by (vm_compute; reflexivity)
  end.
  destruct (@import_selects_sheets ascii_only _ _ _ _ _ _ _ H) as (K1 & K2 & K3 & _).
  split; [rewrite K1; vm_compute; reflexivity|].
  split; [rewrite K2|rewrite K3]; vm_compute; reflexivity.
Defined.

(** The file name of a path with both separators. *)
Lemma import_file_name_witness :
  exists ir,
    @import_file ascii_only (lit "t0") people_book (lit "C:\data/in\people.xlsx")
                 None true None = Ok ir /\
    ImportResult.file_name ir = lit "people.xlsx" /\
    ~ In 47%N (ImportResult.file_name ir) /\
    ~ In 92%N (ImportResult.file_name ir).
Proof.
  eexists. split; [vm_compute; reflexivity|].
  match goal with
  | |- ImportResult.file_name ?ir = _ /\ _ =>
      assert (H : @import_file ascii_only (lit "t0") people_book
                               (lit "C:\data/in\people.xlsx") None true None = Ok ir)
        by (vm_compute; reflexivity)
  end.
  destruct (@import_file_name ascii_only _ _ _ _ _ _ _ H) as (K1 & K2 & _).
  split; [vm_compute; reflexivity|]. split; [exact K1|exact K2].
Defined.

(** The sheet of [people_book]: three rows, four columns, and the third
    column is column C with the header Joined. *)
Lemma import_sheet_shape_witness :
  exists ir sheet c,
    @import_file ascii_only (lit "t0") people_book (lit "people.xlsx") None true None
    = Ok ir /\
    In sheet (ImportResult.sheets ir) /\
    nth_error (SheetData.columns sheet) 2 = Some c /\
    SheetData.row_count sheet = 3 /\
    ColumnInfo.index c = 2 /\
    get_column_letter 3 = Ok (ColumnInfo.letter c) /\
    nth_error (SheetData.headers sheet) 2 = Some (ColumnInfo.header c) /\
    ColumnInfo.total_count c = SheetData.row_count sheet.
Proof.
  eexists. eexists. eexists. split; [vm_compute; reflexivity|].
  split; [left; reflexivity|]. split; [vm_compute; reflexivity|].
  match goal with
  | |- SheetData.row_count ?sheet = _ /\ ColumnInfo.index ?c = _ /\ _ =>
      assert (H1 : exists ir,
                 @import_file ascii_only (lit "t0") people_book (lit "people.xlsx")
                              None true None = Ok ir /\
                 In sheet (ImportResult.sheets ir))
        by (eexists; split; [vm_compute; reflexivity|left; reflexivity]);
      assert (H2 : nth_error (SheetData.columns sheet) 2 = Some c)
        by (vm_compute; reflexivity)
  end.
  destruct H1 as (ir & H0 & H1).
  destruct (@import_sheet_shape ascii_only _ _ _ _ _ _ _ _ H0 H1) as (K1 & _ & _ & K4).
  split; [rewrite K1; vm_compute; reflexivity|].
  exact (K4 _ _ H2).
Defined.

(** The column Joined of [people_book]: two dates and an empty cell. *)
Lemma import_column_counts_witness :
  exists ir sheet c,
    @import_file ascii_only (lit "t0") people_book (lit "people.xlsx") None true None
    = Ok ir /\
    In sheet (ImportResult.sheets ir) /\
    nth_error (SheetData.columns sheet) 2 = Some c /\
    ColumnInfo.non_empty_count c = 2 /\
    ColumnInfo.empty_count c = 1 /\
    ColumnInfo.non_empty_count c + ColumnInfo.empty_count c = ColumnInfo.total_count c.
Proof.
  eexists. eexists. eexists. split; [vm_compute; reflexivity|].
  split; [left; reflexivity|]. split; [vm_compute; reflexivity|].
  match goal with
  | |- ColumnInfo.non_empty_count ?c = _ /\ _ =>
      match type of c with
      | _ => 
        assert (H : exists ir sheet,
                   @import_file ascii_only (lit "t0") people_book (lit "people.xlsx")
                                None true None = Ok ir /\
                   In sheet (ImportResult.sheets ir) /\
                   nth_error (SheetData.columns sheet) 2 = Some c)
          by (eexists; eexists; split; [vm_compute; reflexivity|];
              split; [left; reflexivity|vm_compute; reflexivity])
      end
  end.
  destruct H as (ir & sheet & H0 & H1 & H2).
  destruct (@import_column_counts ascii_only _ _ _ _ _ _ _ _ _ _ H0 H1 H2)
    as (K1 & K2 & K3 & _).
  split; [vm_compute; reflexivity|]. split; [vm_compute; reflexivity|exact K3].
Defined.

(** The histogram of the column Member of [people_book]: three Booleans. *)
Lemma import_type_counts_witness :
  exists ir sheet c,
    @import_file ascii_only (lit "t0") people_book (lit "people.xlsx") None true None
    = Ok ir /\
    In sheet (ImportResult.sheets ir) /\
    nth_error (SheetData.columns sheet) 1 = Some c /\
    ColumnInfo.type_counts c = [(type_value BOOLEAN, 3)] /\
    sum_Z (map snd (ColumnInfo.type_counts c)) = ColumnInfo.total_count c.
Proof.
  eexists. eexists. eexists. split; [vm_compute; reflexivity|].
  split; [left; reflexivity|]. split; [vm_compute; reflexivity|].
  match goal with
  | |- ColumnInfo.type_counts ?c = _ /\ _ =>
      assert (H : exists ir sheet,
                 @import_file ascii_only (lit "t0") people_book (lit "people.xlsx")
                              None true None = Ok ir /\
                 In sheet (ImportResult.sheets ir) /\
                 nth_error (SheetData.columns sheet) 1 = Some c)
        by (eexists; eexists; split; [vm_compute; reflexivity|];
            split; [left; reflexivity|vm_compute; reflexivity])
  end.
  destruct H as (ir & sheet & H0 & H1 & H2).
  destruct (@import_type_counts ascii_only _ _ _ _ _ _ _ _ _ _ H0 H1 H2)
    as (_ & _ & K3).
  split; [vm_compute; reflexivity|exact K3].
Defined.

(** The column Joined of [people_book] is a date column, and has a date. *)
Lemma import_detected_type_witness :
  exists ir sheet c,
    @import_file ascii_only (lit "t0") people_book (lit "people.xlsx") None true None
    = Ok ir /\
    In sheet (ImportResult.sheets ir) /\
    nth_error (SheetData.columns sheet) 2 = Some c /\
    ColumnInfo.detected_type c = DATE /\
    ColumnInfo.non_empty_count c <> 0.
Proof.
  eexists. eexists. eexists. split; [vm_compute; reflexivity|].
  split; [left; reflexivity|]. split; [vm_compute; reflexivity|].
  match goal with
  | |- ColumnInfo.detected_type ?c = _ /\ _ =>
      assert (H : exists ir sheet,
                 @import_file ascii_only (lit "t0") people_book (lit "people.xlsx")
                              None true None = Ok ir /\
                 In sheet (ImportResult.sheets ir) /\
                 nth_error (SheetData.columns sheet) 2 = Some c)
        by (eexists; eexists; split; [vm_compute; reflexivity|];
            split; [left; reflexivity|vm_compute; reflexivity])
  end.
  destruct H as (ir & sheet & H0 & H1 & H2).
  destruct (@import_detected_type ascii_only _ _ _ _ _ _ _ _ _ _ H0 H1 H2) as (K1 & _).
  split; [vm_compute; reflexivity|].
  intros E. apply K1 in E. vm_compute in E. discriminate E.
Defined.

(** The names Ann, Bob, Ann: one duplicate, and Ann comes first with two. *)
Lemma column_duplicates_and_top_witness :
  exists stats,
    @_analyze_column ascii_only column_of_names three_names = Ok stats /\
    ColumnStats.duplicate_count stats = 1 /\
    ColumnStats.top_values stats = [(lit "Ann", 2); (lit "Bob", 1)] /\
    NoDup (map fst (ColumnStats.top_values stats)).
Proof.
  eexists. split; [vm_compute; reflexivity|].
  match goal with
  | |- ColumnStats.duplicate_count ?stats = _ /\ _ =>
      assert (H : @_analyze_column ascii_only column_of_names three_names = Ok stats)
        by (vm_compute; reflexivity)
  end.
  destruct (@column_duplicates_and_top ascii_only _ _ _ H) as (_ & _ & K3 & _).
  split; [vm_compute; reflexivity|]. split; [vm_compute; reflexivity|exact K3].
Defined.

(** The column of names has text statistics and no others. *)
Lemma one_family_of_statistics_witness :
  exists stats,
    @_analyze_column ascii_only column_of_names three_names = Ok stats /\
    ColumnStats.min_length stats = Some 3 /\
    numeric_fields stats = (None, None, None, None, None, None, false, 0) /\
    boolean_fields stats = (0, 0) /\
    date_fields stats = (None, None).
Proof.
  eexists. split; [vm_compute; reflexivity|].
  match goal with
  | |- ColumnStats.min_length ?stats = _ /\ _ =>
      assert (H : @_analyze_column ascii_only column_of_names three_names = Ok stats)
        by (vm_compute; reflexivity)
  end.
  destruct (@one_family_of_statistics ascii_only _ _ _ H) as (K1 & _ & K3 & K4).
  split; [vm_compute; reflexivity|].
  split; [apply K1; reflexivity|].
  split; [apply K3; discriminate|apply K4; reflexivity].
Defined.

(** The lengths of "Ann", " Bobby " and a blank: 3 and 5. *)
Lemma text_stats_lengths_witness :
  exists stats',
    @_compute_text_stats ascii_only (ColumnStats.init (lit "Name") TEXT)
      [VStr (lit "Ann"); VStr (lit " Bobby "); VStr (lit "  ")] = Ok stats' /\
    ColumnStats.min_length stats' = Some 3 /\
    ColumnStats.max_length stats' = Some 5.
Proof.
  eexists. split; [vm_compute; reflexivity|].
  match goal with
  | |- ColumnStats.min_length ?stats' = _ /\ _ =>
      assert (H : @_compute_text_stats ascii_only (ColumnStats.init (lit "Name") TEXT)
                    [VStr (lit "Ann"); VStr (lit " Bobby "); VStr (lit "  ")] = Ok stats')
        by (vm_compute; reflexivity)
  end.
  pose proof (@text_stats_lengths ascii_only _ _ _ H) as K.
  split; vm_compute; reflexivity.
Defined.

(** The rows of [duplicate_sheet]: none empty, one duplicate. *)
Lemma sheet_row_counts_witness :
  exists sa,
    @_analyze_sheet ascii_only duplicate_sheet = Ok sa /\
    SheetAnalysis.completely_empty_rows sa = 0 /\
    SheetAnalysis.duplicate_rows sa = 1 /\
    0 <= SheetAnalysis.duplicate_rows sa.
Proof.
  eexists. split; [vm_compute; reflexivity|].
  match goal with
  | |- SheetAnalysis.completely_empty_rows ?sa = _ /\ _ =>
      assert (H : @_analyze_sheet ascii_only duplicate_sheet = Ok sa)
        by (vm_compute; reflexivity)
  end.
  destruct (@sheet_row_counts ascii_only _ _ H) as (K1 & K2 & K3 & _).
  split; [rewrite K1; vm_compute; reflexivity|].
  split; [rewrite K2; vm_compute; reflexivity|exact K3].
Defined.

(** The analysis of the import of [people_book] carries its file name and
    totals. *)
Lemma analysis_mirrors_import_witness :
  exists ir ar,
    @import_file ascii_only (lit "t0") people_book (lit "in/people.xlsx") None true None
    = Ok ir /\
    @analyze ascii_only (lit "t1") ir = Ok ar /\
    AnalysisResult.file_name ar = lit "people.xlsx" /\
    AnalysisResult.analysis_time ar = lit "t1" /\
    AnalysisResult.total_rows ar = 3 /\
    AnalysisResult.total_columns ar = 4.
Proof.
  eexists. eexists. split; [vm_compute; reflexivity|].
  split; [vm_compute; reflexivity|].
  match goal with
  | |- AnalysisResult.file_name ?ar = _ /\ _ =>
      assert (H : exists ir,
                 @import_file ascii_only (lit "t0") people_book (lit "in/people.xlsx")
                              None true None = Ok ir /\
                 @analyze ascii_only (lit "t1") ir = Ok ar)
        by (eexists; split; [vm_compute; reflexivity|vm_compute; reflexivity])
  end.
  destruct H as (ir & H0 & H1).
  destruct (@analysis_mirrors_import ascii_only _ _ _ H1) as (K1 & K2 & K3 & K4 & _).
  split; [rewrite K1; vm_compute in H0; injection H0 as <-; reflexivity|].
  split; [exact K2|].
  split; [rewrite K3|rewrite K4]; vm_compute in H0; injection H0 as <-; reflexivity.
Defined.

(** The Boolean column Member of [people_book], analyzed: two true and one
    false among three non-empty cells. *)
Lemma analyzed_import_column_witness :
  exists ir ar sa st,
    @import_file ascii_only (lit "t0") people_book (lit "people.xlsx") None true None
    = Ok ir /\
    @analyze ascii_only (lit "t1") ir = Ok ar /\
    In sa (AnalysisResult.sheets ar) /\
    nth_error (SheetAnalysis.column_stats sa) 1 = Some st /\
    ColumnStats.data_type st = BOOLEAN /\
    ColumnStats.true_count st = 2 /\
    ColumnStats.true_count st + ColumnStats.false_count st
    = ColumnStats.non_empty_count st.
Proof.
  eexists. eexists. eexists. eexists. split; [vm_compute; reflexivity|].
  split; [vm_compute; reflexivity|]. split; [left; reflexivity|].
  split; [vm_compute; reflexivity|].
  match goal with
  | |- ColumnStats.data_type ?st = _ /\ _ =>
      assert (H : exists ir ar sa,
                 @import_file ascii_only (lit "t0") people_book (lit "people.xlsx")
                              None true None = Ok ir /\
                 @analyze ascii_only (lit "t1") ir = Ok ar /\
                 In sa (AnalysisResult.sheets ar) /\
                 nth_error (SheetAnalysis.column_stats sa) 1 = Some st)
        by (eexists; eexists; eexists; split; [vm_compute; reflexivity|];
            split; [vm_compute; reflexivity|];
            split; [left; reflexivity|vm_compute; reflexivity])
  end.
  destruct H as (ir & ar & sa & H0 & H1 & H2 & H3).
  destruct (@analyzed_import_column ascii_only _ _ _ _ _ _ _ _ _ _ _ _ H0 H1 H2 H3)
    as (_ & _ & _ & _ & _ & K6 & _).
  split; [vm_compute; reflexivity|]. split; [vm_compute; reflexivity|].
  apply K6. vm_compute. reflexivity.
Defined.

(** [people_book] has rows of four cells, and is imported. *)
Lemma import_file_total_witness :
  exists ir,
    @import_file ascii_only (lit "t0") people_book (lit "people.xlsx") None true None
    = Ok ir.
Proof.
  apply (proj1 (@import_file_total ascii_only (lit "t0") people_book (lit "people.xlsx")
                                   None true None)).
  repeat constructor. vm_compute. discriminate.
Defined.

(** The import of [large_int_book] holds the integer 10^400, and its
    analysis raises [OverflowError]. *)
Lemma analyze_imported_only_overflows_witness :
  exists ir,
    @import_file ascii_only (lit "t0") large_int_book (lit "big.xlsx") None true None
    = Ok ir /\
    @analyze ascii_only (lit "t1") ir = Raise OverflowError.
Proof.
  eexists. split; [vm_compute; reflexivity|].
  match goal with
  | |- @analyze _ _ ?ir = _ =>
      assert (H0 : @import_file ascii_only (lit "t0") large_int_book (lit "big.xlsx")
                                None true None = Ok ir) by (vm_compute; reflexivity);
      destruct (@analyze ascii_only (lit "t1") ir) as [ar|e] eqn:H1
  end.
  - vm_compute in H1. discriminate H1.
  - rewrite (@analyze_imported_only_overflows ascii_only _ _ _ _ _ _ _ _ _ H0 H1).
    reflexivity.
Defined.

(** The analysis of the import of [people_book] is serialized. *)
Lemma analysis_serializes_witness :
  exists ir ar d,
    @import_file ascii_only (lit "t0") people_book (lit "people.xlsx") None true None
    = Ok ir /\
    @analyze ascii_only (lit "t1") ir = Ok ar /\
    AnalysisResult_to_dict ar = Ok d.
Proof.
  assert (H : exists ir ar,
             @import_file ascii_only (lit "t0") people_book (lit "people.xlsx")
                          None true None = Ok ir /\
             @analyze ascii_only (lit "t1") ir = Ok ar)
    by (eexists; eexists; split; [vm_compute; reflexivity|vm_compute; reflexivity]).
  destruct H as (ir & ar & H0 & H1).
  destruct (@analysis_serializes ascii_only _ _ _ _ _ _ _ _ _ H0 H1) as [d Hd].
  exists ir, ar, d. split; [exact H0|]. split; [exact H1|exact Hd].
Defined.


(** The numbers 100, 3, 1, 4, 2: the least is 1 and the greatest 100. *)
Lemma numeric_stats_order_witness :
  exists stats',
    @_compute_numeric_stats ascii_only (ColumnStats.init (lit "Amount") INTEGER)
                            five_shuffled = Ok stats' /\
    ColumnStats.min_val stats' = Some (Z2F 1) /\
    ColumnStats.max_val stats' = Some (Z2F 100).
Proof.
  eexists. split; [vm_compute; reflexivity|].
  match goal with
  | |- ColumnStats.min_val ?stats' = _ /\ _ =>
      assert (H : @_compute_numeric_stats ascii_only
                    (ColumnStats.init (lit "Amount") INTEGER) five_shuffled = Ok stats')
        by (vm_compute; reflexivity)
  end.
  assert (H1 : @coercible ascii_only five_shuffled = Ok (map Z2F [100; 3; 1; 4; 2]))
    by (vm_compute; reflexivity).
  assert (H2 : map Z2F [100; 3; 1; 4; 2] <> []) by discriminate.
  assert (H3 : Forall (fun x => is_nan x = false) (map Z2F [100; 3; 1; 4; 2]))
    by (repeat (constructor; [vm_compute; reflexivity|]); constructor).
  destruct (@numeric_stats_order ascii_only _ _ _ _ H H1 H2 H3)
    as (mn & mx & K1 & K2 & _ & _ & K).
  split; vm_compute; reflexivity.
Defined.

(** Of the three data rows of [people_book], a limit of -1 keeps two. *)
Lemma import_row_limit_witness :
  exists ir sheet,
    @import_file ascii_only (lit "t0") people_book (lit "people.xlsx") None true (Some (-1))
    = Ok ir /\
    In sheet (ImportResult.sheets ir) /\
    SheetData.row_count sheet = 2.
Proof.
  eexists. eexists. split; [vm_compute; reflexivity|]. split; [left; reflexivity|].
  match goal with
  | |- SheetData.row_count ?sheet = _ =>
      assert (H : exists ir,
                 @import_file ascii_only (lit "t0") people_book (lit "people.xlsx")
                              None true (Some (-1)) = Ok ir /\
                 In sheet (ImportResult.sheets ir))
        by (eexists; split; [vm_compute; reflexivity|left; reflexivity])
  end.
  destruct H as (ir & H0 & H1).
  destruct (@import_row_limit ascii_only _ _ _ _ _ _ _ _ H0 H1) as (ws & F & K).
  vm_compute in F. injection F as <-. rewrite K. vm_compute. reflexivity.
Defined.
